(** * Store management: inventory ledger and restaurant report analytics

    A shallow embedding of the parts of the repository that the
    specification talks about:

    - [database.py]: the SQLite-backed inventory ledger ([add_item],
      [remove_item], the manager operations, the low-stock query and the
      transaction history query), the cleanup of the log, the summary by
      category and the category table;
    - [app.py]: the two HTTP handlers that guard the ledger
      ([api_purchase], [api_kitchen]) with their login and role
      decorators, the listings ([api_items], [api_transactions]), the
      upload of a purchase list and the detection of category and unit;
    - [Restuarant Report/analysis.py]: the four pandas pipelines
      (leakage, variance, price trend, menu engineering);
    - [Restuarant Report/app.py]: the dashboard variants of the leakage,
      price-trend and menu pipelines, which treat division by zero
      differently, the daily trend and the summary.

    Numbers.  Python floats, SQLite REALs and pandas float64 columns are
    modelled by exact rationals ([Q]); float64 values that a computation can
    produce are rationals extended with the IEEE special values ([float64]).
    Binary rounding error, overflow and signed zeros are outside the model.

    Time.  A [datetime] is a day ordinal and a second of that day.  The text
    ['%Y-%m-%d %H:%M:%S'] of a datetime orders like the pair, the text
    ['%Y-%m-%d'] of a date orders like the day ordinal, and a datetime text
    compares [>=] against a date text exactly when its day does. *)

From Stdlib Require Import ZArith QArith Qround Lqa Lia.
From Stdlib Require Import List String Bool Permutation Sorted OrderedTypeEx.
Import ListNotations.

Open Scope Q_scope.

(* ================================================================= *)
(** * Part I: definitions *)
(* ================================================================= *)

(** ** Numbers *)

(** Round to the nearest integer, ties to the even one: what Python's
    [round] and numpy's [round] do at a tie. *)
Definition rint (x : Q) : Z :=
  let f := Qfloor x in
  match Qcompare (x - inject_Z f) (1 # 2) with
  | Lt => f
  | Gt => (f + 1)%Z
  | Eq => if Z.even f then f else (f + 1)%Z
  end.

(** [round(x, ndigits)]; the result is kept in lowest terms. *)
Definition py_round (x : Q) (ndigits : nat) : Q :=
  let s := inject_Z (10 ^ Z.of_nat ndigits) in
  Qred (inject_Z (rint (x * s)) / s).

Definition Qltb (x y : Q) : bool := negb (Qle_bool y x).

Definition Qabs_py (x : Q) : Q := if Qltb x 0 then - x else x.

(** float64 values: a rational or one of the IEEE special values. *)
Inductive float64 : Type :=
| Fin (q : Q)
| PInf
| NInf
| NaN.

(** The infinity a non-zero finite value turns into when it is divided by
    zero or multiplied by [+inf]; a zero gives [NaN]. *)
Definition inf_of (c : comparison) : float64 :=
  match c with
  | Gt => PInf
  | Lt => NInf
  | Eq => NaN
  end.

Definition fneg (a : float64) : float64 :=
  match a with
  | Fin p => Fin (- p)
  | PInf => NInf
  | NInf => PInf
  | NaN => NaN
  end.

Definition fadd (a b : float64) : float64 :=
  match a, b with
  | NaN, _ | _, NaN => NaN
  | Fin p, Fin q => Fin (p + q)
  | PInf, NInf | NInf, PInf => NaN
  | PInf, _ | _, PInf => PInf
  | NInf, _ | _, NInf => NInf
  end.

Definition fsub (a b : float64) : float64 := fadd a (fneg b).

Definition fmul (a b : float64) : float64 :=
  match a, b with
  | NaN, _ | _, NaN => NaN
  | Fin p, Fin q => Fin (p * q)
  | Fin p, PInf | PInf, Fin p => inf_of (Qcompare p 0)
  | Fin p, NInf | NInf, Fin p => inf_of (Qcompare 0 p)
  | PInf, PInf | NInf, NInf => PInf
  | PInf, NInf | NInf, PInf => NInf
  end.

Definition fdiv (a b : float64) : float64 :=
  match a, b with
  | NaN, _ | _, NaN => NaN
  | Fin p, Fin q => if Qeq_bool q 0 then inf_of (Qcompare p 0) else Fin (p / q)
  | Fin _, PInf | Fin _, NInf => Fin 0
  | PInf, Fin q => if Qle_bool 0 q then PInf else NInf
  | NInf, Fin q => if Qle_bool 0 q then NInf else PInf
  | _, _ => NaN
  end.

(** [Series.round(n)]: special values pass through. *)
Definition fround (ndigits : nat) (a : float64) : float64 :=
  match a with
  | Fin p => Fin (py_round p ndigits)
  | _ => a
  end.

(** [a >= b] on float64: false as soon as a side is NaN. *)
Definition fge (a b : float64) : bool :=
  match a, b with
  | NaN, _ | _, NaN => false
  | Fin p, Fin q => Qle_bool q p
  | PInf, _ => true
  | _, NInf => true
  | _, _ => false
  end.

Definition is_nan (a : float64) : bool :=
  match a with
  | NaN => true
  | _ => false
  end.

(** [fillna(0)] and [replace([np.inf, -np.inf], 0)] on one cell. *)
Definition fillna0 (a : float64) : float64 :=
  match a with
  | NaN => Fin 0
  | _ => a
  end.

Definition replace_inf0 (a : float64) : float64 :=
  match a with
  | PInf | NInf => Fin 0
  | _ => a
  end.

(** Equality of float64 values up to the representation of the rational. *)
Definition feq (a b : float64) : Prop :=
  match a, b with
  | Fin p, Fin q => p == q
  | PInf, PInf | NInf, NInf | NaN, NaN => True
  | _, _ => False
  end.

(** ** Sorting

    [ORDER BY] and [DataFrame.sort_values] are library code.  Both return
    the rows they were given, ordered by the key; neither fixes the order
    of rows with equal keys ([sort_values] defaults to quicksort).  They
    are taken as an interface: any function that meets it. *)

Definition total_on {A : Type} (leb : A -> A -> bool) : Prop :=
  forall a b, leb a b = true \/ leb b a = true.

Definition transitive_on {A : Type} (leb : A -> A -> bool) : Prop :=
  forall a b c, leb a b = true -> leb b c = true -> leb a c = true.

Class Sorter : Type := {
  sort_by : forall {A : Type}, (A -> A -> bool) -> list A -> list A;
  sort_by_perm : forall A (leb : A -> A -> bool) l,
    Permutation l (sort_by leb l);
  sort_by_sorted : forall A (leb : A -> A -> bool) l,
    total_on leb -> transitive_on leb ->
    StronglySorted (fun a b => leb a b = true) (sort_by leb l)
}.

(** Insertion sort, the instance used to run the model. *)
Fixpoint insert_by {A : Type} (leb : A -> A -> bool) (x : A) (l : list A) : list A :=
  match l with
  | [] => [x]
  | y :: t => if leb x y then x :: l else y :: insert_by leb x t
  end.

Definition insertion_sort {A : Type} (leb : A -> A -> bool) (l : list A) : list A :=
  fold_right (insert_by leb) [] l.

(** Descending order on float64 keys with NaN last
    ([ascending=False, na_position='last']). *)
Definition desc_nan_last (a b : float64) : bool :=
  match a, b with
  | _, NaN => true
  | NaN, _ => false
  | PInf, _ => true
  | _, PInf => false
  | _, NInf => true
  | NInf, _ => false
  | Fin p, Fin q => Qle_bool q p
  end.

(** Truthiness of an optional text ([if x:]): present and not empty. *)
Definition truthy (s : option string) : bool :=
  match s with
  | Some s' => negb (String.eqb s' EmptyString)
  | None => false
  end.

(** ** The ledger: [database.py] *)

Record datetime : Type := {
  dt_day : Z;
  dt_sec : Z
}.

(** A row of [store_inventory].  [item_name] carries no UNIQUE constraint
    in the schema. *)
Record inventory_row : Type := {
  inv_id : Z;
  inv_item_name : string;
  inv_category : string;
  inv_quantity : Q;
  inv_unit : string;
  inv_total_purchased : Q;
  inv_last_updated : datetime
}.

(** A row of [transactions]. *)
Record transaction_row : Type := {
  txn_id : Z;
  txn_item_name : string;
  txn_category : string;
  txn_quantity : Q;
  txn_unit : string;
  txn_transaction_type : string;
  txn_user_id : Z;
  txn_username : string;
  txn_rate : option Q;
  txn_amount : option Q;
  txn_vendor : option string;
  txn_notes : option string;
  txn_created_at : datetime
}.

(** The database: the two tables and their AUTOINCREMENT counters. *)
Record db : Type := {
  store_inventory : list inventory_row;
  inventory_seq : Z;
  transactions : list transaction_row;
  transactions_seq : Z
}.

Definition empty_db : db :=
  {| store_inventory := []; inventory_seq := 0;
     transactions := []; transactions_seq := 0 |}.

(** The second component of the [(success, message)] results. *)
Inductive message : Type :=
| MsgItemNotFoundInInventory
| MsgNotEnoughStock (available : Q) (unit_name : string)
| MsgItemsRemoved
| MsgItemAlreadyExists
| MsgItemAdded
| MsgItemNotFound
| MsgNameAlreadyExists
| MsgItemUpdated
| MsgItemDeleted.

(** [SELECT * FROM store_inventory WHERE item_name = ?] and [fetchone()]. *)
Definition select_item (name : string) (inv : list inventory_row) : option inventory_row :=
  find (fun r => String.eqb (inv_item_name r) name) inv.

(** [UPDATE store_inventory SET ... WHERE item_name = ?]. *)
Definition update_where (name : string) (f : inventory_row -> inventory_row)
    (inv : list inventory_row) : list inventory_row :=
  map (fun r => if String.eqb (inv_item_name r) name then f r else r) inv.

(** [DELETE FROM store_inventory WHERE item_name = ?]. *)
Definition delete_where (name : string) (inv : list inventory_row) : list inventory_row :=
  filter (fun r => negb (String.eqb (inv_item_name r) name)) inv.

Definition insert_inventory (d : db) (name cat : string) (qty : Q) (u : string)
    (total : Q) (now : datetime) : db :=
  let id := (inventory_seq d + 1)%Z in
  {| store_inventory := store_inventory d ++
       [ {| inv_id := id; inv_item_name := name; inv_category := cat;
            inv_quantity := qty; inv_unit := u; inv_total_purchased := total;
            inv_last_updated := now |} ];
     inventory_seq := id;
     transactions := transactions d;
     transactions_seq := transactions_seq d |}.

Definition set_inventory (d : db) (inv : list inventory_row) : db :=
  {| store_inventory := inv;
     inventory_seq := inventory_seq d;
     transactions := transactions d;
     transactions_seq := transactions_seq d |}.

Definition log_transaction (d : db) (name cat : string) (qty : Q) (u ty : string)
    (uid : Z) (uname : string) (rate amount : option Q)
    (vendor notes : option string) (now : datetime) : db :=
  let id := (transactions_seq d + 1)%Z in
  {| store_inventory := store_inventory d;
     inventory_seq := inventory_seq d;
     transactions := transactions d ++
       [ {| txn_id := id; txn_item_name := name; txn_category := cat;
            txn_quantity := qty; txn_unit := u; txn_transaction_type := ty;
            txn_user_id := uid; txn_username := uname; txn_rate := rate;
            txn_amount := amount; txn_vendor := vendor; txn_notes := notes;
            txn_created_at := now |} ];
     transactions_seq := id |}.

(** [add_item]: a purchase.  Always returns [True]. *)
Definition add_item (item_name category : string) (quantity : Q) (unit_name : string)
    (user_id : Z) (username : string) (rate amount : option Q)
    (vendor : option string) (now : datetime) (d : db) : bool * db :=
  let quantity := py_round quantity 3 in
  let d1 :=
    match select_item item_name (store_inventory d) with
    | Some existing =>
        let new_qty := py_round (inv_quantity existing + quantity) 3 in
        let new_total := py_round (inv_total_purchased existing + quantity) 3 in
        set_inventory d
          (update_where item_name
             (fun r => {| inv_id := inv_id r; inv_item_name := inv_item_name r;
                          inv_category := inv_category r; inv_quantity := new_qty;
                          inv_unit := inv_unit r; inv_total_purchased := new_total;
                          inv_last_updated := now |})
             (store_inventory d))
    | None => insert_inventory d item_name category quantity unit_name quantity now
    end in
  (true,
   log_transaction d1 item_name category quantity unit_name "purchase"
     user_id username rate amount vendor None now).

(** [remove_item]: an issue to the kitchen. *)
Definition remove_item (item_name : string) (quantity : Q) (user_id : Z)
    (username : string) (notes : option string) (now : datetime) (d : db)
    : (bool * message) * db :=
  let quantity := py_round quantity 3 in
  match select_item item_name (store_inventory d) with
  | None => ((false, MsgItemNotFoundInInventory), d)
  | Some existing =>
      let available_qty := py_round (inv_quantity existing) 3 in
      if Qltb (available_qty + 0.001) quantity then
        ((false, MsgNotEnoughStock available_qty (inv_unit existing)), d)
      else
        let new_quantity := py_round (available_qty - quantity) 3 in
        let new_quantity := if Qltb new_quantity 0 then 0 else new_quantity in
        let d1 :=
          set_inventory d
            (update_where item_name
               (fun r => {| inv_id := inv_id r; inv_item_name := inv_item_name r;
                            inv_category := inv_category r;
                            inv_quantity := new_quantity;
                            inv_unit := inv_unit r;
                            inv_total_purchased := inv_total_purchased r;
                            inv_last_updated := now |})
               (store_inventory d)) in
        ((true, MsgItemsRemoved),
         log_transaction d1 item_name (inv_category existing) quantity
           (inv_unit existing) "kitchen" user_id username None None None notes now)
  end.

(** [manager_add_item]: the INSERT names no [total_purchased], so the
    column takes its DEFAULT 0. *)
Definition manager_add_item (item_name category : string) (quantity : Q)
    (unit_name : string) (user_id : Z) (username : string) (now : datetime)
    (d : db) : (bool * message) * db :=
  match select_item item_name (store_inventory d) with
  | Some _ => ((false, MsgItemAlreadyExists), d)
  | None =>
      let d1 := insert_inventory d item_name category quantity unit_name 0 now in
      ((true, MsgItemAdded),
       log_transaction d1 item_name category quantity unit_name "manager_add"
         user_id username None None None (Some "Added by manager"%string) now)
  end.

(** [manager_update_item]. *)
Definition manager_update_item (original_name item_name category : string)
    (quantity : Q) (unit_name : string) (user_id : Z) (username : string)
    (now : datetime) (d : db) : (bool * message) * db :=
  match select_item original_name (store_inventory d) with
  | None => ((false, MsgItemNotFound), d)
  | Some existing =>
      let old_quantity := inv_quantity existing in
      if negb (String.eqb original_name item_name)
         && match select_item item_name (store_inventory d) with
            | Some _ => true
            | None => false
            end
      then ((false, MsgNameAlreadyExists), d)
      else
        let d1 :=
          set_inventory d
            (update_where original_name
               (fun r => {| inv_id := inv_id r; inv_item_name := item_name;
                            inv_category := category; inv_quantity := quantity;
                            inv_unit := unit_name;
                            inv_total_purchased := inv_total_purchased r;
                            inv_last_updated := now |})
               (store_inventory d)) in
        let quantity_diff := quantity - old_quantity in
        let d2 :=
          if Qeq_bool quantity_diff 0 then d1
          else
            let txn_type := if Qltb 0 quantity_diff then "purchase"%string
                            else "kitchen"%string in
            let quantity_diff := if Qltb 0 quantity_diff then quantity_diff
                                 else Qabs_py quantity_diff in
            log_transaction d1 item_name category quantity_diff unit_name txn_type
              user_id username None None None
              (Some "Adjusted by Manager"%string) now in
        ((true, MsgItemUpdated), d2)
  end.

(** [manager_delete_item]. *)
Definition manager_delete_item (item_name : string) (user_id : Z)
    (username : string) (now : datetime) (d : db) : (bool * message) * db :=
  match select_item item_name (store_inventory d) with
  | None => ((false, MsgItemNotFound), d)
  | Some existing =>
      let d1 := set_inventory d (delete_where item_name (store_inventory d)) in
      ((true, MsgItemDeleted),
       log_transaction d1 (inv_item_name existing) (inv_category existing)
         (inv_quantity existing) (inv_unit existing) "manager_delete"
         user_id username None None None (Some "Deleted by manager"%string) now)
  end.




(** [created_at] texts, compared as texts. *)
Definition datetime_leb (a b : datetime) : bool :=
  (dt_day a <? dt_day b)%Z || ((dt_day a =? dt_day b)%Z && (dt_sec a <=? dt_sec b)%Z).

(** [timedelta(days=30)] before [now], formatted ['%Y-%m-%d']. *)
Definition thirty_days_ago (now : datetime) : Z := (dt_day now - 30)%Z.

(** [LIMIT ?]: SQLite puts no bound on the rows when the value is
    negative. *)
Definition sql_limit {A : Type} (limit : Z) (rows : list A) : list A :=
  if (limit <? 0)%Z then rows else firstn (Z.to_nat limit) rows.

(** The WHERE clause [get_transactions] builds.  Dates given by the caller
    are day ordinals; [None] stands for an absent or empty parameter. *)
Definition transactions_where (transaction_type : option string)
    (date_filter from_date to_date : option Z) (now : datetime)
    (t : transaction_row) : bool :=
  let day := dt_day (txn_created_at t) in
  (thirty_days_ago now <=? day)%Z
  && (if truthy transaction_type
      then match transaction_type with
           | Some ty => String.eqb (txn_transaction_type t) ty
           | None => true
           end
      else true)
  && match from_date, to_date, date_filter with
     | Some f, Some u, _ => (f <=? day)%Z && (day <=? u)%Z
     | Some f, None, _ => (f <=? day)%Z
     | None, Some u, _ => (day <=? u)%Z
     | None, None, Some e => (day =? e)%Z
     | None, None, None => true
     end.

(** [cleanup_old_transactions]: returns the number of rows deleted. *)
Definition cleanup_old_transactions (now : datetime) (d : db) : Z * db :=
  let keep := filter (fun t => negb (dt_day (txn_created_at t) <? thirty_days_ago now)%Z)
                (transactions d) in
  (Z.of_nat (List.length (transactions d)) - Z.of_nat (List.length keep),
   {| store_inventory := store_inventory d; inventory_seq := inventory_seq d;
      transactions := keep; transactions_seq := transactions_seq d |})%Z.

Section Queries.

Context {S : Sorter}.


(** [get_transactions(limit=50, transaction_type=None, date_filter=None,
    from_date=None, to_date=None)]. *)
Definition get_transactions (limit : Z) (transaction_type : option string)
    (date_filter from_date to_date : option Z) (now : datetime) (d : db)
    : list transaction_row :=
  sql_limit limit
    (sort_by (fun a b => datetime_leb (txn_created_at b) (txn_created_at a))
       (filter (transactions_where transaction_type date_filter from_date to_date now)
          (transactions d))).

End Queries.

(** ** The handlers of [app.py] in front of the ledger *)

Record session : Type := {
  session_user_id : Z;
  session_username : string
}.

(** The JSON body of [POST /api/purchase]; an absent key reads as [None],
    an absent quantity as 0. *)
Record purchase_request : Type := {
  pr_item_name : option string;
  pr_category : option string;
  pr_quantity : Q;
  pr_unit : option string;
  pr_rate : option Q;
  pr_amount : option Q;
  pr_vendor : option string
}.

Record kitchen_request : Type := {
  kr_item_name : option string;
  kr_quantity : Q;
  kr_notes : option string
}.

Inductive response : Type :=
| Success
| Failure (status : Z).

Definition text_of (s : option string) : string :=
  match s with
  | Some s' => s'
  | None => EmptyString
  end.

(** [api_purchase]: [all([item_name, category, quantity, unit])] is the only
    check before [add_item]. *)
Definition api_purchase (ses : session) (data : purchase_request)
    (now : datetime) (d : db) : response * db :=
  if negb (truthy (pr_item_name data) && truthy (pr_category data)
           && negb (Qeq_bool (pr_quantity data) 0) && truthy (pr_unit data))
  then (Failure 400, d)
  else
    let '(success, d1) :=
      add_item (text_of (pr_item_name data)) (text_of (pr_category data))
        (pr_quantity data) (text_of (pr_unit data))
        (session_user_id ses) (session_username ses)
        (pr_rate data) (pr_amount data) (pr_vendor data) now d in
    if success then (Success, d1) else (Failure 500, d1).

(** [api_kitchen]: rejects [quantity <= 0] before [remove_item]. *)
Definition api_kitchen (ses : session) (data : kitchen_request)
    (now : datetime) (d : db) : response * db :=
  if negb (truthy (kr_item_name data)) || Qle_bool (kr_quantity data) 0
  then (Failure 400, d)
  else
    let '((success, _), d1) :=
      remove_item (text_of (kr_item_name data)) (kr_quantity data)
        (session_user_id ses) (session_username ses) (kr_notes data) now d in
    if success then (Success, d1) else (Failure 400, d1).

(** Ledger operations, for runs of the ledger. *)
Inductive ledger_op : Type :=
| OpAddItem (item_name category : string) (quantity : Q) (unit_name : string)
    (user_id : Z) (username : string) (rate amount : option Q)
    (vendor : option string) (now : datetime)
| OpRemoveItem (item_name : string) (quantity : Q) (user_id : Z)
    (username : string) (notes : option string) (now : datetime)
| OpManagerAdd (item_name category : string) (quantity : Q) (unit_name : string)
    (user_id : Z) (username : string) (now : datetime)
| OpManagerUpdate (original_name item_name category : string) (quantity : Q)
    (unit_name : string) (user_id : Z) (username : string) (now : datetime)
| OpManagerDelete (item_name : string) (user_id : Z) (username : string)
    (now : datetime).

Definition run_op (o : ledger_op) (d : db) : db :=
  match o with
  | OpAddItem n c q u uid un r a v now => snd (add_item n c q u uid un r a v now d)
  | OpRemoveItem n q uid un notes now => snd (remove_item n q uid un notes now d)
  | OpManagerAdd n c q u uid un now => snd (manager_add_item n c q u uid un now d)
  | OpManagerUpdate o' n c q u uid un now =>
      snd (manager_update_item o' n c q u uid un now d)
  | OpManagerDelete n uid un now => snd (manager_delete_item n uid un now d)
  end.

Definition run_ops (ops : list ledger_op) (d : db) : db :=
  fold_left (fun d' o => run_op o d') ops d.

(** ** The report analytics: [Restuarant Report/analysis.py] *)

(** Rows of the four input frames.  [Date] columns, once through
    [pd.to_datetime], are ordered timestamps. *)
Record purchase_record : Type := {
  pur_date : Z;
  pur_item_name : string;
  pur_quantity : Q;
  pur_unit : string;
  pur_rate : Q;
  pur_amount : Q
}.

Record issue_record : Type := {
  iss_date : Z;
  iss_item_name : string;
  iss_quantity_issued : Q;
  iss_unit : string
}.

Record sale_record : Type := {
  sal_date : Z;
  sal_item_name : string;
  sal_category : string;
  sal_quantity_sold : Q;
  sal_revenue : Q;
  sal_food_cost : Q;
  sal_profit : Q
}.

Record bom_record : Type := {
  bom_menu_item : string;
  bom_ingredient : string;
  bom_quantity_required : Q;
  bom_unit : string
}.

(** *** groupby, aggregation, outer join *)

(** The index of a [groupby]: the distinct keys in text order. *)
Fixpoint insert_key (k : string) (l : list string) : list string :=
  match l with
  | [] => [k]
  | h :: t =>
      match String.compare k h with
      | Lt => k :: l
      | Eq => l
      | Gt => h :: insert_key k t
      end
  end.

Definition group_keys (names : list string) : list string :=
  fold_right insert_key [] names.

Definition group_rows {A : Type} (name_of : A -> string) (k : string)
    (rows : list A) : list A :=
  filter (fun r => String.eqb (name_of r) k) rows.

Definition Qsum (l : list Q) : Q := fold_right Qplus 0 l.

(** [df.groupby(key)[col].sum()]: one entry per key. *)
Definition groupby_sum {A : Type} (name_of : A -> string) (val_of : A -> Q)
    (rows : list A) : list (string * Q) :=
  map (fun k => (k, Qsum (map val_of (group_rows name_of k rows))))
    (group_keys (map name_of rows)).

(** [df.groupby(key)[col].first()]. *)
Definition groupby_first {A B : Type} (name_of : A -> string) (val_of : A -> B)
    (rows : list A) : list (string * option B) :=
  map (fun k => (k, hd_error (map val_of (group_rows name_of k rows))))
    (group_keys (map name_of rows)).

Fixpoint lookup {B : Type} (k : string) (s : list (string * B)) : option B :=
  match s with
  | [] => None
  | (k', v) :: t => if String.eqb k' k then Some v else lookup k t
  end.

(** A cell of a joined frame: the value, or NaN where the side has no
    such key. *)
Definition cell (k : string) (s : list (string * Q)) : float64 :=
  match lookup k s with
  | Some v => Fin v
  | None => NaN
  end.

(** The index of [left.join(right, how='outer')]. *)
Definition outer_index {B C : Type} (l : list (string * B)) (r : list (string * C))
    : list string :=
  group_keys (map fst l ++ map fst r).

(** *** Analysis 1: leakage and waste *)

(** A row of the leakage frame.  [lk_unit] is [None] where [fillna(0)]
    put a 0 in the text column. *)
Record leakage_row : Type := {
  lk_item_name : string;
  lk_total_purchased : float64;
  lk_amount : float64;
  lk_unit : option string;
  lk_total_issued : float64;
  lk_difference : float64;
  lk_leakage_pct : float64;
  lk_value_lost : float64
}.

Definition purchased_quantity (purchase_df : list purchase_record) : list (string * Q) :=
  groupby_sum pur_item_name pur_quantity purchase_df.

Definition purchased_amount (purchase_df : list purchase_record) : list (string * Q) :=
  groupby_sum pur_item_name pur_amount purchase_df.

Definition issued_quantity (stk_df : list issue_record) : list (string * Q) :=
  groupby_sum iss_item_name iss_quantity_issued stk_df.

Definition leakage_row_of (purchase_df : list purchase_record)
    (stk_df : list issue_record) (k : string) : leakage_row :=
  let total_purchased := fillna0 (cell k (purchased_quantity purchase_df)) in
  let amount := fillna0 (cell k (purchased_amount purchase_df)) in
  let total_issued := fillna0 (cell k (issued_quantity stk_df)) in
  let difference := fsub total_purchased total_issued in
  {| lk_item_name := k;
     lk_total_purchased := total_purchased;
     lk_amount := amount;
     lk_unit := match lookup k (groupby_first pur_item_name pur_unit purchase_df) with
                | Some u => u
                | None => None
                end;
     lk_total_issued := total_issued;
     lk_difference := difference;
     lk_leakage_pct := fround 2 (fmul (fdiv difference total_purchased) (Fin 100));
     lk_value_lost := fround 2 (fmul (fdiv difference total_purchased) amount) |}.

(** The joined frame before [sort_values]. *)
Definition leakage_frame (purchase_df : list purchase_record)
    (stk_df : list issue_record) : list leakage_row :=
  map (leakage_row_of purchase_df stk_df)
    (outer_index (purchased_quantity purchase_df) (issued_quantity stk_df)).

(** *** Analysis 2: theoretical against actual consumption *)


(** [if k not in d: d[k] = 0] then [d[k] += v], on a dict kept in insertion
    order. *)
Fixpoint dict_add (k : string) (v : Q) (d : list (string * Q)) : list (string * Q) :=
  match d with
  | [] => [(k, 0 + v)]
  | (k', v') :: t =>
      if String.eqb k' k then (k', v' + v) :: t else (k', v') :: dict_add k v t
  end.

(** The loop over the recipe rows. *)
Definition theoretical_needed (sales_df : list sale_record)
    (bom_df : list bom_record) : list (string * Q) :=
  let sales_qty := groupby_sum sal_item_name sal_quantity_sold sales_df in
  fold_left
    (fun theoretical row =>
       match lookup (bom_menu_item row) sales_qty with
       | Some units_sold =>
           dict_add (bom_ingredient row) (units_sold * bom_quantity_required row)
             theoretical
       | None => theoretical
       end)
    bom_df [].



(** *** Analysis 3: price trends *)

Record price_trend : Type := {
  pt_dates : list Z;
  pt_prices : list Q;
  pt_first_price : Q;
  pt_last_price : Q;
  pt_change : float64
}.

(** [Series.nlargest(n)] with [keep='first']: descending by value, earlier
    rows first among equal values. *)
Definition nlargest (n : nat) (s : list (string * Q)) : list (string * Q) :=
  firstn n (insertion_sort (fun a b => Qle_bool (snd b) (snd a)) s).

Definition top_items (purchase_df : list purchase_record) : list string :=
  map fst (nlargest 5 (purchased_amount purchase_df)).

Definition price_change (first_price last_price : Q) : float64 :=
  fmul (fdiv (Fin (last_price - first_price)) (Fin first_price)) (Fin 100).

Fixpoint traverse {A B : Type} (f : A -> option B) (l : list A) : option (list B) :=
  match l with
  | [] => Some []
  | a :: t =>
      match f a, traverse f t with
      | Some b, Some bs => Some (b :: bs)
      | _, _ => None
      end
  end.

(** *** Analysis 4: menu engineering *)

Inductive classification : Type :=
| STAR
| PLOW_HORSE
| PUZZLE
| DOG.


(** A row of the aggregated sales frame, before classification. *)
Record menu_row : Type := {
  mn_item_name : string;
  mn_quantity_sold : Q;
  mn_revenue : Q;
  mn_food_cost : Q;
  mn_profit : Q;
  mn_category : option string;
  mn_profit_margin_pct : float64
}.

Definition menu_row_of (sales_df : list sale_record) (k : string) : menu_row :=
  let g := group_rows sal_item_name k sales_df in
  let revenue := Qsum (map sal_revenue g) in
  let profit := Qsum (map sal_profit g) in
  {| mn_item_name := k;
     mn_quantity_sold := Qsum (map sal_quantity_sold g);
     mn_revenue := revenue;
     mn_food_cost := Qsum (map sal_food_cost g);
     mn_profit := profit;
     mn_category := hd_error (map sal_category g);
     mn_profit_margin_pct := fround 2 (fmul (fdiv (Fin profit) (Fin revenue)) (Fin 100)) |}.

Definition menu_frame (sales_df : list sale_record) : list menu_row :=
  map (menu_row_of sales_df) (group_keys (map sal_item_name sales_df)).

Definition fsum (l : list float64) : float64 := fold_right fadd (Fin 0) l.

(** [Series.mean()]: NaN cells are skipped; with no cell left the mean is
    NaN. *)
Definition mean (l : list float64) : float64 :=
  let present := filter (fun a => negb (is_nan a)) l in
  fdiv (fsum present) (Fin (inject_Z (Z.of_nat (List.length present)))).

Definition avg_popularity (menu : list menu_row) : float64 :=
  mean (map (fun r => Fin (mn_quantity_sold r)) menu).

Definition avg_profitability (menu : list menu_row) : float64 :=
  mean (map mn_profit_margin_pct menu).

Definition classify_item (avg_pop avg_profit : float64) (row : menu_row) : classification :=
  let high_pop := fge (Fin (mn_quantity_sold row)) avg_pop in
  let high_profit := fge (mn_profit_margin_pct row) avg_profit in
  if high_pop && high_profit then STAR
  else if high_pop && negb high_profit then PLOW_HORSE
  else if negb high_pop && high_profit then PUZZLE
  else DOG.

(** [menu_engineering_analysis]: each aggregated row with its label. *)
Definition menu_engineering_analysis (sales_df : list sale_record)
    : list (menu_row * classification) :=
  let menu_analysis := menu_frame sales_df in
  let avg_pop := avg_popularity menu_analysis in
  let avg_profit := avg_profitability menu_analysis in
  map (fun row => (row, classify_item avg_pop avg_profit row)) menu_analysis.


Section Reports.

Context {S : Sorter}.

Definition sort_values_desc {A : Type} (key : A -> float64) (rows : list A) : list A :=
  sort_by (fun a b => desc_nan_last (key a) (key b)) rows.

(** [leakage_waste_analysis]. *)
Definition leakage_waste_analysis (purchase_df : list purchase_record)
    (stk_df : list issue_record) : list leakage_row :=
  sort_values_desc lk_leakage_pct (leakage_frame purchase_df stk_df).


(** [item_data.sort_values('Date')]. *)
Definition sort_by_date (rows : list purchase_record) : list purchase_record :=
  sort_by (fun a b => (pur_date a <=? pur_date b)%Z) rows.

(** The body of the loop over [top_items]; [None] is the IndexError of
    [iloc[0]] on an empty frame. *)
Definition price_trend_of (purchase_df : list purchase_record) (item : string)
    : option (string * price_trend) :=
  let item_data := sort_by_date (group_rows pur_item_name item purchase_df) in
  match item_data with
  | [] => None
  | r0 :: _ =>
      let first_price := pur_rate r0 in
      let last_price := pur_rate (last item_data r0) in
      Some (item,
            {| pt_dates := map pur_date item_data;
               pt_prices := map pur_rate item_data;
               pt_first_price := first_price;
               pt_last_price := last_price;
               pt_change := price_change first_price last_price |})
  end.

(** [price_trend_analysis]. *)
Definition price_trend_analysis (purchase_df : list purchase_record)
    : option (list (string * price_trend)) :=
  traverse (price_trend_of purchase_df) (top_items purchase_df).

End Reports.

(** ** The dashboard variants: [Restuarant Report/app.py] *)

(** [analysis.replace([np.inf, -np.inf], 0).fillna(0)] on one cell. *)
Definition clean_cell (a : float64) : float64 := fillna0 (replace_inf0 a).

Definition clean_leakage_row (r : leakage_row) : leakage_row :=
  {| lk_item_name := lk_item_name r;
     lk_total_purchased := clean_cell (lk_total_purchased r);
     lk_amount := clean_cell (lk_amount r);
     lk_unit := lk_unit r;
     lk_total_issued := clean_cell (lk_total_issued r);
     lk_difference := clean_cell (lk_difference r);
     lk_leakage_pct := clean_cell (lk_leakage_pct r);
     lk_value_lost := clean_cell (lk_value_lost r) |}.

(** [change = (...) if first_price > 0 else 0], then [round(change, 2)]. *)
Definition dashboard_price_change (first_price last_price : Q) : float64 :=
  fround 2 (if Qltb 0 first_price then price_change first_price last_price
            else Fin 0).

Section Dashboard.

Context {S : Sorter}.

(** [leakage_analysis] of the dashboard. *)
Definition leakage_analysis (purchase_df : list purchase_record)
    (stk_df : list issue_record) : list leakage_row :=
  sort_values_desc lk_leakage_pct
    (map clean_leakage_row (leakage_frame purchase_df stk_df)).

End Dashboard.

(** ** Wordings of the specification, to compare the code against *)


(** "quantity >= 0 at all times". *)
Definition quantity_nonneg (d : db) : Prop :=
  Forall (fun r => 0 <= inv_quantity r) (store_inventory d).

(** "quantity <= total_purchased is the accounting invariant". *)
Definition reconciled (d : db) : Prop :=
  Forall (fun r => inv_quantity r <= inv_total_purchased r) (store_inventory d).

(** "total_purchased only increases": a row still in the table (same id)
    has at least the total it had. *)
Definition total_purchased_kept (d d' : db) : Prop :=
  forall r r', In r (store_inventory d) -> In r' (store_inventory d') ->
    inv_id r' = inv_id r -> inv_total_purchased r <= inv_total_purchased r'.

(** The runs the amended invariants are about: a positive quantity for a
    purchase and an issue, a quantity that is not negative for a manager's
    entry. *)
Definition op_ok (o : ledger_op) : Prop :=
  match o with
  | OpAddItem _ _ q _ _ _ _ _ _ _ => 0 < q
  | OpRemoveItem _ q _ _ _ _ => 0 < q
  | OpManagerAdd _ _ q _ _ _ _ => 0 <= q
  | OpManagerUpdate _ _ _ q _ _ _ _ => 0 <= q
  | OpManagerDelete _ _ _ _ => True
  end.

(** The manager's direct entries of a quantity. *)
Definition is_override (o : ledger_op) : bool :=
  match o with
  | OpManagerAdd _ _ _ _ _ _ _ => true
  | OpManagerUpdate _ _ _ _ _ _ _ _ => true
  | _ => false
  end.

(** ** Auxiliary predicates of the proofs *)

(** A value with at most [n] decimals: an integer over [10^n]. *)
Definition on_grid (n : nat) (x : Q) : Prop :=
  exists z : Z, x == inject_Z z / inject_Z (10 ^ Z.of_nat n).

(** Everything but [quantity] and [last_updated] agrees. *)
Definition same_but_quantity (r r' : inventory_row) : Prop :=
  inv_id r' = inv_id r /\
  inv_item_name r' = inv_item_name r /\
  inv_category r' = inv_category r /\
  inv_unit r' = inv_unit r /\
  inv_total_purchased r' = inv_total_purchased r.

(** What holds of every database the operations build from the empty
    one: quantities are not negative, totals have at most 3 decimals, ids
    are distinct and at most the counter. *)
Definition ledger_inv (d : db) : Prop :=
  Forall (fun r => 0 <= inv_quantity r /\ on_grid 3 (inv_total_purchased r))
    (store_inventory d) /\
  NoDup (map inv_id (store_inventory d)) /\
  Forall (fun r => (inv_id r <= inventory_seq d)%Z) (store_inventory d).

(** Item names stay distinct, although the schema does not ask for it. *)
Definition names_unique (d : db) : Prop :=
  NoDup (map inv_item_name (store_inventory d)).

(** The value a dict holds for a key, 0 when the key is absent. *)
Definition dict_get0 (k : string) (d : list (string * Q)) : Q :=
  match lookup k d with
  | Some v => v
  | None => 0
  end.

(** What a recipe row adds to the requirement of ingredient [k]. *)
Definition bom_contribution (sales_df : list sale_record) (k : string)
    (row : bom_record) : Q :=
  if String.eqb (bom_ingredient row) k then
    match lookup (bom_menu_item row)
            (groupby_sum sal_item_name sal_quantity_sold sales_df) with
    | Some units_sold => units_sold * bom_quantity_required row
    | None => 0
    end
  else 0.

(** ** Sample data *)

Definition noon (day : Z) : datetime := {| dt_day := day; dt_sec := 43200 |}.



Definition purchase_of (day : Z) (name : string) (q rate : Q) : purchase_record :=
  {| pur_date := day; pur_item_name := name; pur_quantity := q;
     pur_unit := "Kg"; pur_rate := rate; pur_amount := q * rate |}.

Definition issue_of (day : Z) (name : string) (q : Q) : issue_record :=
  {| iss_date := day; iss_item_name := name; iss_quantity_issued := q;
     iss_unit := "Kg" |}.

Definition sale_of (day : Z) (name : string) (sold revenue profit : Q) : sale_record :=
  {| sal_date := day; sal_item_name := name; sal_category := "Main";
     sal_quantity_sold := sold; sal_revenue := revenue;
     sal_food_cost := revenue - profit; sal_profit := profit |}.


(** ** More of [database.py]: the summary, the categories *)

(** A row of [get_inventory_summary]. *)
Record summary_row : Type := {
  sm_category : string;
  sm_item_count : Z;
  sm_in_stock : Z;
  sm_out_of_stock : Z
}.

(** [SUM(CASE WHEN cond THEN 1 ELSE 0 END)]. *)
Definition sum_case {A : Type} (cond : A -> bool) (rows : list A) : Z :=
  fold_right Z.add 0%Z (map (fun r => if cond r then 1%Z else 0%Z) rows).

(** [get_inventory_summary]: [GROUP BY category ORDER BY category]. *)
Definition get_inventory_summary (d : db) : list summary_row :=
  map (fun c =>
         let g := filter (fun r => String.eqb (inv_category r) c) (store_inventory d) in
         {| sm_category := c;
            sm_item_count := Z.of_nat (List.length g);
            sm_in_stock := sum_case (fun r => Qltb 0 (inv_quantity r)) g;
            sm_out_of_stock := sum_case (fun r => Qeq_bool (inv_quantity r) 0) g |})
    (group_keys (map inv_category (store_inventory d))).

(** A row of [categories]; [name] is UNIQUE. *)
Record category_row : Type := {
  cat_id : Z;
  cat_name : string;
  cat_icon : string
}.

Record category_table : Type := {
  categories : list category_row;
  categories_seq : Z
}.

Definition empty_categories : category_table :=
  {| categories := []; categories_seq := 0 |}.

Inductive category_message : Type :=
| MsgCategoryAdded
| MsgCategoryExists
| MsgCategoryNotFound
| MsgCategoryNameTaken
| MsgCategoryUpdated
| MsgCategoryInUse (count : Z)
| MsgCategoryDeleted.

(** [INSERT INTO categories (name, icon)]; [None] is the IntegrityError of
    the UNIQUE constraint. *)
Definition insert_category (name icon : string) (t : category_table)
    : option category_table :=
  if existsb (fun c => String.eqb (cat_name c) name) (categories t) then None
  else
    let id := (categories_seq t + 1)%Z in
    Some {| categories := categories t ++
              [ {| cat_id := id; cat_name := name; cat_icon := icon |} ];
            categories_seq := id |}.

(** The loop of [init_db] over [default_categories]: an IntegrityError is
    passed over. *)
Definition init_categories (default_categories : list (string * string))
    (t : category_table) : category_table :=
  fold_left
    (fun t' ni =>
       match insert_category (fst ni) (snd ni) t' with
       | Some t'' => t''
       | None => t'
       end)
    default_categories t.

(** [add_category]. *)
Definition add_category (name icon : string) (t : category_table)
    : (bool * category_message) * category_table :=
  match insert_category name icon t with
  | Some t' => ((true, MsgCategoryAdded), t')
  | None => ((false, MsgCategoryExists), t)
  end.

Definition select_category (category_id : Z) (t : category_table) : option category_row :=
  find (fun c => (cat_id c =? category_id)%Z) (categories t).

(** [UPDATE store_inventory SET category = ? WHERE category = ?]. *)
Definition recategorise (old_name new_name : string) (inv : list inventory_row)
    : list inventory_row :=
  map (fun r =>
         if String.eqb (inv_category r) old_name then
           {| inv_id := inv_id r; inv_item_name := inv_item_name r;
              inv_category := new_name; inv_quantity := inv_quantity r;
              inv_unit := inv_unit r;
              inv_total_purchased := inv_total_purchased r;
              inv_last_updated := inv_last_updated r |}
         else r)
    inv.

(** [update_category]. *)
Definition update_category (category_id : Z) (new_name new_icon : string)
    (t : category_table) (d : db)
    : (bool * category_message) * (category_table * db) :=
  match select_category category_id t with
  | None => ((false, MsgCategoryNotFound), (t, d))
  | Some old_cat =>
      let old_name := cat_name old_cat in
      if existsb (fun c => String.eqb (cat_name c) new_name
                           && negb (cat_id c =? category_id)%Z)
           (categories t)
      then ((false, MsgCategoryNameTaken), (t, d))
      else
        ((true, MsgCategoryUpdated),
         ({| categories :=
               map (fun c =>
                      if (cat_id c =? category_id)%Z then
                        {| cat_id := cat_id c; cat_name := new_name;
                           cat_icon := new_icon |}
                      else c)
                 (categories t);
             categories_seq := categories_seq t |},
          set_inventory d (recategorise old_name new_name (store_inventory d))))
  end.

(** [delete_category]: reads the inventory, writes only [categories]. *)
Definition delete_category (category_id : Z) (t : category_table) (d : db)
    : (bool * category_message) * category_table :=
  match select_category category_id t with
  | None => ((false, MsgCategoryNotFound), t)
  | Some cat =>
      let count :=
        Z.of_nat (List.length
                    (filter (fun r => String.eqb (inv_category r) (cat_name cat))
                       (store_inventory d))) in
      if (0 <? count)%Z then ((false, MsgCategoryInUse count), t)
      else
        ((true, MsgCategoryDeleted),
         {| categories :=
              filter (fun c => negb (cat_id c =? category_id)%Z) (categories t);
            categories_seq := categories_seq t |})
  end.

(** ** More of [app.py]: sessions, roles, routes *)

(** The signed session cookie: empty, or the three keys [login] sets
    together (user_id, username, role). *)
Definition web_session : Type := option (session * string).

Inductive route_response : Type :=
| RedirectLogin
| AccessDenied
| ServerError
| Served (r : response).

(** [login_required]. *)
Definition login_required (f : web_session -> db -> route_response * db)
    (ws : web_session) (d : db) : route_response * db :=
  match ws with
  | None => (RedirectLogin, d)
  | Some _ => f ws d
  end.

(** [role_required(allowed_roles)]. *)
Definition role_required (allowed_roles : list string)
    (f : web_session -> db -> route_response * db)
    (ws : web_session) (d : db) : route_response * db :=
  match ws with
  | None => (RedirectLogin, d)
  | Some (_, role) =>
      if existsb (String.eqb role) allowed_roles then f ws d
      else (AccessDenied, d)
  end.

(** A view that reads [session['user_id']]: without the key it raises. *)
Definition view (h : session -> db -> response * db)
    (ws : web_session) (d : db) : route_response * db :=
  match ws with
  | Some (ses, _) => let '(r, d') := h ses d in (Served r, d')
  | None => (ServerError, d)
  end.

(** [POST /api/purchase] and [POST /api/kitchen] with their decorators. *)
Definition route_api_purchase (data : purchase_request) (now : datetime)
    : web_session -> db -> route_response * db :=
  login_required
    (role_required ["purchase"%string]
       (view (fun ses => api_purchase ses data now))).

Definition route_api_kitchen (data : kitchen_request) (now : datetime)
    : web_session -> db -> route_response * db :=
  login_required
    (role_required ["kitchen"%string]
       (view (fun ses => api_kitchen ses data now))).

(** ** Wordings for the audit log *)

(** The quantities logged for an item under one transaction type, summed. *)
Definition logged_quantity (ty name : string) (log : list transaction_row) : Q :=
  Qsum (map txn_quantity
          (filter (fun t => String.eqb (txn_item_name t) name
                            && String.eqb (txn_transaction_type t) ty)
             log)).

(** The operations of the purchase and kitchen desks. *)
Definition is_stock_move (o : ledger_op) : bool :=
  match o with
  | OpAddItem _ _ _ _ _ _ _ _ _ _ => true
  | OpRemoveItem _ _ _ _ _ _ => true
  | _ => false
  end.

(** What holds of every database the purchase and kitchen desks build from
    the empty one: distinct names, a log that names only items of the
    table, and for every item stock figures with at most 3 decimals,
    total_purchased equal to what the log says was purchased, and a quantity
    of at least purchased less issued. *)
Definition balanced (d : db) : Prop :=
  names_unique d /\
  Forall (fun t => In (txn_item_name t) (map inv_item_name (store_inventory d)))
    (transactions d) /\
  Forall (fun r =>
            on_grid 3 (inv_quantity r) /\
            on_grid 3 (inv_total_purchased r) /\
            inv_total_purchased r ==
              logged_quantity "purchase" (inv_item_name r) (transactions d) /\
            logged_quantity "purchase" (inv_item_name r) (transactions d)
            - logged_quantity "kitchen" (inv_item_name r) (transactions d)
            <= inv_quantity r)
    (store_inventory d).

(** Calls of the category functions, for runs over the two tables. *)
Inductive category_op : Type :=
| OpAddCategory (name icon : string)
| OpUpdateCategory (category_id : Z) (new_name new_icon : string)
| OpDeleteCategory (category_id : Z).

Definition run_category_op (o : category_op) (s : category_table * db)
    : category_table * db :=
  match o with
  | OpAddCategory name icon => (snd (add_category name icon (fst s)), snd s)
  | OpUpdateCategory category_id new_name new_icon =>
      snd (update_category category_id new_name new_icon (fst s) (snd s))
  | OpDeleteCategory category_id =>
      (snd (delete_category category_id (fst s) (snd s)), snd s)
  end.

Definition run_category_ops (ops : list category_op) (s : category_table * db)
    : category_table * db :=
  fold_left (fun s' o => run_category_op o s') ops s.

(** What the schema asks of [categories]: [name] UNIQUE, [id] a primary
    key handed out by the counter. *)
Definition categories_ok (t : category_table) : Prop :=
  NoDup (map cat_name (categories t)) /\
  NoDup (map cat_id (categories t)) /\
  Forall (fun c => (cat_id c <= categories_seq t)%Z) (categories t).

(** Every item's category is a row of [categories]. *)
Definition categories_cover (t : category_table) (d : db) : Prop :=
  forall r, In r (store_inventory d) ->
    In (inv_category r) (map cat_name (categories t)).

(** ** More of the dashboard: [menu_engineering] *)

(** [classify] of the dashboard's [menu_engineering]: an if / elif chain
    without the negations [classify_item] spells out. *)
Definition dashboard_classify (avg_pop avg_profit : float64) (row : menu_row)
    : classification :=
  let high_pop := fge (Fin (mn_quantity_sold row)) avg_pop in
  let high_profit := fge (mn_profit_margin_pct row) avg_profit in
  if high_pop && high_profit then STAR
  else if high_pop then PLOW_HORSE
  else if high_profit then PUZZLE
  else DOG.

Record menu_engineering_result : Type := {
  me_data : list (menu_row * classification);
  me_avg_popularity : float64;
  me_avg_profit_margin : float64
}.

(** [menu_engineering] of the dashboard. *)
Definition menu_engineering (sales_df : list sale_record) : menu_engineering_result :=
  let menu := menu_frame sales_df in
  let avg_pop := mean (map (fun r => Fin (mn_quantity_sold r)) menu) in
  let avg_profit := mean (map mn_profit_margin_pct menu) in
  {| me_data := map (fun row => (row, dashboard_classify avg_pop avg_profit row)) menu;
     me_avg_popularity := fround 0 avg_pop;
     me_avg_profit_margin := fround 2 avg_profit |}.

(** ** More of [app.py]: listings, the history route, the upload *)

(** [ORDER BY category, item_name]. *)
Definition category_name_leb (a b : inventory_row) : bool :=
  match String.compare (inv_category a) (inv_category b) with
  | Lt => true
  | Gt => false
  | Eq => String.leb (inv_item_name a) (inv_item_name b)
  end.

Record item_hint : Type := {
  ih_name : string;
  ih_category : string;
  ih_unit : string
}.

(** [t['quantity'] = round(t['quantity'], 3)]. *)
Definition round_transaction (t : transaction_row) : transaction_row :=
  {| txn_id := txn_id t; txn_item_name := txn_item_name t;
     txn_category := txn_category t; txn_quantity := py_round (txn_quantity t) 3;
     txn_unit := txn_unit t; txn_transaction_type := txn_transaction_type t;
     txn_user_id := txn_user_id t; txn_username := txn_username t;
     txn_rate := txn_rate t; txn_amount := txn_amount t;
     txn_vendor := txn_vendor t; txn_notes := txn_notes t;
     txn_created_at := txn_created_at t |}.

Section Listings.

Context {S : Sorter}.

(** [get_inventory]. *)
Definition get_inventory (d : db) : list inventory_row :=
  sort_by category_name_leb (store_inventory d).

(** [api_items]: the items offered to the kitchen desk. *)
Definition api_items (d : db) : list item_hint :=
  map (fun item => {| ih_name := inv_item_name item;
                      ih_category := inv_category item;
                      ih_unit := inv_unit item |})
    (filter (fun item => Qltb 0 (inv_quantity item)) (get_inventory d)).

(** [api_transactions]: the cleanup, then the query; [limit] is [None]
    where the parameter is absent or no integer. *)
Definition api_transactions (transaction_type : option string)
    (date_filter from_date to_date : option Z) (limit : option Z)
    (now : datetime) (d : db) : list transaction_row * db :=
  let d1 := snd (cleanup_old_transactions now d) in
  let limit := match limit with
               | Some l => l
               | None => 100%Z
               end in
  (map round_transaction
     (get_transactions limit transaction_type date_filter from_date to_date now d1),
   d1).


End Listings.

(** An entry of the list [api_purchase_upload] is given; [None] stands for
    a key that is absent (a KeyError) and, for the quantity, also for a
    value [float()] refuses. *)
Record upload_item : Type := {
  ui_item_name : option string;
  ui_category : option string;
  ui_quantity : option Q;
  ui_unit : option string;
  ui_rate : option Q;
  ui_amount : option Q;
  ui_vendor : option string
}.

(** The loop of [api_purchase_upload]: [added_count] and the numbers of the
    entries that raised; [now idx] is the clock at entry [idx]. *)
Fixpoint upload_items (ses : session) (now : Z -> datetime) (idx : Z)
    (items : list upload_item) (added_count : Z) (errors : list Z) (d : db)
    : (Z * list Z) * db :=
  match items with
  | [] => ((added_count, errors), d)
  | item :: rest =>
      match ui_item_name item, ui_category item, ui_quantity item, ui_unit item with
      | Some item_name, Some category, Some quantity, Some unit_name =>
          let d1 :=
            snd (add_item item_name category quantity unit_name
                   (session_user_id ses) (session_username ses)
                   (ui_rate item) (ui_amount item) (ui_vendor item) (now idx) d) in
          upload_items ses now (idx + 1) rest (added_count + 1) errors d1
      | _, _, _, _ =>
          upload_items ses now (idx + 1) rest added_count (errors ++ [(idx + 1)%Z]) d
      end
  end.

(** [api_purchase_upload]; [None] is the 400 for a body without items. *)
Definition api_purchase_upload (ses : session) (items : option (list upload_item))
    (now : Z -> datetime) (d : db) : option (Z * list Z) * db :=
  match items with
  | None => (None, d)
  | Some l =>
      let '(r, d') := upload_items ses now 0 l 0 [] d in
      (Some r, d')
  end.

(** The request [api_purchase] would get for the same entry. *)
Definition purchase_request_of (item : upload_item) : purchase_request :=
  {| pr_item_name := ui_item_name item; pr_category := ui_category item;
     pr_quantity := match ui_quantity item with
                    | Some q => q
                    | None => 0
                    end;
     pr_unit := ui_unit item; pr_rate := ui_rate item;
     pr_amount := ui_amount item; pr_vendor := ui_vendor item |}.

(** ** The detection of category and unit in [api_purchase_preview] *)

(** [keyword in name_lower]. *)
Fixpoint contains (keyword s : string) : bool :=
  String.prefix keyword s
  || match s with
     | EmptyString => false
     | String _ s' => contains keyword s'
     end.

(** The two loops: the first category with a keyword in the name. *)
Fixpoint detect (table : list (string * list string)) (default name_lower : string)
    : string :=
  match table with
  | [] => default
  | (category, keywords) :: rest =>
      if existsb (fun keyword => contains keyword name_lower) keywords then category
      else detect rest default name_lower
  end.

Definition category_keywords : list (string * list string) :=
  [ ("Beverages", ["juice"; "water"; "soda"; "cola"; "pepsi"; "coke"; "fanta";
                   "sprite"; "coffee"; "tea"; "drink"; "energy drink"; "lassi";
                   "buttermilk"; "milkshake"; "smoothie"; "beer"; "wine"; "alcohol"]);
    ("Bread", ["bread"; "bun"; "toast"; "roti"; "naan"; "paratha"; "chapati"; "pita";
               "baguette"; "croissant"; "bagel"; "muffin"; "roll"; "loaf"; "pav"]);
    ("Dairy", ["milk"; "curd"; "paneer"; "ghee"; "butter"; "cream"; "cheese";
               "yogurt"; "khoya"; "mawa"; "dahi"; "whey"; "cottage"]);
    ("Desserts", ["cake"; "pastry"; "sweet"; "candy"; "chocolate"; "ice cream";
                  "pudding"; "halwa"; "gulab jamun"; "rasgulla"; "ladoo"; "barfi";
                  "jalebi"; "kheer"; "custard"; "cookie"; "biscuit"; "mithai"]);
    ("Frozen Foods", ["frozen"; "ice"; "fries"; "nuggets"; "patty"; "samosa";
                      "paratha frozen"; "peas frozen"; "corn frozen";
                      "mixed veg frozen"]);
    ("Fruits", ["apple"; "banana"; "orange"; "mango"; "grape"; "papaya";
                "watermelon"; "lemon"; "lime"; "pomegranate"; "guava"; "pineapple";
                "strawberry"; "kiwi"; "chikoo"; "sapota"; "custard apple"; "mosambi";
                "sweet lime"; "coconut"; "cherry"; "peach"; "plum"]);
    ("Grocery", ["rice"; "wheat"; "flour"; "atta"; "maida"; "rava"; "semolina";
                 "sooji"; "besan"; "gram"; "dal"; "lentil"; "chana"; "moong"; "toor";
                 "urad"; "rajma"; "chickpea"; "poha"; "oats"; "corn"; "millet";
                 "ragi"; "jowar"; "bajra"; "basmati"; "salt"; "sugar"; "jaggery";
                 "honey"; "oil"; "spice"; "masala"; "powder"; "pickle"; "papad";
                 "chips"; "vinegar"; "soya"; "tamarind"; "noodles"; "pasta";
                 "vermicelli"]);
    ("Sauce", ["sauce"; "ketchup"; "mayonnaise"; "mustard"; "chutney"; "dip";
               "dressing"; "soy sauce"; "hot sauce"; "bbq"; "sriracha"; "salsa";
               "pesto"; "gravy"]);
    ("Vegetable", ["onion"; "tomato"; "potato"; "carrot"; "capsicum"; "cabbage";
                   "cauliflower"; "beans"; "peas"; "brinjal"; "ladies finger"; "okra";
                   "spinach"; "palak"; "methi"; "coriander"; "curry leaves"; "ginger";
                   "garlic"; "green chilli"; "drumstick"; "beetroot"; "radish";
                   "cucumber"; "gourd"; "pumpkin"; "bhindi"; "aloo"; "pyaz";
                   "tamatar"; "shimla mirch"; "gobhi"; "gajar"; "pudina"; "mint";
                   "dhaniya"; "lettuce"; "celery"; "mushroom"]) ]%string.

Definition unit_keywords : list (string * list string) :=
  [ ("BTL", ["bottle"; "btl"; "drink"; "soda"; "cola"; "beer"; "wine"; "juice bottle"]);
    ("KG", ["rice"; "flour"; "atta"; "maida"; "sugar"; "salt"; "dal"; "vegetable";
            "fruit"; "meat"; "chicken"; "fish"; "potato"; "onion"; "tomato"]);
    ("LTR", ["milk"; "oil"; "ghee"; "curd"; "buttermilk"; "juice"; "water"; "cream";
             "lassi"; "sauce"; "ketchup"; "liter"; "litre"]);
    ("NOS", ["coconut"; "egg"; "lemon"; "lime"; "papaya"; "watermelon"; "pumpkin";
             "cabbage"; "cauliflower"; "drumstick"]);
    ("PCS", ["bread"; "bun"; "roll"; "samosa"; "patty"; "nugget"; "cake"; "pastry";
             "muffin"; "cookie"; "piece"; "slice"]);
    ("PKT", ["chips"; "biscuit"; "noodles"; "pasta"; "packet"; "pack"; "frozen";
             "masala"; "spice"]);
    ("TIN", ["tin"; "can"; "canned"; "condensed"]) ]%string.

Definition valid_categories : list string :=
  [ "Beverages"; "Bread"; "Dairy"; "Desserts"; "Frozen Foods"; "Fruits"; "Grocery";
    "Sauce"; "Vegetable" ]%string.

Definition valid_units : list string :=
  [ "BTL"; "KG"; "LTR"; "NOS"; "PCS"; "PKT"; "TIN" ]%string.

(** [detect_category] and [detect_unit]; [lower] is [str.lower]. *)
Definition detect_category (lower : string -> string) (item_name : string) : string :=
  detect category_keywords "Grocery" (lower item_name).

Definition detect_unit (lower : string -> string) (item_name : string) : string :=
  detect unit_keywords "KG" (lower item_name).

(** ** More of the dashboard: [daily_sales_trend], [get_summary] *)

(** [groupby('Date')]: the distinct dates, ascending. *)
Fixpoint insert_date (k : Z) (l : list Z) : list Z :=
  match l with
  | [] => [k]
  | h :: t =>
      match Z.compare k h with
      | Lt => k :: l
      | Eq => l
      | Gt => h :: insert_date k t
      end
  end.

Definition date_keys (dates : list Z) : list Z := fold_right insert_date [] dates.

Record daily_row : Type := {
  dy_date : Z;
  dy_revenue : Q;
  dy_profit : Q;
  dy_quantity_sold : Q
}.

(** [daily_sales_trend]. *)
Definition daily_sales_trend (sales_df : list sale_record) : list daily_row :=
  map (fun day =>
         let g := filter (fun r => (sal_date r =? day)%Z) sales_df in
         {| dy_date := day;
            dy_revenue := Qsum (map sal_revenue g);
            dy_profit := Qsum (map sal_profit g);
            dy_quantity_sold := Qsum (map sal_quantity_sold g) |})
    (date_keys (map sal_date sales_df)).

(** [int(x)]: towards zero. *)
Definition py_int (x : Q) : Z := Z.quot (Qnum x) (Zpos (Qden x)).

(** [Series.min()] and [Series.max()] of a date column; [None] is NaT. *)
Definition date_min (dates : list Z) : option Z :=
  match dates with
  | [] => None
  | a :: t => Some (fold_right Z.min a t)
  end.

Definition date_max (dates : list Z) : option Z :=
  match dates with
  | [] => None
  | a :: t => Some (fold_right Z.max a t)
  end.

Record dashboard_summary : Type := {
  su_total_revenue : Q;
  su_total_profit : Q;
  su_total_purchase : Q;
  su_total_items_sold : Z;
  su_date_start : Z;
  su_date_end : Z
}.

(** [get_summary]; [None] is the ValueError of [NaT.strftime] on a sales
    frame without rows. *)
Definition get_summary (purchase_df : list purchase_record)
    (sales_df : list sale_record) : option dashboard_summary :=
  match date_min (map sal_date sales_df), date_max (map sal_date sales_df) with
  | Some date_start, Some date_end =>
      Some {| su_total_revenue := Qsum (map sal_revenue sales_df);
              su_total_profit := Qsum (map sal_profit sales_df);
              su_total_purchase := Qsum (map pur_amount purchase_df);
              su_total_items_sold := py_int (Qsum (map sal_quantity_sold sales_df));
              su_date_start := date_start;
              su_date_end := date_end |}
  | _, _ => None
  end.

(* ================================================================= *)
(** * Part II: properties *)
(* ================================================================= *)

(** ** Rounding *)

Lemma rint_comp (x y : Q) : x == y -> rint x = rint y.
Proof.
  intros E. unfold rint.
  rewrite (Qfloor_comp _ _ E).
  assert (E' : x - inject_Z (Qfloor y) == y - inject_Z (Qfloor y)) by (rewrite E; reflexivity).
  rewrite (Qcompare_comp _ _ E' (1 # 2) (1 # 2) (Qeq_refl _)).
  reflexivity.
Qed.

Lemma rint_inject_Z (z : Z) : rint (inject_Z z) = z.
Proof.
  unfold rint. rewrite Qfloor_Z.
  assert (E : inject_Z z - inject_Z z == 0) by ring.
  rewrite (Qcompare_comp _ _ E (1 # 2) (1 # 2) (Qeq_refl _)).
  reflexivity.
Qed.

Lemma rint_bounds (x : Q) :
  (Qfloor x <= rint x <= Qfloor x + 1)%Z.
Proof.
  unfold rint.
  destruct (Qcompare (x - inject_Z (Qfloor x)) (1 # 2)); try lia.
  destruct (Z.even (Qfloor x)); lia.
Qed.

Lemma rint_mono (x y : Q) : x <= y -> (rint x <= rint y)%Z.
Proof.
  intros L.
  pose proof (Qfloor_resp_le _ _ L) as F.
  destruct (Z.eq_dec (Qfloor x) (Qfloor y)) as [E | N].
  - unfold rint. rewrite E.
    destruct (Qcompare_spec (x - inject_Z (Qfloor y)) (1 # 2)) as [Hx | Hx | Hx];
      destruct (Qcompare_spec (y - inject_Z (Qfloor y)) (1 # 2)) as [Hy | Hy | Hy];
      try lia; try (destruct (Z.even (Qfloor y)); lia); exfalso; lra.
  - pose proof (rint_bounds x). pose proof (rint_bounds y). lia.
Qed.

Lemma pow10_pos (n : nat) : 0 < inject_Z (10 ^ Z.of_nat n).
Proof.
  change 0 with (inject_Z 0). rewrite <- Zlt_Qlt. apply Z.pow_pos_nonneg; lia.
Qed.

Lemma py_round_spec (x : Q) (n : nat) :
  py_round x n == inject_Z (rint (x * inject_Z (10 ^ Z.of_nat n))) / inject_Z (10 ^ Z.of_nat n).
Proof. unfold py_round. apply Qred_correct. Qed.

Lemma py_round_comp (x y : Q) (n : nat) : x == y -> py_round x n = py_round y n.
Proof.
  intros E. unfold py_round.
  rewrite (rint_comp (x * inject_Z (10 ^ Z.of_nat n)) (y * inject_Z (10 ^ Z.of_nat n)));
    [reflexivity | rewrite E; reflexivity].
Qed.

Lemma py_round_mono (x y : Q) (n : nat) : x <= y -> py_round x n <= py_round y n.
Proof.
  intros L. rewrite !py_round_spec.
  pose proof (pow10_pos n) as P.
  apply Qmult_le_compat_r.
  - rewrite <- Zle_Qle. apply rint_mono. apply Qmult_le_compat_r; [exact L | lra].
  - apply Qlt_le_weak, Qinv_lt_0_compat, P.
Qed.

Lemma py_round_on_grid (x : Q) (n : nat) : on_grid n (py_round x n).
Proof. eexists. apply py_round_spec. Qed.

Lemma py_round_fix (x : Q) (n : nat) : on_grid n x -> py_round x n == x.
Proof.
  intros [z E]. rewrite py_round_spec.
  pose proof (pow10_pos n) as P.
  rewrite (rint_comp _ (inject_Z z)).
  - rewrite rint_inject_Z. symmetry. exact E.
  - rewrite E. field. lra.
Qed.

Lemma on_grid_0 (n : nat) : on_grid n 0.
Proof. exists 0%Z. unfold Qdiv. ring. Qed.

Lemma on_grid_plus (n : nat) (x y : Q) : on_grid n x -> on_grid n y -> on_grid n (x + y).
Proof.
  intros [a Ea] [b Eb]. exists (a + b)%Z.
  rewrite Ea, Eb, inject_Z_plus. pose proof (pow10_pos n). field. lra.
Qed.

Lemma on_grid_comp (n : nat) (x y : Q) : x == y -> on_grid n x -> on_grid n y.
Proof. intros E [a Ea]. exists a. rewrite <- E. exact Ea. Qed.

Lemma py_round_0 (n : nat) : py_round 0 n == 0.
Proof. apply py_round_fix, on_grid_0. Qed.

Lemma py_round_nonneg (x : Q) (n : nat) : 0 <= x -> 0 <= py_round x n.
Proof. intros L. rewrite <- (py_round_0 n). apply py_round_mono, L. Qed.

Lemma Qltb_true (x y : Q) : Qltb x y = true <-> x < y.
Proof.
  unfold Qltb. rewrite negb_true_iff.
  split.
  - intros H. apply Qnot_le_lt. intros L. apply Qle_bool_iff in L. congruence.
  - intros H. destruct (Qle_bool y x) eqn:E; [| reflexivity].
    apply Qle_bool_iff in E. lra.
Qed.

Lemma Qltb_false (x y : Q) : Qltb x y = false <-> y <= x.
Proof.
  unfold Qltb. rewrite negb_false_iff. apply Qle_bool_iff.
Qed.

(** ** Sorting *)

Lemma insert_by_perm {A : Type} (leb : A -> A -> bool) (x : A) (l : list A) :
  Permutation (x :: l) (insert_by leb x l).
Proof.
  induction l as [| y t IH]; simpl.
  - apply Permutation_refl.
  - destruct (leb x y).
    + apply Permutation_refl.
    + eapply perm_trans; [apply perm_swap | apply perm_skip, IH].
Qed.

Lemma insertion_sort_perm {A : Type} (leb : A -> A -> bool) (l : list A) :
  Permutation l (insertion_sort leb l).
Proof.
  induction l as [| x t IH]; simpl.
  - apply perm_nil.
  - eapply perm_trans; [apply perm_skip, IH | apply insert_by_perm].
Qed.

Lemma insert_by_sorted {A : Type} (leb : A -> A -> bool) (x : A) (l : list A) :
  total_on leb -> transitive_on leb ->
  StronglySorted (fun a b => leb a b = true) l ->
  StronglySorted (fun a b => leb a b = true) (insert_by leb x l).
Proof.
  intros Tot Tr. induction 1 as [| y t Ht IH Hy]; simpl.
  - constructor; constructor.
  - destruct (leb x y) eqn:E.
    + constructor.
      * constructor; assumption.
      * constructor; [exact E |].
        eapply Forall_impl; [| exact Hy]. intros z Hz. exact (Tr _ _ _ E Hz).
    + constructor; [exact IH |].
      assert (Hyx : leb y x = true) by (destruct (Tot x y); congruence).
      eapply Permutation_Forall; [apply insert_by_perm |].
      constructor; assumption.
Qed.

Lemma insertion_sort_sorted {A : Type} (leb : A -> A -> bool) (l : list A) :
  total_on leb -> transitive_on leb ->
  StronglySorted (fun a b => leb a b = true) (insertion_sort leb l).
Proof.
  intros Tot Tr. induction l as [| x t IH]; simpl.
  - constructor.
  - apply insert_by_sorted; assumption.
Qed.

(** The interface is met: insertion sort is a sorter. *)
#[export] Instance insertion_sorter : Sorter :=
  {| sort_by := @insertion_sort;
     sort_by_perm := @insertion_sort_perm;
     sort_by_sorted := @insertion_sort_sorted |}.





Lemma datetime_desc_total :
  total_on (fun a b : transaction_row => datetime_leb (txn_created_at b) (txn_created_at a)).
Proof.
  intros a b. unfold datetime_leb.
  destruct (txn_created_at a) as [da sa], (txn_created_at b) as [db sb]; simpl.
  destruct (Z.ltb_spec db da), (Z.ltb_spec da db), (Z.eqb_spec db da),
    (Z.eqb_spec da db), (Z.leb_spec sb sa), (Z.leb_spec sa sb); simpl; auto; lia.
Qed.

Lemma datetime_desc_trans :
  transitive_on (fun a b : transaction_row => datetime_leb (txn_created_at b) (txn_created_at a)).
Proof.
  intros a b c. unfold datetime_leb.
  destruct (txn_created_at a) as [da sa], (txn_created_at b) as [db sb],
    (txn_created_at c) as [dc sc]; simpl.
  rewrite !orb_true_iff, !andb_true_iff, !Z.ltb_lt, !Z.eqb_eq, !Z.leb_le.
  intros [H1 | [H1 H1']] [H2 | [H2 H2']]; [left | left | left | right; split]; lia.
Qed.

Section SortFacts.

Context {S : Sorter}.

Lemma sort_by_In {A : Type} (leb : A -> A -> bool) (l : list A) (x : A) :
  In x (sort_by leb l) <-> In x l.
Proof.
  split; intros H.
  - eapply Permutation_in; [apply Permutation_sym, sort_by_perm | exact H].
  - eapply Permutation_in; [apply sort_by_perm | exact H].
Qed.



Lemma sort_by_singleton {A : Type} (leb : A -> A -> bool) (x : A) :
  sort_by leb [x] = [x].
Proof.
  apply Permutation_length_1_inv, sort_by_perm.
Qed.

End SortFacts.

(** ** The inventory table *)

Lemma select_item_app (name : string) (l l' : list inventory_row) :
  select_item name (l ++ l') =
  match select_item name l with
  | Some r => Some r
  | None => select_item name l'
  end.
Proof.
  unfold select_item. induction l as [| r t IH]; simpl.
  - reflexivity.
  - destruct (String.eqb (inv_item_name r) name); [reflexivity | exact IH].
Qed.

Lemma select_item_name (name : string) (l : list inventory_row) (r : inventory_row) :
  select_item name l = Some r -> inv_item_name r = name.
Proof.
  unfold select_item. intros H. apply find_some in H.
  apply String.eqb_eq, H.
Qed.

Lemma select_item_In (name : string) (l : list inventory_row) (r : inventory_row) :
  select_item name l = Some r -> In r l.
Proof. unfold select_item. intros H. apply find_some in H. apply H. Qed.

Lemma select_item_none (name : string) (l : list inventory_row) :
  select_item name l = None <-> forall r, In r l -> inv_item_name r <> name.
Proof.
  unfold select_item. split.
  - intros H r Hr E. apply (find_none _ _ H) in Hr.
    apply String.eqb_eq in E. congruence.
  - intros H. induction l as [| r t IH]; simpl; [reflexivity |].
    destruct (String.eqb (inv_item_name r) name) eqn:E.
    + apply String.eqb_eq in E. exfalso. apply (H r); [left; reflexivity | exact E].
    + apply IH. intros r' Hr'. apply H. right. exact Hr'.
Qed.

Lemma update_where_absent (name : string) (f : inventory_row -> inventory_row)
    (l : list inventory_row) :
  select_item name l = None -> update_where name f l = l.
Proof.
  unfold select_item, update_where. induction l as [| r t IH]; simpl.
  - reflexivity.
  - destruct (String.eqb (inv_item_name r) name); [discriminate |].
    intros H. rewrite (IH H). reflexivity.
Qed.

Lemma update_where_app (name : string) (f : inventory_row -> inventory_row)
    (l l' : list inventory_row) :
  update_where name f (l ++ l') = update_where name f l ++ update_where name f l'.
Proof. apply map_app. Qed.

(** A row that [update_where] leaves alone or rewrites, by its name. *)
Lemma update_where_In (name : string) (f : inventory_row -> inventory_row)
    (l : list inventory_row) (r' : inventory_row) :
  In r' (update_where name f l) <->
  exists r, In r l /\
    r' = (if String.eqb (inv_item_name r) name then f r else r).
Proof.
  unfold update_where. rewrite in_map_iff. split.
  - intros [r [E H]]. exists r. split; [exact H | symmetry; exact E].
  - intros [r [H E]]. exists r. split; [symmetry; exact E | exact H].
Qed.

Lemma select_item_update_where (name : string) (f : inventory_row -> inventory_row)
    (l : list inventory_row) :
  (forall r, inv_item_name (f r) = inv_item_name r) ->
  select_item name (update_where name f l) = option_map f (select_item name l).
Proof.
  intros Hf. unfold select_item, update_where.
  induction l as [| r t IH]; simpl; [reflexivity |].
  destruct (String.eqb (inv_item_name r) name) eqn:E.
  - rewrite Hf, E. reflexivity.
  - rewrite E. exact IH.
Qed.

(** ** C3: the scenario of the specification *)

Lemma select_item_one (name : string) (r : inventory_row) :
  inv_item_name r = name -> select_item name [r] = Some r.
Proof.
  intros E. unfold select_item. simpl. rewrite E, String.eqb_refl. reflexivity.
Qed.

Lemma update_where_one (name : string) (f : inventory_row -> inventory_row)
    (r : inventory_row) :
  inv_item_name r = name -> update_where name f [r] = [f r].
Proof.
  intros E. unfold update_where. simpl. rewrite E, String.eqb_refl. reflexivity.
Qed.

Ltac ledger_step :=
  repeat first
    [ rewrite select_item_app
    | rewrite update_where_app
    | match goal with
      | H : select_item ?n ?l = None |- context [select_item ?n ?l] => rewrite H
      | H : select_item ?n ?l = None |- context [update_where ?n _ ?l] =>
          rewrite (update_where_absent n _ l H)
      end
    | rewrite select_item_one by reflexivity
    | rewrite update_where_one by reflexivity
    | progress cbn [fst snd store_inventory set_inventory insert_inventory
                    log_transaction inv_item_name inv_quantity
                    inv_total_purchased inv_unit inv_category inv_id] ].

(** C3.  In a store without item X, purchasing 10 and then 5 of X leaves X
    with quantity 15 and total_purchased 15; issuing 12 then succeeds and
    leaves quantity 3; issuing 10 more fails with the not-enough-stock
    result (available 3) and returns the database it was given. *)
Theorem C3_purchase_issue_scenario
    (d : db) (X cat u : string) (buyer cook : Z) (buyer_name cook_name : string)
    (rate amount : option Q) (vendor notes : option string)
    (t1 t2 t3 t4 : datetime) :
  select_item X (store_inventory d) = None ->
  let d1 := snd (add_item X cat 10 u buyer buyer_name rate amount vendor t1 d) in
  let d2 := snd (add_item X cat 5 u buyer buyer_name rate amount vendor t2 d1) in
  let r3 := remove_item X 12 cook cook_name notes t3 d2 in
  let r4 := remove_item X 10 cook cook_name notes t4 (snd r3) in
  (exists row, select_item X (store_inventory d2) = Some row /\
     inv_quantity row = 15 /\ inv_total_purchased row = 15) /\
  fst r3 = (true, MsgItemsRemoved) /\
  (exists row, select_item X (store_inventory (snd r3)) = Some row /\
     inv_quantity row = 3 /\ inv_total_purchased row = 15) /\
  fst r4 = (false, MsgNotEnoughStock 3 u) /\
  snd r4 = snd r3.
Proof.
  intros Habs d1 d2 r3 r4.
  assert (E2 : store_inventory d2 = store_inventory d ++
            [ {| inv_id := (inventory_seq d + 1)%Z; inv_item_name := X;
                 inv_category := cat; inv_quantity := 15; inv_unit := u;
                 inv_total_purchased := 15; inv_last_updated := t2 |} ]).
  { subst d2 d1. unfold add_item. ledger_step. reflexivity. }
  assert (S2 : select_item X (store_inventory d2) =
            Some {| inv_id := (inventory_seq d + 1)%Z; inv_item_name := X;
                    inv_category := cat; inv_quantity := 15; inv_unit := u;
                    inv_total_purchased := 15; inv_last_updated := t2 |}).
  { rewrite E2. ledger_step. reflexivity. }
  assert (E3 : fst r3 = (true, MsgItemsRemoved) /\
               store_inventory (snd r3) = store_inventory d ++
            [ {| inv_id := (inventory_seq d + 1)%Z; inv_item_name := X;
                 inv_category := cat; inv_quantity := 3; inv_unit := u;
                 inv_total_purchased := 15; inv_last_updated := t3 |} ]).
  { subst r3. unfold remove_item. rewrite S2.
    cbn [inv_quantity inv_unit inv_category].
    change (Qltb (py_round 15 3 + 0.001) (py_round 12 3)) with false.
    cbv iota. split; [reflexivity |].
    rewrite E2. ledger_step. reflexivity. }
  destruct E3 as [F3 E3].
  assert (S3 : select_item X (store_inventory (snd r3)) =
            Some {| inv_id := (inventory_seq d + 1)%Z; inv_item_name := X;
                    inv_category := cat; inv_quantity := 3; inv_unit := u;
                    inv_total_purchased := 15; inv_last_updated := t3 |}).
  { rewrite E3. ledger_step. reflexivity. }
  split; [eexists; split; [exact S2 | split; reflexivity] |].
  split; [exact F3 |].
  split; [eexists; split; [exact S3 | split; reflexivity] |].
  subst r4. unfold remove_item. rewrite S3.
  cbn [inv_quantity inv_unit inv_category].
  change (Qltb (py_round 3 3 + 0.001) (py_round 10 3)) with true.
  cbv iota. split; reflexivity.
Qed.

(** The scenario run on the empty store, with item "Rice". *)
Lemma C3_witness :
  select_item "Rice" (store_inventory empty_db) = None /\
  fst (remove_item "Rice" 10 3 "kitchen_manager" None {| dt_day := 4; dt_sec := 0 |}
         (snd (remove_item "Rice" 12 3 "kitchen_manager" None {| dt_day := 3; dt_sec := 0 |}
            (snd (add_item "Rice" "Grocery" 5 "Kg" 2 "purchase_manager" None None None
                    {| dt_day := 2; dt_sec := 0 |}
               (snd (add_item "Rice" "Grocery" 10 "Kg" 2 "purchase_manager" None None None
                       {| dt_day := 1; dt_sec := 0 |} empty_db)))))))
  = (false, MsgNotEnoughStock 3 "Kg").
Proof.
  split; [reflexivity |].
  exact (proj1 (proj2 (proj2 (proj2
    (C3_purchase_issue_scenario empty_db "Rice" "Grocery" "Kg"
       2 3 "purchase_manager" "kitchen_manager" None None None None
       {| dt_day := 1; dt_sec := 0 |} {| dt_day := 2; dt_sec := 0 |}
       {| dt_day := 3; dt_sec := 0 |} {| dt_day := 4; dt_sec := 0 |} eq_refl))))).
Defined.

(** ** C9: what an issue and a manager update leave alone *)

Lemma Forall2_map_self {A : Type} (R : A -> A -> Prop) (f : A -> A) (l : list A) :
  (forall a, In a l -> R a (f a)) -> Forall2 R l (map f l).
Proof.
  induction l as [| a t IH]; intros H; simpl; constructor.
  - apply H. left. reflexivity.
  - apply IH. intros b Hb. apply H. right. exact Hb.
Qed.

Lemma Forall2_same {A : Type} (R : A -> A -> Prop) (l : list A) :
  (forall a, R a a) -> Forall2 R l l.
Proof. intros H. induction l; constructor; auto. Qed.

(** C9.  [remove_item] keeps the inventory rows in place; a row of the
    issued item keeps its id, item_name, category, unit and
    total_purchased, and a row of any other item is unchanged.
    [manager_update_item] keeps the rows in place, keeps every row's
    total_purchased, and changes no row of another item. *)
Theorem C9_issue_and_update_frame :
  (forall name q uid un notes now d,
     Forall2 (fun r r' => same_but_quantity r r' /\
                          (inv_item_name r <> name -> r' = r))
       (store_inventory d)
       (store_inventory (snd (remove_item name q uid un notes now d)))) /\
  (forall orig name cat q u uid un now d,
     Forall2 (fun r r' => inv_total_purchased r' = inv_total_purchased r /\
                          inv_id r' = inv_id r /\
                          (inv_item_name r <> orig -> r' = r))
       (store_inventory d)
       (store_inventory (snd (manager_update_item orig name cat q u uid un now d)))).
Proof.
  split.
  - intros name q uid un notes now d. unfold remove_item.
    destruct (select_item name (store_inventory d)) as [existing |];
      [| apply Forall2_same; unfold same_but_quantity; auto 10].
    destruct (Qltb _ _);
      [apply Forall2_same; unfold same_but_quantity; auto 10 |].
    cbn [snd log_transaction set_inventory store_inventory].
    apply Forall2_map_self. intros r _.
    destruct (String.eqb (inv_item_name r) name) eqn:E.
    + split; [unfold same_but_quantity; simpl; auto 10 |].
      intros N. apply String.eqb_eq in E. contradiction.
    + unfold same_but_quantity. auto 10.
  - intros orig name cat q u uid un now d. unfold manager_update_item.
    destruct (select_item orig (store_inventory d)) as [existing |];
      [| apply Forall2_same; auto].
    destruct (negb _ && _); [apply Forall2_same; auto |].
    assert (G : Forall2 (fun r r' => inv_total_purchased r' = inv_total_purchased r /\
                          inv_id r' = inv_id r /\
                          (inv_item_name r <> orig -> r' = r))
                  (store_inventory d)
                  (update_where orig
                     (fun r => {| inv_id := inv_id r; inv_item_name := name;
                                  inv_category := cat; inv_quantity := q;
                                  inv_unit := u;
                                  inv_total_purchased := inv_total_purchased r;
                                  inv_last_updated := now |})
                     (store_inventory d))).
    { apply Forall2_map_self. intros r _.
      destruct (String.eqb (inv_item_name r) orig) eqn:E; simpl; auto.
      repeat split. intros N. apply String.eqb_eq in E. contradiction. }
    destruct (Qeq_bool _ _); exact G.
Qed.

(** ** C7: the purchase operation *)




(** ** C8: the low-stock query *)



(** ** C10: the transaction history query *)

Lemma In_firstn {A : Type} (n : nat) (l : list A) (x : A) :
  In x (firstn n l) -> In x l.
Proof.
  revert l. induction n as [| n IH]; intros [| a t]; simpl; try tauto.
  intros [E | H]; [left; exact E | right; apply IH, H].
Qed.

Lemma StronglySorted_firstn {A : Type} (R : A -> A -> Prop) (n : nat) (l : list A) :
  StronglySorted R l -> StronglySorted R (firstn n l).
Proof.
  revert l. induction n as [| n IH]; intros l H; simpl.
  - constructor.
  - destruct H as [| a t Ht Ha]; constructor.
    + apply IH, Ht.
    + apply Forall_forall. intros x Hx. apply In_firstn in Hx.
      eapply Forall_forall in Ha; eauto.
Qed.

Lemma sql_limit_In {A : Type} (limit : Z) (l : list A) (x : A) :
  In x (sql_limit limit l) -> In x l.
Proof.
  unfold sql_limit. destruct (limit <? 0)%Z; [tauto | apply In_firstn].
Qed.

Lemma sql_limit_sorted {A : Type} (R : A -> A -> Prop) (limit : Z) (l : list A) :
  StronglySorted R l -> StronglySorted R (sql_limit limit l).
Proof.
  unfold sql_limit. destruct (limit <? 0)%Z; [tauto | apply StronglySorted_firstn].
Qed.

Lemma transactions_where_recent (ty : option string) (df fd td : option Z)
    (now : datetime) (t : transaction_row) :
  transactions_where ty df fd td now t = true ->
  (dt_day now - dt_day (txn_created_at t) <= 30)%Z.
Proof.
  unfold transactions_where, thirty_days_ago.
  rewrite !andb_true_iff. intros [[H _] _]. apply Z.leb_le in H. lia.
Qed.

(** C10 fails as stated for a negative limit: with one purchase in the log
    and [limit = -1] the query returns that one entry. *)
Lemma C10_counterexample :
  let d := snd (add_item "Rice" "Grocery" 10 "Kg" 2 "purchase_manager"
                  None None None (noon 100) empty_db) in
  List.length (@get_transactions insertion_sorter (-1) None None None None (noon 101) d)
  = 1%nat /\
  ~ (Z.of_nat (List.length
        (@get_transactions insertion_sorter (-1) None None None None (noon 101) d))
     <= -1)%Z.
Proof.
  split; [reflexivity | intros H; vm_compute in H; apply H; reflexivity].
Qed.

(** C10, amended.  Whatever the type and date filters, and whether or not
    old entries were cleaned up, every entry [get_transactions] returns is
    an entry of the log dated at most 30 days before the day of the query;
    the entries come ordered by created_at, latest first; for a limit >= 0
    there are at most [limit] of them, and for a negative limit all the
    entries that pass the filters are returned. *)
Theorem C10_transactions_amended {S : Sorter} (limit : Z) (ty : option string)
    (df fd td : option Z) (now : datetime) (d : db) :
  let r := get_transactions limit ty df fd td now d in
  (forall t, In t r ->
     In t (transactions d) /\ (dt_day now - dt_day (txn_created_at t) <= 30)%Z) /\
  StronglySorted
    (fun a b => datetime_leb (txn_created_at b) (txn_created_at a) = true) r /\
  ((0 <= limit)%Z -> (Z.of_nat (List.length r) <= limit)%Z) /\
  ((limit < 0)%Z ->
     Permutation r (filter (transactions_where ty df fd td now) (transactions d))).
Proof.
  intros r. subst r. unfold get_transactions.
  split; [| split; [| split]].
  - intros t H. apply sql_limit_In, sort_by_In, filter_In in H.
    destruct H as [H W]. split; [exact H |].
    eapply transactions_where_recent, W.
  - apply sql_limit_sorted, sort_by_sorted;
      [apply datetime_desc_total | apply datetime_desc_trans].
  - intros L. unfold sql_limit.
    destruct (Z.ltb_spec limit 0); [lia |].
    pose proof (firstn_le_length (Z.to_nat limit)
      (sort_by (fun a b => datetime_leb (txn_created_at b) (txn_created_at a))
         (filter (transactions_where ty df fd td now) (transactions d)))).
    lia.
  - intros L. unfold sql_limit.
    destruct (Z.ltb_spec limit 0); [| lia].
    apply Permutation_sym, sort_by_perm.
Qed.

(** ** C2: the ledger invariants *)

(** C2 fails as stated: after a purchase of 10 Kg, a manager's update to
    50 Kg leaves quantity 50 over total_purchased 10, and a manager's
    update to -2 Kg leaves a negative quantity. *)
Lemma C2_counterexample :
  let buy := OpAddItem "Rice" "Grocery" 10 "Kg" 2 "purchase_manager"
               None None None (noon 1) in
  let raise := OpManagerUpdate "Rice" "Rice" "Grocery" 50 "Kg" 1 "manager" (noon 2) in
  let lower := OpManagerUpdate "Rice" "Rice" "Grocery" (-2) "Kg" 1 "manager" (noon 2) in
  map (fun r => (inv_quantity r, inv_total_purchased r))
    (store_inventory (run_ops [buy; raise] empty_db)) = [(50, 10)] /\
  ~ reconciled (run_ops [buy; raise] empty_db) /\
  ~ quantity_nonneg (run_ops [buy; lower] empty_db).
Proof.
  split; [reflexivity |].
  split; intros H; inversion H as [| r l Hr Hl]; subst;
    simpl in Hr; revert Hr; apply Qlt_not_le; reflexivity.
Qed.

(** [manager_add_item] on its own already leaves quantity over
    total_purchased: the new row takes total_purchased 0. *)
Lemma manager_add_item_total_zero :
  map (fun r => (inv_quantity r, inv_total_purchased r))
    (store_inventory
       (run_ops [OpManagerAdd "Rice" "Grocery" 5 "Kg" 1 "manager" (noon 1)] empty_db))
  = [(5, 0)].
Proof. reflexivity. Qed.

Lemma update_where_Forall (P : inventory_row -> Prop) (name : string)
    (f : inventory_row -> inventory_row) (l : list inventory_row) :
  Forall P l -> (forall r, In r l -> P r -> P (f r)) -> Forall P (update_where name f l).
Proof.
  intros H Hf. apply Forall_forall. intros r' Hr'.
  apply update_where_In in Hr'. destruct Hr' as [r [Hr E]].
  pose proof (proj1 (Forall_forall P l) H r Hr) as Pr.
  destruct (String.eqb (inv_item_name r) name); subst r'; auto.
Qed.

Lemma update_where_ids (name : string) (f : inventory_row -> inventory_row)
    (l : list inventory_row) :
  (forall r, inv_id (f r) = inv_id r) ->
  map inv_id (update_where name f l) = map inv_id l.
Proof.
  intros Hf. unfold update_where. rewrite map_map. apply map_ext.
  intros r. destruct (String.eqb (inv_item_name r) name); [apply Hf | reflexivity].
Qed.

Lemma NoDup_map_filter {A B : Type} (g : A -> B) (p : A -> bool) (l : list A) :
  NoDup (map g l) -> NoDup (map g (filter p l)).
Proof.
  induction l as [| a t IH]; simpl; intros H; [constructor |].
  inversion H as [| x l' Hx Ht]; subst.
  destruct (p a); simpl; [constructor |]; auto.
  intros Hin. apply Hx. apply in_map_iff in Hin. destruct Hin as [b [E Hb]].
  apply filter_In in Hb. apply in_map_iff. exists b. tauto.
Qed.

Lemma NoDup_map_inj {A B : Type} (g : A -> B) (l : list A) (a b : A) :
  NoDup (map g l) -> In a l -> In b l -> g a = g b -> a = b.
Proof.
  induction l as [| x t IH]; simpl; intros H Ha Hb E; [contradiction |].
  inversion H as [| y l' Hx Ht]; subst.
  destruct Ha as [Ha | Ha], Hb as [Hb | Hb]; subst; auto.
  - exfalso. apply Hx. rewrite E. apply in_map, Hb.
  - exfalso. apply Hx. rewrite <- E. apply in_map, Ha.
Qed.

Lemma insert_inventory_inv (d : db) (name cat : string) (q : Q) (u : string)
    (total : Q) (now : datetime) :
  0 <= q -> on_grid 3 total -> ledger_inv d ->
  ledger_inv (insert_inventory d name cat q u total now).
Proof.
  intros Hq Ht [Hf [Hn Hs]]. unfold ledger_inv, insert_inventory. simpl.
  split; [| split].
  - apply Forall_app. split; [exact Hf |]. constructor; [| constructor]. simpl. auto.
  - rewrite map_app. simpl. apply NoDup_app; [exact Hn | repeat constructor; simpl; tauto |].
    intros x Hx [E | []]. subst x. apply in_map_iff in Hx.
    destruct Hx as [r [E Hr]]. eapply Forall_forall in Hs; [| exact Hr]. lia.
  - apply Forall_app. split.
    + eapply Forall_impl; [| exact Hs]. simpl. intros; lia.
    + constructor; [simpl; lia | constructor].
Qed.

Lemma update_inv (d : db) (name : string) (f : inventory_row -> inventory_row) :
  ledger_inv d ->
  (forall r, inv_id (f r) = inv_id r) ->
  (forall r, In r (store_inventory d) ->
     0 <= inv_quantity r /\ on_grid 3 (inv_total_purchased r) ->
     0 <= inv_quantity (f r) /\ on_grid 3 (inv_total_purchased (f r))) ->
  ledger_inv (set_inventory d (update_where name f (store_inventory d))).
Proof.
  intros [Hf [Hn Hs]] Hid Hgood. unfold ledger_inv, set_inventory. simpl.
  split; [| split].
  - apply update_where_Forall; assumption.
  - rewrite update_where_ids by exact Hid. exact Hn.
  - apply update_where_Forall; [exact Hs |]. intros r _ H. rewrite Hid. exact H.
Qed.

Lemma delete_inv (d : db) (name : string) :
  ledger_inv d -> ledger_inv (set_inventory d (delete_where name (store_inventory d))).
Proof.
  intros [Hf [Hn Hs]]. unfold ledger_inv, set_inventory, delete_where. simpl.
  split; [| split].
  - apply Forall_forall. intros r Hr. apply filter_In in Hr.
    eapply Forall_forall in Hf; [exact Hf | tauto].
  - apply NoDup_map_filter, Hn.
  - apply Forall_forall. intros r Hr. apply filter_In in Hr.
    eapply Forall_forall in Hs; [exact Hs | tauto].
Qed.

Lemma log_transaction_inv (d : db) name cat q u ty uid un rate amount vendor notes now :
  ledger_inv d ->
  ledger_inv (log_transaction d name cat q u ty uid un rate amount vendor notes now).
Proof. intros H. exact H. Qed.

Lemma select_item_good (d : db) (name : string) (r : inventory_row) :
  ledger_inv d -> select_item name (store_inventory d) = Some r ->
  0 <= inv_quantity r /\ on_grid 3 (inv_total_purchased r).
Proof.
  intros [Hf _] H. apply select_item_In in H.
  eapply Forall_forall in Hf; [exact Hf | exact H].
Qed.

Lemma clamp_nonneg (x : Q) : 0 <= (if Qltb x 0 then 0 else x).
Proof.
  destruct (Qltb x 0) eqn:E; [apply Qle_refl | apply Qltb_false, E].
Qed.

(** Every valid operation keeps [ledger_inv]. *)
Lemma run_op_inv (o : ledger_op) (d : db) :
  op_ok o -> ledger_inv d -> ledger_inv (run_op o d).
Proof.
  intros Hok Hinv. destruct o; simpl in Hok; simpl run_op.
  - (* add_item *)
    unfold add_item. cbn [snd]. apply log_transaction_inv.
    assert (Hq : 0 <= py_round quantity 3) by (apply py_round_nonneg; lra).
    destruct (select_item item_name (store_inventory d)) as [existing |] eqn:Sel.
    + destruct (select_item_good _ _ _ Hinv Sel) as [Hq0 Hg0].
      apply update_inv; [exact Hinv | reflexivity |].
      intros r _ _. simpl. split.
      * apply py_round_nonneg. lra.
      * apply py_round_on_grid.
    + apply insert_inventory_inv; [exact Hq | apply py_round_on_grid | exact Hinv].
  - (* remove_item *)
    unfold remove_item.
    destruct (select_item item_name (store_inventory d)) as [existing |] eqn:Sel;
      [| exact Hinv].
    destruct (Qltb _ _); [exact Hinv |].
    cbn [snd]. apply log_transaction_inv.
    apply update_inv; [exact Hinv | reflexivity |].
    intros r _ [_ Hg]. cbn [inv_quantity inv_total_purchased].
    split; [apply clamp_nonneg | exact Hg].
  - (* manager_add_item *)
    unfold manager_add_item.
    destruct (select_item item_name (store_inventory d)); [exact Hinv |].
    cbn [snd]. apply log_transaction_inv.
    apply insert_inventory_inv; [exact Hok | apply on_grid_0 | exact Hinv].
  - (* manager_update_item *)
    unfold manager_update_item.
    destruct (select_item original_name (store_inventory d)); [| exact Hinv].
    destruct (negb _ && _); [exact Hinv |].
    cbn [snd].
    assert (G : ledger_inv
      (set_inventory d
         (update_where original_name
            (fun r => {| inv_id := inv_id r; inv_item_name := item_name;
                         inv_category := category; inv_quantity := quantity;
                         inv_unit := unit_name;
                         inv_total_purchased := inv_total_purchased r;
                         inv_last_updated := now |})
            (store_inventory d)))).
    { apply update_inv; [exact Hinv | reflexivity |].
      intros r _ [_ Hg]. simpl. split; [exact Hok | exact Hg]. }
    destruct (Qeq_bool _ _); [exact G | apply log_transaction_inv, G].
  - (* manager_delete_item *)
    unfold manager_delete_item.
    destruct (select_item item_name (store_inventory d)); [| exact Hinv].
    cbn [snd]. apply log_transaction_inv. apply delete_inv, Hinv.
Qed.

Lemma empty_db_inv : ledger_inv empty_db.
Proof. repeat split; constructor. Qed.

Lemma run_ops_inv (ops : list ledger_op) (d : db) :
  Forall op_ok ops -> ledger_inv d -> ledger_inv (run_ops ops d).
Proof.
  revert d. induction ops as [| o t IH]; intros d Hok Hinv; simpl; [exact Hinv |].
  inversion Hok; subst. apply IH; [assumption |]. apply run_op_inv; assumption.
Qed.

Lemma update_where_names (name : string) (f : inventory_row -> inventory_row)
    (l : list inventory_row) :
  (forall r, inv_item_name (f r) = inv_item_name r) ->
  map inv_item_name (update_where name f l) = map inv_item_name l.
Proof.
  intros Hf. unfold update_where. rewrite map_map. apply map_ext.
  intros r. destruct (String.eqb (inv_item_name r) name); [apply Hf | reflexivity].
Qed.

Lemma select_item_absent_names (name : string) (l : list inventory_row) :
  select_item name l = None -> ~ In name (map inv_item_name l).
Proof.
  intros H Hin. apply in_map_iff in Hin. destruct Hin as [r [E Hr]].
  exact (proj1 (select_item_none name l) H r Hr E).
Qed.

Lemma names_absent_select (name : string) (l : list inventory_row) :
  ~ In name (map inv_item_name l) -> select_item name l = None.
Proof.
  intros H. apply select_item_none. intros r Hr E. apply H.
  rewrite <- E. apply in_map, Hr.
Qed.

Lemma insert_names (name : string) (row : inventory_row) (l : list inventory_row) :
  inv_item_name row = name -> select_item name l = None ->
  NoDup (map inv_item_name l) -> NoDup (map inv_item_name (l ++ [row])).
Proof.
  intros E Sel H. rewrite map_app. simpl.
  apply NoDup_app; [exact H | repeat constructor; simpl; tauto |].
  intros x Hx [Ex | []]. subst x. rewrite E in Hx.
  exact (select_item_absent_names _ _ Sel Hx).
Qed.

(** Renaming the rows called [orig] to a name that is free, or to [orig]
    itself, keeps the names distinct. *)
Lemma rename_names (orig name : string) (f : inventory_row -> inventory_row)
    (l : list inventory_row) :
  (forall r, inv_item_name (f r) = name) ->
  orig = name \/ select_item name l = None ->
  NoDup (map inv_item_name l) ->
  NoDup (map inv_item_name (update_where orig f l)).
Proof.
  intros Hf [E | Sel] H.
  - subst name. replace (map inv_item_name (update_where orig f l))
      with (map inv_item_name l); [exact H |].
    unfold update_where. rewrite map_map. apply map_ext_in. intros r _.
    destruct (String.eqb (inv_item_name r) orig) eqn:E; [| reflexivity].
    apply String.eqb_eq in E. rewrite Hf. exact E.
  - pose proof (select_item_absent_names _ _ Sel) as Nin. clear Sel.
    induction l as [| r t IH]; simpl; [constructor |].
    simpl in H, Nin. inversion H as [| x l' Hx Ht]; subst.
    destruct (String.eqb (inv_item_name r) orig) eqn:E.
    + apply String.eqb_eq in E.
      fold (update_where orig f t).
      rewrite update_where_absent
        by (apply names_absent_select; rewrite <- E; exact Hx).
      rewrite Hf. constructor; [tauto | exact Ht].
    + fold (update_where orig f t). constructor; [| apply IH; tauto].
      intros Hin. apply in_map_iff in Hin. destruct Hin as [r' [E' Hr']].
      apply update_where_In in Hr'. destruct Hr' as [r0 [Hr0 Er']].
      destruct (String.eqb (inv_item_name r0) orig); subst r'.
      * rewrite Hf in E'. apply Nin. left. symmetry. exact E'.
      * apply Hx. rewrite <- E'. apply in_map, Hr0.
Qed.

Lemma run_op_names (o : ledger_op) (d : db) :
  names_unique d -> names_unique (run_op o d).
Proof.
  unfold names_unique. intros H. destruct o; simpl run_op.
  - unfold add_item. cbn [snd log_transaction store_inventory].
    destruct (select_item item_name (store_inventory d)) eqn:Sel;
      cbn [set_inventory insert_inventory store_inventory].
    + rewrite update_where_names by reflexivity. exact H.
    + apply (insert_names item_name); [reflexivity | exact Sel | exact H].
  - unfold remove_item.
    destruct (select_item item_name (store_inventory d)); [| exact H].
    destruct (Qltb _ _); [exact H |].
    cbn [snd log_transaction set_inventory store_inventory].
    rewrite update_where_names by reflexivity. exact H.
  - unfold manager_add_item.
    destruct (select_item item_name (store_inventory d)) eqn:Sel; [exact H |].
    cbn [snd log_transaction insert_inventory store_inventory].
    apply (insert_names item_name); [reflexivity | exact Sel | exact H].
  - unfold manager_update_item.
    destruct (select_item original_name (store_inventory d)); [| exact H].
    destruct (negb (String.eqb original_name item_name)
              && match select_item item_name (store_inventory d) with
                 | Some _ => true
                 | None => false
                 end) eqn:G; [exact H |].
    assert (R : NoDup (map inv_item_name
      (update_where original_name
         (fun r => {| inv_id := inv_id r; inv_item_name := item_name;
                      inv_category := category; inv_quantity := quantity;
                      inv_unit := unit_name;
                      inv_total_purchased := inv_total_purchased r;
                      inv_last_updated := now |})
         (store_inventory d)))).
    { apply (rename_names original_name item_name); [reflexivity | | exact H].
      apply andb_false_iff in G. destruct G as [G | G].
      - left. apply negb_false_iff, String.eqb_eq in G. exact G.
      - right. destruct (select_item item_name (store_inventory d));
          [discriminate | reflexivity]. }
    cbn [snd]. destruct (Qeq_bool _ _); exact R.
  - unfold manager_delete_item.
    destruct (select_item item_name (store_inventory d)); [| exact H].
    cbn [snd log_transaction set_inventory store_inventory].
    apply NoDup_map_filter, H.
Qed.

Lemma select_item_unique (d : db) (name : string) (e r : inventory_row) :
  names_unique d -> select_item name (store_inventory d) = Some e ->
  In r (store_inventory d) -> inv_item_name r = name -> r = e.
Proof.
  intros U Sel Hr E.
  apply (NoDup_map_inj inv_item_name (store_inventory d)); try assumption.
  - eapply select_item_In, Sel.
  - rewrite E. symmetry. eapply select_item_name, Sel.
Qed.

Lemma update_where_Forall_named (P : inventory_row -> Prop) (name : string)
    (f : inventory_row -> inventory_row) (l : list inventory_row) :
  Forall P l ->
  (forall r, In r l -> inv_item_name r = name -> P r -> P (f r)) ->
  Forall P (update_where name f l).
Proof.
  intros H Hf. apply Forall_forall. intros r' Hr'.
  apply update_where_In in Hr'. destruct Hr' as [r [Hr E]].
  pose proof (proj1 (Forall_forall P l) H r Hr) as Pr.
  destruct (String.eqb (inv_item_name r) name) eqn:En; subst r'; auto.
  apply String.eqb_eq in En. auto.
Qed.

(** A purchase, an issue or a deletion keeps quantity <= total_purchased. *)
Lemma run_op_reconciled (o : ledger_op) (d : db) :
  op_ok o -> is_override o = false ->
  ledger_inv d -> names_unique d -> reconciled d -> reconciled (run_op o d).
Proof.
  unfold reconciled. intros Hok Hno Hinv Hun Hrec.
  destruct o; simpl in Hok, Hno; try discriminate; simpl run_op.
  - unfold add_item. cbn [snd log_transaction store_inventory].
    destruct (select_item item_name (store_inventory d)) as [existing |] eqn:Sel;
      cbn [set_inventory insert_inventory store_inventory].
    + apply update_where_Forall; [exact Hrec |]. intros r _ _. simpl.
      apply py_round_mono.
      pose proof (proj1 (Forall_forall _ _) Hrec existing (select_item_In _ _ _ Sel)).
      simpl in *. lra.
    + apply Forall_app. split; [exact Hrec |].
      constructor; [apply Qle_refl | constructor].
  - unfold remove_item.
    destruct (select_item item_name (store_inventory d)) as [existing |] eqn:Sel;
      [| exact Hrec].
    destruct (Qltb _ _); [exact Hrec |].
    cbn [snd log_transaction set_inventory store_inventory].
    apply update_where_Forall_named; [exact Hrec |].
    intros r Hr En Hle. cbn [inv_quantity inv_total_purchased].
    assert (r = existing) by (eapply select_item_unique; eassumption). subst r.
    destruct (select_item_good _ _ _ Hinv Sel) as [Hq0 Hg].
    assert (Hq3 : 0 <= py_round quantity 3) by (apply py_round_nonneg; lra).
    pose proof (py_round_fix (inv_total_purchased existing) 3 Hg) as Ft.
    pose proof (py_round_mono _ _ 3 Hle) as Hav.
    pose proof (py_round_fix (py_round (inv_quantity existing) 3) 3
                  (py_round_on_grid _ _)) as Fa.
    assert (Hnew : py_round (py_round (inv_quantity existing) 3 - py_round quantity 3) 3
                   <= py_round (py_round (inv_quantity existing) 3) 3)
      by (apply py_round_mono; lra).
    destruct (Qltb _ 0); lra.
  - unfold manager_delete_item.
    destruct (select_item item_name (store_inventory d)); [| exact Hrec].
    cbn [snd log_transaction set_inventory store_inventory].
    apply Forall_forall. intros r Hr. apply filter_In in Hr.
    eapply Forall_forall in Hrec; [exact Hrec | tauto].
Qed.

Lemma kept_subset (d d' : db) :
  ledger_inv d -> incl (store_inventory d') (store_inventory d) ->
  total_purchased_kept d d'.
Proof.
  intros [_ [Hn _]] Hi r r' Hr Hr' E.
  assert (r' = r) by (apply (NoDup_map_inj inv_id (store_inventory d)); auto).
  subst r'. apply Qle_refl.
Qed.

Lemma kept_insert (d : db) (name cat : string) (q : Q) (u : string) (total : Q)
    (now : datetime) :
  ledger_inv d -> total_purchased_kept d (insert_inventory d name cat q u total now).
Proof.
  intros [_ [Hn Hs]] r r' Hr Hr' E. simpl in Hr'.
  apply in_app_iff in Hr'. destruct Hr' as [Hr' | [Hr' | []]].
  - assert (r' = r) by (apply (NoDup_map_inj inv_id (store_inventory d)); auto).
    subst r'. apply Qle_refl.
  - subst r'. simpl in E. eapply Forall_forall in Hs; [| exact Hr]. lia.
Qed.

Lemma kept_update (d : db) (name : string) (f : inventory_row -> inventory_row) :
  ledger_inv d ->
  (forall r, inv_id (f r) = inv_id r) ->
  (forall r, In r (store_inventory d) -> inv_item_name r = name ->
     inv_total_purchased r <= inv_total_purchased (f r)) ->
  total_purchased_kept d (set_inventory d (update_where name f (store_inventory d))).
Proof.
  intros [_ [Hn _]] Hid Hf r r' Hr Hr' E. simpl in Hr'.
  apply update_where_In in Hr'. destruct Hr' as [r0 [Hr0 Er']].
  assert (Eid : inv_id r0 = inv_id r).
  { rewrite <- E, Er'. destruct (String.eqb (inv_item_name r0) name);
      [symmetry; apply Hid | reflexivity]. }
  assert (r0 = r) by (apply (NoDup_map_inj inv_id (store_inventory d)); auto).
  subst r0 r'.
  destruct (String.eqb (inv_item_name r) name) eqn:En; [| apply Qle_refl].
  apply String.eqb_eq in En. auto.
Qed.

(** No valid operation lowers the total_purchased of a row it keeps. *)
Lemma run_op_kept (o : ledger_op) (d : db) :
  op_ok o -> ledger_inv d -> names_unique d -> total_purchased_kept d (run_op o d).
Proof.
  intros Hok Hinv Hun.
  assert (Same : total_purchased_kept d d) by (apply kept_subset, incl_refl; exact Hinv).
  destruct o; simpl in Hok; simpl run_op.
  - unfold add_item. cbn [snd].
    destruct (select_item item_name (store_inventory d)) as [existing |] eqn:Sel.
    + apply (kept_update d item_name); [exact Hinv | reflexivity |].
      intros r Hr En. simpl.
      assert (r = existing) by (eapply select_item_unique; eassumption). subst r.
      destruct (select_item_good _ _ _ Hinv Sel) as [_ Hg].
      assert (Hq3 : 0 <= py_round quantity 3) by (apply py_round_nonneg; lra).
      pose proof (py_round_fix (inv_total_purchased existing + py_round quantity 3) 3
                    (on_grid_plus 3 _ _ Hg (py_round_on_grid _ _))).
      lra.
    + apply (kept_insert d), Hinv.
  - unfold remove_item.
    destruct (select_item item_name (store_inventory d)); [| exact Same].
    destruct (Qltb _ _); [exact Same |].
    apply (kept_update d item_name); [exact Hinv | reflexivity |].
    intros r _ _. apply Qle_refl.
  - unfold manager_add_item.
    destruct (select_item item_name (store_inventory d)); [exact Same |].
    apply (kept_insert d), Hinv.
  - unfold manager_update_item.
    destruct (select_item original_name (store_inventory d)); [| exact Same].
    destruct (negb _ && _); [exact Same |].
    cbn [snd].
    assert (G : total_purchased_kept d
      (set_inventory d
         (update_where original_name
            (fun r => {| inv_id := inv_id r; inv_item_name := item_name;
                         inv_category := category; inv_quantity := quantity;
                         inv_unit := unit_name;
                         inv_total_purchased := inv_total_purchased r;
                         inv_last_updated := now |})
            (store_inventory d)))).
    { apply kept_update; [exact Hinv | reflexivity |]. intros r _ _. apply Qle_refl. }
    destruct (Qeq_bool _ _); exact G.
  - unfold manager_delete_item.
    destruct (select_item item_name (store_inventory d)); [| exact Same].
    apply (kept_subset d); [exact Hinv |].
    intros r Hr. simpl in Hr. apply filter_In in Hr. tauto.
Qed.

Lemma run_ops_names (ops : list ledger_op) (d : db) :
  names_unique d -> names_unique (run_ops ops d).
Proof.
  revert d. induction ops as [| o t IH]; intros d H; simpl; [exact H |].
  apply IH, run_op_names, H.
Qed.

Lemma run_ops_reconciled (ops : list ledger_op) (d : db) :
  Forall op_ok ops -> forallb (fun o => negb (is_override o)) ops = true ->
  ledger_inv d -> names_unique d -> reconciled d -> reconciled (run_ops ops d).
Proof.
  revert d. induction ops as [| o t IH]; intros d Hok Hno Hinv Hun Hrec; simpl;
    [exact Hrec |].
  inversion Hok; subst. simpl in Hno. apply andb_true_iff in Hno.
  destruct Hno as [Ho Ht]. apply negb_true_iff in Ho.
  apply IH; try assumption.
  - apply run_op_inv; assumption.
  - apply run_op_names; assumption.
  - apply run_op_reconciled; assumption.
Qed.

Lemma Forall_firstn {A : Type} (P : A -> Prop) (n : nat) (l : list A) :
  Forall P l -> Forall P (firstn n l).
Proof.
  intros H. apply Forall_forall. intros x Hx. apply In_firstn in Hx.
  eapply Forall_forall in H; eauto.
Qed.

(** C2, amended.  Take any run of ledger operations from the empty store
    in which every purchase and issue carries a positive quantity and every
    manager add or update a quantity that is not negative.  After each
    operation of the run every item has quantity >= 0; any further such
    operation leaves an item that stays in the store with at least the
    total_purchased it had; and as long as the run has held no manager add
    or update, every item has quantity <= total_purchased. *)
Theorem C2_ledger_invariants_amended (ops : list ledger_op) :
  Forall op_ok ops ->
  forall n : nat,
  let d := run_ops (firstn n ops) empty_db in
  quantity_nonneg d /\
  (forall o, op_ok o -> total_purchased_kept d (run_op o d)) /\
  (forallb (fun o => negb (is_override o)) (firstn n ops) = true -> reconciled d).
Proof.
  intros Hall n d.
  assert (Hok : Forall op_ok (firstn n ops)) by (apply Forall_firstn, Hall).
  assert (Hinv : ledger_inv d) by (apply run_ops_inv; [exact Hok | apply empty_db_inv]).
  assert (Hun : names_unique d) by (apply run_ops_names; constructor).
  split; [| split].
  - destruct Hinv as [Hf _]. unfold quantity_nonneg.
    eapply Forall_impl; [| exact Hf]. simpl. tauto.
  - intros o Ho. apply run_op_kept; assumption.
  - intros Hno. apply run_ops_reconciled; try assumption.
    + apply empty_db_inv.
    + constructor.
    + constructor.
Qed.

(** The theorem at a run of four operations: purchase, issue, delete,
    purchase. *)
Lemma C2_witness :
  let ops :=
    [ OpAddItem "Rice" "Grocery" 10 "Kg" 2 "purchase_manager" None None None (noon 1);
      OpRemoveItem "Rice" 4 3 "kitchen_manager" None (noon 2);
      OpManagerDelete "Rice" 1 "manager" (noon 3);
      OpAddItem "Rice" "Grocery" 2.5 "Kg" 2 "purchase_manager" None None None (noon 4) ] in
  Forall op_ok ops /\
  quantity_nonneg (run_ops ops empty_db) /\
  reconciled (run_ops ops empty_db).
Proof.
  intros ops.
  assert (Hok : Forall op_ok ops)
    by (repeat constructor).
  split; [exact Hok |].
  split.
  - exact (proj1 (C2_ledger_invariants_amended ops Hok 4)).
  - exact (proj2 (proj2 (C2_ledger_invariants_amended ops Hok 4)) eq_refl).
Defined.

(** ** groupby and the outer join *)

Lemma compare_refl (a : string) : String.compare a a = Eq.
Proof. apply String_as_OT.cmp_eq. reflexivity. Qed.

Lemma compare_lt_trans (a b c : string) :
  String.compare a b = Lt -> String.compare b c = Lt -> String.compare a c = Lt.
Proof.
  intros H1 H2. apply String_as_OT.cmp_lt.
  apply String_as_OT.cmp_lt in H1, H2. eapply String_as_OT.lt_trans; eauto.
Qed.

Lemma compare_gt_lt (a b : string) : String.compare a b = Gt -> String.compare b a = Lt.
Proof. intros H. rewrite String.compare_antisym, H. reflexivity. Qed.

Lemma insert_key_In (k : string) (l : list string) (x : string) :
  In x (insert_key k l) <-> x = k \/ In x l.
Proof.
  induction l as [| h t IH]; simpl.
  - intuition.
  - destruct (String.compare k h) eqn:E; simpl.
    + apply String.compare_eq_iff in E. subst h. intuition.
    + intuition.
    + rewrite IH. intuition.
Qed.

Lemma group_keys_In (names : list string) (x : string) :
  In x (group_keys names) <-> In x names.
Proof.
  induction names as [| n t IH]; simpl; [tauto |].
  rewrite insert_key_In, IH. intuition.
Qed.

Lemma insert_key_sorted (k : string) (l : list string) :
  StronglySorted (fun a b => String.compare a b = Lt) l ->
  StronglySorted (fun a b => String.compare a b = Lt) (insert_key k l).
Proof.
  induction 1 as [| h t Ht IH Hh]; simpl.
  - repeat constructor.
  - destruct (String.compare k h) eqn:E.
    + constructor; assumption.
    + constructor; [constructor; assumption |].
      constructor; [exact E |].
      eapply Forall_impl; [| exact Hh]. intros z Hz. eapply compare_lt_trans; eauto.
    + constructor; [exact IH |].
      apply Forall_forall. intros z Hz. apply insert_key_In in Hz.
      destruct Hz as [Hz | Hz].
      * subst z. apply compare_gt_lt, E.
      * eapply Forall_forall in Hh; eauto.
Qed.

Lemma group_keys_sorted (names : list string) :
  StronglySorted (fun a b => String.compare a b = Lt) (group_keys names).
Proof.
  induction names as [| n t IH]; simpl; [constructor | apply insert_key_sorted, IH].
Qed.

Lemma group_keys_NoDup (names : list string) : NoDup (group_keys names).
Proof.
  pose proof (group_keys_sorted names) as H.
  induction H as [| h t Ht IH Hh]; constructor; [| exact IH].
  intros Hin. eapply Forall_forall in Hh; [| exact Hin].
  rewrite compare_refl in Hh. discriminate.
Qed.

Lemma lookup_keyed {B : Type} (g : string -> B) (keys : list string) (k : string) :
  lookup k (map (fun k' => (k', g k')) keys) =
  if in_dec string_dec k keys then Some (g k) else None.
Proof.
  induction keys as [| h t IH]; simpl; [reflexivity |].
  destruct (String.eqb h k) eqn:E.
  - apply String.eqb_eq in E. subst h.
    destruct (string_dec k k); [reflexivity | contradiction].
  - apply String.eqb_neq in E. rewrite IH.
    destruct (string_dec h k); [contradiction |].
    destruct (in_dec string_dec k t); reflexivity.
Qed.

Lemma group_rows_absent {A : Type} (name_of : A -> string) (k : string) (rows : list A) :
  ~ In k (map name_of rows) -> group_rows name_of k rows = [].
Proof.
  intros H. unfold group_rows. induction rows as [| r t IH]; simpl; [reflexivity |].
  simpl in H. destruct (String.eqb (name_of r) k) eqn:E.
  - apply String.eqb_eq in E. tauto.
  - apply IH. tauto.
Qed.

(** A cell of a summed column after the join and [fillna(0)]: the sum over
    the rows of that key; 0 where the side has none. *)
Lemma joined_sum_cell {A : Type} (name_of : A -> string) (val_of : A -> Q)
    (rows : list A) (k : string) :
  fillna0 (cell k (groupby_sum name_of val_of rows)) =
  Fin (Qsum (map val_of (group_rows name_of k rows))).
Proof.
  unfold cell, groupby_sum. rewrite lookup_keyed.
  destruct (in_dec string_dec k (group_keys (map name_of rows))) as [H | H].
  - reflexivity.
  - rewrite group_keys_In in H. rewrite (group_rows_absent _ _ _ H). reflexivity.
Qed.

Lemma groupby_sum_keys {A : Type} (name_of : A -> string) (val_of : A -> Q)
    (rows : list A) :
  map fst (groupby_sum name_of val_of rows) = group_keys (map name_of rows).
Proof.
  unfold groupby_sum. rewrite map_map. simpl. apply map_id.
Qed.

Lemma outer_index_In {B C : Type} (l : list (string * B)) (r : list (string * C))
    (k : string) :
  In k (outer_index l r) <-> In k (map fst l) \/ In k (map fst r).
Proof. unfold outer_index. rewrite group_keys_In. apply in_app_iff. Qed.

Lemma StronglySorted_weaken {A : Type} (R R' : A -> A -> Prop) (l : list A) :
  (forall a b, R a b -> R' a b) -> StronglySorted R l -> StronglySorted R' l.
Proof.
  intros H. induction 1 as [| a t Ht IH Ha]; constructor; [exact IH |].
  eapply Forall_impl; [| exact Ha]. intros b. apply H.
Qed.


(** ** C1: leakage and waste *)


(** The dashboard's [leakage_analysis] does resolve these to 0. *)
Lemma leakage_analysis_zero_purchased :
  map (fun r => (lk_leakage_pct r, lk_value_lost r))
    (@leakage_analysis insertion_sorter [] [issue_of 2 "Oil" 5]) = [(Fin 0, Fin 0)] /\
  map (fun r => (lk_leakage_pct r, lk_value_lost r))
    (@leakage_analysis insertion_sorter [purchase_of 1 "Salt" 0 10] [])
  = [(Fin 0, Fin 0)].
Proof. split; reflexivity. Qed.



(** ** C4: theoretical against actual consumption *)


Lemma dict_add_keys_NoDup (k : string) (v : Q) (d : list (string * Q)) :
  NoDup (map fst d) -> NoDup (map fst (dict_add k v d)).
Proof.
  induction d as [| [k' v'] t IH]; simpl; intros H.
  - repeat constructor. simpl. tauto.
  - inversion H as [| x l Hx Ht]; subst.
    destruct (String.eqb k' k) eqn:E; simpl; [constructor; assumption |].
    constructor; [| apply IH, Ht].
    intros Hin. apply String.eqb_neq in E.
    assert (G : forall z, In z (map fst (dict_add k v t)) -> z = k \/ In z (map fst t)).
    { clear. induction t as [| [a b] t IH]; simpl; intros z Hz.
      - intuition.
      - destruct (String.eqb a k); simpl in Hz; [tauto |].
        destruct Hz as [Hz | Hz]; [tauto |]. apply IH in Hz. tauto. }
    apply G in Hin. destruct Hin; [congruence | contradiction].
Qed.

Lemma theoretical_keys_NoDup (sales_df : list sale_record) (bom_df : list bom_record) :
  NoDup (map fst (theoretical_needed sales_df bom_df)).
Proof.
  unfold theoretical_needed.
  generalize (groupby_sum sal_item_name sal_quantity_sold sales_df). intros sq.
  assert (G : forall acc, NoDup (map fst acc) ->
    NoDup (map fst (fold_left
      (fun theoretical row =>
         match lookup (bom_menu_item row) sq with
         | Some units_sold =>
             dict_add (bom_ingredient row) (units_sold * bom_quantity_required row)
               theoretical
         | None => theoretical
         end) bom_df acc))).
  { induction bom_df as [| row t IH]; intros acc H; simpl; [exact H |].
    apply IH. destruct (lookup (bom_menu_item row) sq); [| exact H].
    apply dict_add_keys_NoDup, H. }
  apply G. constructor.
Qed.




Lemma dict_get0_add (k k' : string) (v : Q) (d : list (string * Q)) :
  dict_get0 k (dict_add k' v d) =
  if String.eqb k' k then dict_get0 k d + v else dict_get0 k d.
Proof.
  unfold dict_get0. induction d as [| [a b] t IH]; simpl.
  - destruct (String.eqb k' k); reflexivity.
  - destruct (String.eqb a k') eqn:E1; simpl.
    + apply String.eqb_eq in E1. subst a.
      destruct (String.eqb k' k); reflexivity.
    + destruct (String.eqb a k) eqn:E2; [| exact IH].
      apply String.eqb_eq in E2. subst a.
      apply String.eqb_neq in E1.
      destruct (String.eqb k' k) eqn:E3; [| reflexivity].
      apply String.eqb_eq in E3. congruence.
Qed.

(** The theoretical requirement of an ingredient: units sold x quantity
    per unit, summed over the recipe rows of that ingredient whose menu
    item was sold. *)
Lemma theoretical_needed_sum (sales_df : list sale_record) (bom_df : list bom_record)
    (k : string) :
  dict_get0 k (theoretical_needed sales_df bom_df) ==
  Qsum (map (bom_contribution sales_df k) bom_df).
Proof.
  unfold theoretical_needed.
  assert (G : forall acc,
    dict_get0 k (fold_left
      (fun theoretical row =>
         match lookup (bom_menu_item row)
                 (groupby_sum sal_item_name sal_quantity_sold sales_df) with
         | Some units_sold =>
             dict_add (bom_ingredient row) (units_sold * bom_quantity_required row)
               theoretical
         | None => theoretical
         end) bom_df acc)
    == dict_get0 k acc + Qsum (map (bom_contribution sales_df k) bom_df)).
  { induction bom_df as [| row t IH]; intros acc; simpl.
    - ring.
    - rewrite IH. unfold bom_contribution at 2.
      destruct (lookup (bom_menu_item row) _) as [u |].
      + rewrite dict_get0_add.
        destruct (String.eqb (bom_ingredient row) k); ring.
      + destruct (String.eqb (bom_ingredient row) k); ring. }
  rewrite G. unfold dict_get0. simpl. ring.
Qed.

(** ** C5: menu engineering *)






(** ** C6: price trends *)

Lemma date_order_total : total_on (fun a b : purchase_record => (pur_date a <=? pur_date b)%Z).
Proof.
  intros a b. destruct (Z.leb_spec (pur_date a) (pur_date b)); [auto |].
  right. apply Z.leb_le. lia.
Qed.

Lemma date_order_trans :
  transitive_on (fun a b : purchase_record => (pur_date a <=? pur_date b)%Z).
Proof. intros a b c. rewrite !Z.leb_le. lia. Qed.

(** Two rows at different keys come out in the one sorted order, whatever
    the sorter. *)
Lemma sort_by_two {S : Sorter} {A : Type} (leb : A -> A -> bool) (a b : A) :
  total_on leb -> transitive_on leb -> leb b a = false ->
  sort_by leb [a; b] = [a; b].
Proof.
  intros Tot Tr N.
  pose proof (sort_by_perm A leb [a; b]) as P.
  pose proof (sort_by_sorted A leb [a; b] Tot Tr) as Sd.
  apply Permutation_length_2_inv in P. destruct P as [P | P]; [exact P |].
  rewrite P in Sd. inversion Sd as [| x l Hl Hx]; subst.
  inversion Hx; subst. congruence.
Qed.


(** With a first rate of 0 the change is never a number: it is [+inf],
    [-inf] or NaN. *)
Lemma price_change_first_zero (first_price last_price : Q) :
  first_price == 0 ->
  price_change first_price last_price =
  inf_of (Qcompare (last_price - first_price) 0).
Proof.
  intros Z0. unfold price_change. simpl.
  apply Qeq_bool_iff in Z0. rewrite Z0.
  destruct (Qcompare (last_price - first_price) 0); reflexivity.
Qed.

(** The dashboard's [price_trends] does resolve a first rate of 0 to 0. *)
Lemma dashboard_price_change_first_zero (last_price : Q) :
  dashboard_price_change 0 last_price = Fin 0.
Proof. reflexivity. Qed.

(** C6, the code at the failing input.  For the purchases of one item at
    rate 100 then 120 the change is 20; at rate 0 then 50,
    [price_trend_analysis] reports a change of [+inf], not 0. *)
Theorem C6_price_trend_first_rate_zero {S : Sorter} :
  feq (price_change 100 120) (Fin 20) /\
  price_trend_analysis [purchase_of 1 "Oil" 1 100; purchase_of 2 "Oil" 1 120]
  = Some [("Oil"%string,
           {| pt_dates := [1; 2]%Z; pt_prices := [100; 120];
              pt_first_price := 100; pt_last_price := 120;
              pt_change := price_change 100 120 |})] /\
  price_trend_analysis [purchase_of 1 "Oil" 1 0; purchase_of 2 "Oil" 1 50]
  = Some [("Oil"%string,
           {| pt_dates := [1; 2]%Z; pt_prices := [0; 50];
              pt_first_price := 0; pt_last_price := 50;
              pt_change := PInf |})].
Proof.
  split; [reflexivity |].
  split.
  - unfold price_trend_analysis.
    change (top_items [purchase_of 1 "Oil" 1 100; purchase_of 2 "Oil" 1 120])
      with ["Oil"%string].
    cbn [traverse]. unfold price_trend_of, sort_by_date.
    change (group_rows pur_item_name "Oil"
              [purchase_of 1 "Oil" 1 100; purchase_of 2 "Oil" 1 120])
      with [purchase_of 1 "Oil" 1 100; purchase_of 2 "Oil" 1 120].
    rewrite sort_by_two;
      [reflexivity | apply date_order_total | apply date_order_trans | reflexivity].
  - unfold price_trend_analysis.
    change (top_items [purchase_of 1 "Oil" 1 0; purchase_of 2 "Oil" 1 50])
      with ["Oil"%string].
    cbn [traverse]. unfold price_trend_of, sort_by_date.
    change (group_rows pur_item_name "Oil"
              [purchase_of 1 "Oil" 1 0; purchase_of 2 "Oil" 1 50])
      with [purchase_of 1 "Oil" 1 0; purchase_of 2 "Oil" 1 50].
    rewrite sort_by_two;
      [reflexivity | apply date_order_total | apply date_order_trans | reflexivity].
Qed.





(** ** Failure results leave the database alone *)



(** [api_kitchen] refuses a quantity that is not positive. *)
Lemma api_kitchen_rejects_nonpositive (ses : session) (data : kitchen_request)
    (now : datetime) (d : db) :
  kr_quantity data <= 0 -> api_kitchen ses data now d = (Failure 400, d).
Proof.
  intros H. unfold api_kitchen. apply Qle_bool_iff in H. rewrite H.
  rewrite orb_true_r. reflexivity.
Qed.

(** Running [cleanup_old_transactions] first does not change what
    [get_transactions] returns at the same moment. *)
Lemma get_transactions_after_cleanup {S : Sorter} (limit : Z) (ty : option string)
    (df fd td : option Z) (now : datetime) (d : db) :
  get_transactions limit ty df fd td now (snd (cleanup_old_transactions now d)) =
  get_transactions limit ty df fd td now d.
Proof.
  unfold get_transactions, cleanup_old_transactions. cbn [snd transactions].
  f_equal. f_equal.
  induction (transactions d) as [| t l IH]; simpl; [reflexivity |].
  destruct (dt_day (txn_created_at t) <? thirty_days_ago now)%Z eqn:E; simpl.
  - rewrite IH.
    assert (W : transactions_where ty df fd td now t = false).
    { unfold transactions_where. apply Z.ltb_lt in E.
      destruct (Z.leb_spec (thirty_days_ago now) (dt_day (txn_created_at t)));
        [lia | reflexivity]. }
    rewrite W. reflexivity.
  - rewrite IH. reflexivity.
Qed.

(* ================================================================= *)
(** * Part III: further properties of the code *)
(* ================================================================= *)

(** ** [remove_item]: failures and the tolerance *)

Lemma on_grid_minus (n : nat) (x y : Q) : on_grid n x -> on_grid n y -> on_grid n (x - y).
Proof.
  intros [a Ea] [b Eb]. exists (a - b)%Z.
  rewrite Ea, Eb. unfold Zminus. rewrite inject_Z_plus, inject_Z_opp.
  pose proof (pow10_pos n). field. lra.
Qed.




(** ** The audit log *)

(** What one operation does to the log: nothing, or one entry more with
    the next id. *)
Lemma run_op_log (o : ledger_op) (d : db) :
  (transactions (run_op o d) = transactions d /\
   transactions_seq (run_op o d) = transactions_seq d) \/
  (exists t, transactions (run_op o d) = transactions d ++ [t] /\
     txn_id t = (transactions_seq d + 1)%Z /\
     transactions_seq (run_op o d) = (transactions_seq d + 1)%Z).
Proof.
  destruct o; simpl run_op.
  - right. unfold add_item. cbn [snd].
    destruct (select_item item_name (store_inventory d));
      eexists; (split; [reflexivity | split; reflexivity]).
  - unfold remove_item.
    destruct (select_item item_name (store_inventory d)); [| left; split; reflexivity].
    destruct (Qltb _ _); [left; split; reflexivity |].
    right. eexists. split; [reflexivity | split; reflexivity].
  - unfold manager_add_item.
    destruct (select_item item_name (store_inventory d)); [left; split; reflexivity |].
    right. eexists. split; [reflexivity | split; reflexivity].
  - unfold manager_update_item.
    destruct (select_item original_name (store_inventory d));
      [| left; split; reflexivity].
    destruct (negb _ && _); [left; split; reflexivity |].
    cbn [snd]. destruct (Qeq_bool _ _); [left; split; reflexivity |].
    right. eexists. split; [reflexivity | split; reflexivity].
  - unfold manager_delete_item.
    destruct (select_item item_name (store_inventory d)); [| left; split; reflexivity].
    right. eexists. split; [reflexivity | split; reflexivity].
Qed.

Lemma seq_snoc (n : nat) : seq 1 (S n) = seq 1 n ++ [S n].
Proof. rewrite seq_S. reflexivity. Qed.

(** X3.  The transaction log is append-only.  A run of ledger operations
    keeps the log it started from as a prefix and adds at most one entry
    per operation; started from the empty database, the entries carry the
    ids 1, 2, 3, ... in the order they were written. *)
Theorem X3_log_append_only (ops : list ledger_op) :
  (forall d, exists l,
     transactions (run_ops ops d) = transactions d ++ l /\
     (List.length l <= List.length ops)%nat) /\
  map txn_id (transactions (run_ops ops empty_db)) =
  map Z.of_nat (seq 1 (List.length (transactions (run_ops ops empty_db)))).
Proof.
  split.
  - induction ops as [| o t IH]; intros d; simpl.
    + exists []. rewrite app_nil_r. split; [reflexivity | simpl; lia].
    + destruct (IH (run_op o d)) as [l [E L]]. rewrite E.
      destruct (run_op_log o d) as [[E0 _] | [x [E0 _]]]; rewrite E0.
      * exists l. split; [reflexivity | lia].
      * exists (x :: l). rewrite <- app_assoc. split; [reflexivity | simpl; lia].
  - assert (G : forall d,
              map txn_id (transactions d) =
                map Z.of_nat (seq 1 (List.length (transactions d))) /\
              transactions_seq d = Z.of_nat (List.length (transactions d)) ->
              map txn_id (transactions (run_ops ops d)) =
                map Z.of_nat (seq 1 (List.length (transactions (run_ops ops d))))).
    { induction ops as [| o t IH]; intros d [Hm Hs]; simpl; [exact Hm |].
      apply IH.
      destruct (run_op_log o d) as [[E0 E1] | [x [E0 [E1 E2]]]].
      - rewrite E0, E1. split; assumption.
      - rewrite E0, E2, length_app, map_app. simpl List.length.
        rewrite Nat.add_1_r, seq_snoc, map_app, Hm. simpl.
        split; [rewrite E1, Hs; f_equal; f_equal; lia | lia]. }
    apply G. split; reflexivity.
Qed.

(** ** Item names *)

Lemma select_item_of_row (l : list inventory_row) (r : inventory_row) :
  NoDup (map inv_item_name l) -> In r l -> select_item (inv_item_name r) l = Some r.
Proof.
  intros N Hr.
  destruct (select_item (inv_item_name r) l) as [e |] eqn:Sel.
  - f_equal. symmetry.
    apply (NoDup_map_inj inv_item_name l); try assumption.
    + eapply select_item_In, Sel.
    + symmetry. eapply select_item_name, Sel.
  - exfalso. exact (proj1 (select_item_none _ _) Sel r Hr eq_refl).
Qed.

(** X4.  Although [store_inventory.item_name] carries no UNIQUE constraint,
    no run of ledger operations from the empty database, whatever its
    arguments, ever holds two rows with one item name; so the lookup by
    name finds every row of the table. *)
Theorem X4_item_names_stay_distinct (ops : list ledger_op) :
  let inv := store_inventory (run_ops ops empty_db) in
  NoDup (map inv_item_name inv) /\
  (forall r, In r inv -> select_item (inv_item_name r) inv = Some r).
Proof.
  intros inv.
  assert (N : NoDup (map inv_item_name inv))
    by (apply (run_ops_names ops empty_db); constructor).
  split; [exact N |]. intros r Hr. apply select_item_of_row; assumption.
Qed.

(** X5.  No stock figure changes without an entry in the log: when the item
    names are distinct and an operation appends no transaction, every row
    keeps its quantity (as a number) and its total_purchased. *)
Theorem X5_no_unlogged_quantity_change (o : ledger_op) (d : db) :
  names_unique d ->
  transactions (run_op o d) = transactions d ->
  Forall2 (fun r r' => inv_quantity r' == inv_quantity r /\
                       inv_total_purchased r' = inv_total_purchased r)
    (store_inventory d) (store_inventory (run_op o d)).
Proof.
  intros U E.
  assert (Same : Forall2 (fun r r' => inv_quantity r' == inv_quantity r /\
                       inv_total_purchased r' = inv_total_purchased r)
                   (store_inventory d) (store_inventory d))
    by (apply Forall2_same; intros; split; reflexivity).
  assert (Absurd : forall (l : list transaction_row) t, l ++ [t] = l -> False).
  { intros l t H. apply (f_equal (@List.length _)) in H.
    rewrite length_app in H. simpl in H. lia. }
  destruct o; simpl run_op in *.
  - exfalso. unfold add_item in E. cbn [snd] in E.
    destruct (select_item item_name (store_inventory d)); exact (Absurd _ _ E).
  - unfold remove_item in *.
    destruct (select_item item_name (store_inventory d)); [| exact Same].
    destruct (Qltb _ _); [exact Same |].
    exfalso. exact (Absurd _ _ E).
  - unfold manager_add_item in *.
    destruct (select_item item_name (store_inventory d)); [exact Same |].
    exfalso. exact (Absurd _ _ E).
  - unfold manager_update_item in *.
    destruct (select_item original_name (store_inventory d)) as [existing |] eqn:Sel;
      [| exact Same].
    destruct (negb _ && _); [exact Same |].
    cbn [snd] in *.
    destruct (Qeq_bool (quantity - inv_quantity existing) 0) eqn:Z0;
      [| exfalso; exact (Absurd _ _ E)].
    apply Qeq_bool_iff in Z0.
    cbn [set_inventory store_inventory].
    apply Forall2_map_self. intros r Hr.
    destruct (String.eqb (inv_item_name r) original_name) eqn:En;
      [| split; reflexivity].
    apply String.eqb_eq in En.
    assert (r = existing) by (eapply select_item_unique; eassumption). subst r.
    cbn [inv_quantity inv_total_purchased]. split; [lra | reflexivity].
  - unfold manager_delete_item in *.
    destruct (select_item item_name (store_inventory d)); [| exact Same].
    exfalso. exact (Absurd _ _ E).
Qed.

(** X5 at a manager's update that renames an item and keeps its quantity. *)
Lemma X5_witness :
  let d := snd (add_item "Rice" "Grocery" 3 "Kg" 2 "purchase_manager" None None None
                  (noon 1) empty_db) in
  let o := OpManagerUpdate "Rice" "Basmati" "Grocery" 3 "Kg" 1 "manager" (noon 2) in
  names_unique d /\
  transactions (run_op o d) = transactions d /\
  map inv_item_name (store_inventory (run_op o d)) = ["Basmati"%string] /\
  Forall2 (fun r r' => inv_quantity r' == inv_quantity r /\
                       inv_total_purchased r' = inv_total_purchased r)
    (store_inventory d) (store_inventory (run_op o d)).
Proof.
  assert (U : names_unique
                (snd (add_item "Rice" "Grocery" 3 "Kg" 2 "purchase_manager"
                        None None None (noon 1) empty_db)))
    by (repeat constructor; simpl; tauto).
  split; [exact U |]. split; [reflexivity |]. split; [reflexivity |].
  exact (X5_no_unlogged_quantity_change
           (OpManagerUpdate "Rice" "Basmati" "Grocery" 3 "Kg" 1 "manager" (noon 2))
           (snd (add_item "Rice" "Grocery" 3 "Kg" 2 "purchase_manager"
                   None None None (noon 1) empty_db))
           U eq_refl).
Defined.

(** ** The manager's operations *)

Lemma select_item_renamed (orig name : string) (f : inventory_row -> inventory_row)
    (l : list inventory_row) (e : inventory_row) :
  (forall r, inv_item_name (f r) = name) ->
  orig = name \/ select_item name l = None ->
  select_item orig l = Some e ->
  select_item name (update_where orig f l) = Some (f e).
Proof.
  intros Hf Hfree. unfold select_item, update_where.
  induction l as [| r t IH]; simpl; [discriminate |].
  destruct (String.eqb (inv_item_name r) orig) eqn:En.
  - intros E. inversion E; subst r. rewrite Hf, String.eqb_refl. reflexivity.
  - intros Sel.
    assert (Nn : String.eqb (inv_item_name r) name = false).
    { destruct Hfree as [E | Hnone].
      - subst name. exact En.
      - unfold select_item in Hnone. simpl in Hnone.
        destruct (String.eqb (inv_item_name r) name); [discriminate | reflexivity]. }
    rewrite Nn. apply IH; [| exact Sel].
    destruct Hfree as [E | Hnone]; [left; exact E | right].
    unfold select_item in Hnone. simpl in Hnone. rewrite Nn in Hnone. exact Hnone.
Qed.

Lemma select_item_renamed_away (orig name : string)
    (f : inventory_row -> inventory_row) (l : list inventory_row) :
  (forall r, inv_item_name (f r) = name) -> orig <> name ->
  select_item orig (update_where orig f l) = None.
Proof.
  intros Hf N. apply select_item_none. intros r' Hr' E.
  apply update_where_In in Hr'. destruct Hr' as [r [_ Er]].
  destruct (String.eqb (inv_item_name r) orig) eqn:En; subst r'.
  - rewrite Hf in E. congruence.
  - apply String.eqb_neq in En. contradiction.
Qed.

(** X6.  [manager_update_item] fails, returning the database it was given,
    exactly when the item to edit is absent or the new name differs from
    the old one and is already taken.  After a successful call the item is
    found under the new name with the same id and total_purchased and with
    the category, quantity and unit given; if it was renamed, nothing is
    found under the old name. *)
Theorem X6_manager_update_item_rename (orig name cat : string) (q : Q) (u : string)
    (uid : Z) (un : string) (now : datetime) (d : db) :
  let r := manager_update_item orig name cat q u uid un now d in
  (fst (fst r) = false <->
   select_item orig (store_inventory d) = None \/
   (orig <> name /\ select_item name (store_inventory d) <> None)) /\
  (fst (fst r) = false -> snd r = d) /\
  (fst (fst r) = true ->
   exists existing row,
     select_item orig (store_inventory d) = Some existing /\
     select_item name (store_inventory (snd r)) = Some row /\
     inv_id row = inv_id existing /\
     inv_total_purchased row = inv_total_purchased existing /\
     inv_category row = cat /\ inv_quantity row = q /\ inv_unit row = u /\
     (orig <> name -> select_item orig (store_inventory (snd r)) = None)).
Proof.
  intros r. subst r. unfold manager_update_item.
  destruct (select_item orig (store_inventory d)) as [existing |] eqn:Sel.
  2: { simpl. split; [split; auto |]. split; [reflexivity | discriminate]. }
  destruct (String.eqb orig name) eqn:En; simpl negb; cbv iota.
  - apply String.eqb_eq in En. subst name. cbn [andb fst snd].
    split; [split; [discriminate | intros [H | [H _]]; [discriminate | contradiction]] |].
    split; [discriminate |]. intros _.
    exists existing. eexists. split; [reflexivity |].
    assert (E : forall d0,
              store_inventory
                (if Qeq_bool (q - inv_quantity existing) 0 then d0
                 else log_transaction d0 orig cat
                        (if Qltb 0 (q - inv_quantity existing)
                         then q - inv_quantity existing
                         else Qabs_py (q - inv_quantity existing))
                        u (if Qltb 0 (q - inv_quantity existing)
                           then "purchase"%string else "kitchen"%string)
                        uid un None None None
                        (Some "Adjusted by Manager"%string) now)
              = store_inventory d0)
      by (intros d0; destruct (Qeq_bool _ _); reflexivity).
    rewrite E. cbn [set_inventory store_inventory].
    rewrite (select_item_renamed orig orig _ _ existing);
      [| reflexivity | left; reflexivity | exact Sel].
    split; [reflexivity |]. cbn. repeat split; try reflexivity.
    intros N. contradiction.
  - apply String.eqb_neq in En. cbn [andb].
    destruct (select_item name (store_inventory d)) as [other |] eqn:Seln.
    + cbn [fst snd].
      split; [split; [intros _; right; split; [exact En | discriminate]
                     | reflexivity] |].
      split; [reflexivity | discriminate].
    + cbn [fst snd].
      split; [split; [discriminate
                     | intros [H | [_ H]]; [discriminate | contradiction]] |].
      split; [discriminate |]. intros _.
      exists existing. eexists. split; [reflexivity |].
      assert (E : forall d0,
              store_inventory
                (if Qeq_bool (q - inv_quantity existing) 0 then d0
                 else log_transaction d0 name cat
                        (if Qltb 0 (q - inv_quantity existing)
                         then q - inv_quantity existing
                         else Qabs_py (q - inv_quantity existing))
                        u (if Qltb 0 (q - inv_quantity existing)
                           then "purchase"%string else "kitchen"%string)
                        uid un None None None
                        (Some "Adjusted by Manager"%string) now)
              = store_inventory d0)
        by (intros d0; destruct (Qeq_bool _ _); reflexivity).
      rewrite E. cbn [set_inventory store_inventory].
      rewrite (select_item_renamed orig name _ _ existing);
        [| reflexivity | right; exact Seln | exact Sel].
      split; [reflexivity |]. cbn. repeat split; try reflexivity.
      intros _. apply (select_item_renamed_away orig name); [reflexivity | exact En].
Qed.

(** X7.  A successful [manager_update_item] writes to the log only when it
    changes the quantity: nothing for an unchanged quantity, one "purchase"
    entry for the amount added when the quantity goes up, one "kitchen"
    entry for the amount taken off, as a positive number, when it goes
    down; the entry carries the new name and category. *)
Theorem X7_manager_update_item_log (orig name cat : string) (q : Q) (u : string)
    (uid : Z) (un : string) (now : datetime) (d : db) (existing : inventory_row) :
  select_item orig (store_inventory d) = Some existing ->
  fst (fst (manager_update_item orig name cat q u uid un now d)) = true ->
  let d' := snd (manager_update_item orig name cat q u uid un now d) in
  (q == inv_quantity existing -> transactions d' = transactions d) /\
  (inv_quantity existing < q ->
   exists t, transactions d' = transactions d ++ [t] /\
     txn_transaction_type t = "purchase"%string /\
     txn_quantity t == q - inv_quantity existing /\
     txn_item_name t = name /\ txn_category t = cat) /\
  (q < inv_quantity existing ->
   exists t, transactions d' = transactions d ++ [t] /\
     txn_transaction_type t = "kitchen"%string /\
     txn_quantity t == inv_quantity existing - q /\
     0 < txn_quantity t /\
     txn_item_name t = name /\ txn_category t = cat).
Proof.
  intros Sel. unfold manager_update_item. rewrite Sel.
  destruct (negb _ && _); [discriminate |].
  intros _. cbn [snd].
  split; [| split].
  - intros E.
    assert (Z0 : Qeq_bool (q - inv_quantity existing) 0 = true)
      by (apply Qeq_bool_iff; lra).
    rewrite Z0. reflexivity.
  - intros L.
    assert (Z0 : Qeq_bool (q - inv_quantity existing) 0 = false).
    { destruct (Qeq_bool (q - inv_quantity existing) 0) eqn:E; [| reflexivity].
      apply Qeq_bool_iff in E. lra. }
    assert (P : Qltb 0 (q - inv_quantity existing) = true) by (apply Qltb_true; lra).
    rewrite Z0, P. eexists. split; [reflexivity |]. cbn.
    repeat split; reflexivity.
  - intros L.
    assert (Z0 : Qeq_bool (q - inv_quantity existing) 0 = false).
    { destruct (Qeq_bool (q - inv_quantity existing) 0) eqn:E; [| reflexivity].
      apply Qeq_bool_iff in E. lra. }
    assert (P : Qltb 0 (q - inv_quantity existing) = false) by (apply Qltb_false; lra).
    assert (N : Qltb (q - inv_quantity existing) 0 = true) by (apply Qltb_true; lra).
    rewrite Z0, P. eexists. split; [reflexivity |].
    cbn [txn_transaction_type txn_quantity txn_item_name txn_category].
    unfold Qabs_py. rewrite N.
    repeat split; try reflexivity; lra.
Qed.

(** X7 at a purchase of 10 Kg that the manager corrects to 7.5 Kg. *)
Lemma X7_witness :
  let d := snd (add_item "Rice" "Grocery" 10 "Kg" 2 "purchase_manager" None None None
                  (noon 1) empty_db) in
  let d' := snd (manager_update_item "Rice" "Rice" "Grocery" 7.5 "Kg" 1 "manager"
                   (noon 2) d) in
  7.5 < 10 /\
  exists t, transactions d' = transactions d ++ [t] /\
    txn_transaction_type t = "kitchen"%string /\
    txn_quantity t == 10 - 7.5 /\ 0 < txn_quantity t /\
    txn_item_name t = "Rice"%string /\ txn_category t = "Grocery"%string.
Proof.
  split; [reflexivity |].
  refine (proj2 (proj2
    (X7_manager_update_item_log "Rice" "Rice" "Grocery" 7.5 "Kg" 1 "manager" (noon 2)
       (snd (add_item "Rice" "Grocery" 10 "Kg" 2 "purchase_manager" None None None
               (noon 1) empty_db))
       {| inv_id := 1; inv_item_name := "Rice"; inv_category := "Grocery";
          inv_quantity := 10; inv_unit := "Kg"; inv_total_purchased := 10;
          inv_last_updated := noon 1 |} _ _)) _); reflexivity.
Defined.

(** X8.  [manager_delete_item] fails, returning the database it was given,
    exactly when the item is absent.  After a successful call the item is
    no longer found, the rows of every other item are all still there, one
    "manager_delete" entry holding the item's last category, quantity and
    unit is logged, and deleting the item again fails. *)
Theorem X8_manager_delete_item (name : string) (uid : Z) (un : string)
    (now : datetime) (d : db) :
  let r := manager_delete_item name uid un now d in
  (fst (fst r) = false <-> select_item name (store_inventory d) = None) /\
  (fst (fst r) = false -> snd r = d) /\
  (fst (fst r) = true ->
   select_item name (store_inventory (snd r)) = None /\
   (forall x, In x (store_inventory (snd r)) <->
              In x (store_inventory d) /\ inv_item_name x <> name) /\
   (exists existing t,
      select_item name (store_inventory d) = Some existing /\
      transactions (snd r) = transactions d ++ [t] /\
      txn_transaction_type t = "manager_delete"%string /\
      txn_item_name t = name /\
      txn_category t = inv_category existing /\
      txn_quantity t = inv_quantity existing /\
      txn_unit t = inv_unit existing) /\
   forall uid' un' now',
     fst (manager_delete_item name uid' un' now' (snd r)) = (false, MsgItemNotFound)).
Proof.
  intros r. subst r. unfold manager_delete_item.
  destruct (select_item name (store_inventory d)) as [existing |] eqn:Sel.
  2: { simpl. split; [tauto |]. split; [reflexivity | discriminate]. }
  cbn [fst snd].
  split; [split; discriminate |]. split; [discriminate |]. intros _.
  cbn [log_transaction set_inventory store_inventory transactions].
  assert (In' : forall x, In x (delete_where name (store_inventory d)) <->
                          In x (store_inventory d) /\ inv_item_name x <> name).
  { intros x. unfold delete_where. rewrite filter_In, negb_true_iff.
    split; intros [H1 H2]; (split; [exact H1 |]).
    - apply String.eqb_neq, H2.
    - apply String.eqb_neq, H2. }
  assert (Gone : select_item name (delete_where name (store_inventory d)) = None).
  { apply select_item_none. intros x Hx. apply In' in Hx. tauto. }
  split; [exact Gone |]. split; [exact In' |]. split.
  - exists existing. eexists. split; [reflexivity |]. split; [reflexivity |].
    cbn. repeat split; try reflexivity.
    eapply select_item_name, Sel.
  - intros uid' un' now'. rewrite Gone. reflexivity.
Qed.

(** ** The log against the stock figures *)

Lemma Qsum_app (l l' : list Q) : Qsum (l ++ l') == Qsum l + Qsum l'.
Proof.
  induction l as [| a t IH]; simpl.
  - ring.
  - rewrite IH. ring.
Qed.

Lemma logged_quantity_snoc (ty name : string) (log : list transaction_row)
    (t : transaction_row) :
  logged_quantity ty name (log ++ [t]) ==
  logged_quantity ty name log +
  (if String.eqb (txn_item_name t) name && String.eqb (txn_transaction_type t) ty
   then txn_quantity t else 0).
Proof.
  unfold logged_quantity. rewrite filter_app, map_app, Qsum_app. simpl.
  destruct (String.eqb (txn_item_name t) name && String.eqb (txn_transaction_type t) ty);
    simpl; ring.
Qed.

Lemma logged_quantity_absent (ty name : string) (log : list transaction_row) :
  (forall t, In t log -> txn_item_name t <> name) ->
  logged_quantity ty name log = 0.
Proof.
  intros H. unfold logged_quantity.
  induction log as [| t l IH]; simpl; [reflexivity |].
  assert (E : String.eqb (txn_item_name t) name = false)
    by (apply String.eqb_neq, H; left; reflexivity).
  rewrite E. simpl. apply IH. intros x Hx. apply H. right. exact Hx.
Qed.

Lemma empty_db_balanced : balanced empty_db.
Proof. repeat split; constructor. Qed.

Lemma add_item_balanced (name cat : string) (q : Q) (u : string) (uid : Z)
    (un : string) (rate amount : option Q) (vendor : option string)
    (now : datetime) (d : db) :
  balanced d -> balanced (snd (add_item name cat q u uid un rate amount vendor now d)).
Proof.
  intros [U [L R]]. unfold add_item. cbn [snd].
  destruct (select_item name (store_inventory d)) as [e |] eqn:Sel.
  - unfold balanced, names_unique.
    cbn [log_transaction set_inventory store_inventory transactions].
    rewrite update_where_names by reflexivity.
    split; [exact U |]. split.
    + apply Forall_app. split; [exact L |]. constructor; [| constructor].
      cbn [txn_item_name]. rewrite <- (select_item_name _ _ _ Sel).
      apply in_map. eapply select_item_In, Sel.
    + apply Forall_forall. intros r' Hr'.
      apply update_where_In in Hr'. destruct Hr' as [r [Hr Er]].
      pose proof (proj1 (Forall_forall _ _) R r Hr) as [Gq [Gt [Et Le]]].
      rewrite !logged_quantity_snoc. cbn [txn_item_name txn_transaction_type txn_quantity].
      destruct (String.eqb (inv_item_name r) name) eqn:En.
      * apply String.eqb_eq in En.
        assert (r = e) by (eapply select_item_unique; eassumption). subst r.
        subst r'. cbn [inv_item_name inv_quantity inv_total_purchased].
        rewrite En, String.eqb_refl. simpl andb. cbv iota.
        pose proof (py_round_fix _ 3
          (on_grid_plus 3 _ _ Gq (py_round_on_grid q 3))) as Fq.
        pose proof (py_round_fix _ 3
          (on_grid_plus 3 _ _ Gt (py_round_on_grid q 3))) as Ft.
        rewrite En in Et, Le.
        split; [apply py_round_on_grid |]. split; [apply py_round_on_grid |].
        split; lra.
      * subst r'. apply String.eqb_neq in En.
        assert (En' : String.eqb name (inv_item_name r) = false)
          by (apply String.eqb_neq; congruence).
        rewrite En'. simpl andb. cbv iota.
        split; [exact Gq |]. split; [exact Gt |]. split; lra.
  - pose proof (select_item_absent_names _ _ Sel) as Nin.
    unfold balanced, names_unique.
    cbn [log_transaction insert_inventory store_inventory transactions].
    split; [apply (insert_names name); [reflexivity | exact Sel | exact U] |].
    split.
    + apply Forall_app. split.
      * eapply Forall_impl; [| exact L]. intros t Ht. cbv beta in *.
        rewrite map_app. apply in_or_app. left. exact Ht.
      * constructor; [| constructor]. cbn [txn_item_name].
        rewrite map_app. apply in_or_app. right. left. reflexivity.
    + apply Forall_app. split.
      * apply Forall_forall. intros r Hr.
        pose proof (proj1 (Forall_forall _ _) R r Hr) as [Gq [Gt [Et Le]]].
        rewrite !logged_quantity_snoc.
        cbn [txn_item_name txn_transaction_type txn_quantity].
        assert (En' : String.eqb name (inv_item_name r) = false).
        { apply String.eqb_neq. intros E. apply Nin. rewrite E. apply in_map, Hr. }
        rewrite En'. simpl andb. cbv iota.
        split; [exact Gq |]. split; [exact Gt |]. split; lra.
      * constructor; [| constructor].
        cbn [inv_item_name inv_quantity inv_total_purchased].
        rewrite !logged_quantity_snoc.
        cbn [txn_item_name txn_transaction_type txn_quantity].
        rewrite String.eqb_refl. simpl andb. cbv iota.
        assert (A : forall ty, logged_quantity ty name (transactions d) = 0).
        { intros ty. apply logged_quantity_absent. intros t Ht E.
          apply Nin. rewrite <- E.
          exact (proj1 (Forall_forall _ _) L t Ht). }
        rewrite !A.
        split; [apply py_round_on_grid |]. split; [apply py_round_on_grid |].
        split; lra.
Qed.

Lemma on_grid_clamp (x : Q) : on_grid 3 x -> on_grid 3 (if Qltb x 0 then 0 else x).
Proof. intros G. destruct (Qltb x 0); [apply on_grid_0 | exact G]. Qed.

Lemma remove_item_balanced (name : string) (q : Q) (uid : Z) (un : string)
    (notes : option string) (now : datetime) (d : db) :
  balanced d -> balanced (snd (remove_item name q uid un notes now d)).
Proof.
  intros B. pose proof B as [U [L R]]. unfold remove_item.
  destruct (select_item name (store_inventory d)) as [e |] eqn:Sel; [| exact B].
  destruct (Qltb _ _); [exact B |].
  unfold balanced, names_unique.
  cbn [snd log_transaction set_inventory store_inventory transactions].
  rewrite update_where_names by reflexivity.
  split; [exact U |]. split.
  - apply Forall_app. split; [exact L |]. constructor; [| constructor].
    cbn [txn_item_name]. rewrite <- (select_item_name _ _ _ Sel).
    apply in_map. eapply select_item_In, Sel.
  - apply Forall_forall. intros r' Hr'.
    apply update_where_In in Hr'. destruct Hr' as [r [Hr Er]].
    pose proof (proj1 (Forall_forall _ _) R r Hr) as [Gq [Gt [Et Le]]].
    rewrite !logged_quantity_snoc. cbn [txn_item_name txn_transaction_type txn_quantity].
    destruct (String.eqb (inv_item_name r) name) eqn:En.
    + apply String.eqb_eq in En.
      assert (r = e) by (eapply select_item_unique; eassumption). subst r.
      subst r'. cbn [inv_item_name inv_quantity inv_total_purchased].
      rewrite En, String.eqb_refl. simpl andb. cbv iota.
      rewrite En in Et, Le.
      pose proof (py_round_fix _ 3 Gq) as Fq.
      pose proof (py_round_fix _ 3
        (on_grid_minus 3 _ _ (py_round_on_grid (inv_quantity e) 3)
           (py_round_on_grid q 3))) as Fd.
      split; [apply on_grid_clamp, py_round_on_grid |]. split; [exact Gt |].
      split; [lra |].
      destruct (Qltb (py_round (py_round (inv_quantity e) 3 - py_round q 3) 3) 0) eqn:C.
      * apply Qltb_true in C. lra.
      * lra.
    + subst r'. apply String.eqb_neq in En.
      assert (En' : String.eqb name (inv_item_name r) = false)
        by (apply String.eqb_neq; congruence).
      rewrite En'. simpl andb. cbv iota.
      split; [exact Gq |]. split; [exact Gt |]. split; lra.
Qed.

Lemma run_ops_balanced (ops : list ledger_op) (d : db) :
  forallb is_stock_move ops = true -> balanced d -> balanced (run_ops ops d).
Proof.
  revert d. induction ops as [| o t IH]; intros d H B; simpl; [exact B |].
  simpl in H. apply andb_true_iff in H. destruct H as [Ho Ht].
  apply IH; [exact Ht |].
  destruct o; try discriminate; simpl run_op.
  - apply add_item_balanced, B.
  - apply remove_item_balanced, B.
Qed.

(** X9.  The ledger reconciles with its log.  After any run of purchases
    ([add_item]) and issues ([remove_item]) from the empty database,
    whatever their arguments, every item's total_purchased equals the sum
    of the quantities of its "purchase" transactions, and its quantity is
    at least that sum less the sum of its "kitchen" transactions (more only
    where an issue was clamped at 0). *)
Theorem X9_ledger_reconciles_with_log (ops : list ledger_op) :
  forallb is_stock_move ops = true ->
  let d := run_ops ops empty_db in
  forall r, In r (store_inventory d) ->
    inv_total_purchased r ==
      logged_quantity "purchase" (inv_item_name r) (transactions d) /\
    logged_quantity "purchase" (inv_item_name r) (transactions d)
    - logged_quantity "kitchen" (inv_item_name r) (transactions d)
    <= inv_quantity r.
Proof.
  intros H d r Hr.
  destruct (run_ops_balanced ops empty_db H empty_db_balanced) as [_ [_ R]].
  destruct (proj1 (Forall_forall _ _) R r Hr) as [_ [_ [Et Le]]].
  split; [exact Et | exact Le].
Qed.

(** X9 at two purchases and an issue that uses the tolerance: 3.001 Kg are
    logged as issued out of 3 Kg, and the quantity stays at 0. *)
Lemma X9_witness :
  let ops :=
    [ OpAddItem "Rice" "Grocery" 2 "Kg" 2 "purchase_manager" None None None (noon 1);
      OpAddItem "Rice" "Grocery" 1 "Kg" 2 "purchase_manager" None None None (noon 2);
      OpRemoveItem "Rice" 3.001 3 "kitchen_manager" None (noon 3) ] in
  let d := run_ops ops empty_db in
  map (fun r => (inv_quantity r, inv_total_purchased r)) (store_inventory d) = [(0, 3)] /\
  logged_quantity "kitchen" "Rice" (transactions d) == 3.001 /\
  forall r, In r (store_inventory d) ->
    inv_total_purchased r ==
      logged_quantity "purchase" (inv_item_name r) (transactions d) /\
    logged_quantity "purchase" (inv_item_name r) (transactions d)
    - logged_quantity "kitchen" (inv_item_name r) (transactions d)
    <= inv_quantity r.
Proof.
  split; [reflexivity |]. split; [reflexivity |].
  exact (X9_ledger_reconciles_with_log
           [ OpAddItem "Rice" "Grocery" 2 "Kg" 2 "purchase_manager" None None None (noon 1);
             OpAddItem "Rice" "Grocery" 1 "Kg" 2 "purchase_manager" None None None (noon 2);
             OpRemoveItem "Rice" 3.001 3 "kitchen_manager" None (noon 3) ] eq_refl).
Defined.

(** ** Housekeeping of the log, the summary by category *)

Lemma filter_length_split {A : Type} (p : A -> bool) (l : list A) :
  (Z.of_nat (List.length l) - Z.of_nat (List.length (filter (fun x => negb (p x)) l))
   = Z.of_nat (List.length (filter p l)))%Z.
Proof.
  induction l as [| a t IH]; [reflexivity |].
  cbn [filter]. destruct (p a); cbn [negb List.length]; rewrite ?Nat2Z.inj_succ; lia.
Qed.

Lemma filter_filter_imp {A : Type} (p q : A -> bool) (l : list A) :
  (forall x, q x = true -> p x = true) ->
  filter q (filter p l) = filter q l.
Proof.
  intros H. induction l as [| a t IH]; simpl; [reflexivity |].
  destruct (p a) eqn:P; simpl.
  - rewrite IH. reflexivity.
  - destruct (q a) eqn:Q; [| exact IH].
    apply H in Q. congruence.
Qed.

(** X10.  [cleanup_old_transactions] deletes exactly the entries dated
    before the day 30 days back, keeps the others in their order, returns
    the number of entries it deleted and leaves the inventory and both
    counters alone.  Run again at the same time it deletes nothing, and no
    query of [get_transactions] at that time can tell whether it ran. *)
Theorem X10_cleanup_old_transactions {S : Sorter} (now : datetime) (d : db) :
  let deleted := fst (cleanup_old_transactions now d) in
  let d1 := snd (cleanup_old_transactions now d) in
  store_inventory d1 = store_inventory d /\
  inventory_seq d1 = inventory_seq d /\
  transactions_seq d1 = transactions_seq d /\
  transactions d1 =
    filter (fun t => (thirty_days_ago now <=? dt_day (txn_created_at t))%Z)
      (transactions d) /\
  deleted =
    Z.of_nat (List.length
                (filter (fun t => (dt_day (txn_created_at t) <? thirty_days_ago now)%Z)
                   (transactions d))) /\
  cleanup_old_transactions now d1 = (0%Z, d1) /\
  forall limit ty df fd td,
    get_transactions limit ty df fd td now d1 =
    get_transactions limit ty df fd td now d.
Proof.
  cbv zeta. repeat split.
  - unfold cleanup_old_transactions. cbn [snd transactions].
    apply filter_ext. intros t.
    destruct (Z.ltb_spec (dt_day (txn_created_at t)) (thirty_days_ago now));
      destruct (Z.leb_spec (thirty_days_ago now) (dt_day (txn_created_at t)));
      simpl; try reflexivity; lia.
  - unfold cleanup_old_transactions. cbn [fst].
    apply (filter_length_split
             (fun t => (dt_day (txn_created_at t) <? thirty_days_ago now)%Z)).
  - unfold cleanup_old_transactions.
    cbn [snd transactions store_inventory inventory_seq transactions_seq].
    rewrite filter_filter_imp by (intros x H; exact H).
    rewrite Z.sub_diag. reflexivity.
  - intros. apply get_transactions_after_cleanup.
Qed.

(** X11.  Cleaning up twice is cleaning up once at the later time: when
    the clock has not gone back between two runs, the log after both is the
    log a single run at the later time leaves, and the two counts returned
    add up to the count of that single run. *)
Theorem X11_cleanup_twice (now now' : datetime) (d : db) :
  (dt_day now <= dt_day now')%Z ->
  let first := cleanup_old_transactions now d in
  let second := cleanup_old_transactions now' (snd first) in
  snd second = snd (cleanup_old_transactions now' d) /\
  (fst first + fst second)%Z = fst (cleanup_old_transactions now' d).
Proof.
  intros Hle. cbv zeta. unfold cleanup_old_transactions.
  cbn [fst snd transactions store_inventory inventory_seq transactions_seq].
  assert (E : filter (fun t => negb (dt_day (txn_created_at t) <? thirty_days_ago now')%Z)
                (filter (fun t => negb (dt_day (txn_created_at t) <? thirty_days_ago now)%Z)
                   (transactions d)) =
              filter (fun t => negb (dt_day (txn_created_at t) <? thirty_days_ago now')%Z)
                (transactions d)).
  { apply filter_filter_imp. intros t H.
    apply negb_true_iff, Z.ltb_ge in H. apply negb_true_iff, Z.ltb_ge.
    unfold thirty_days_ago in *. lia. }
  rewrite E. split; [reflexivity | lia].
Qed.

(** X11 at a log with entries of days 1, 20 and 60, cleaned on day 40 and
    again on day 70: 1 and then 1 entries go, as 2 go on day 70 alone. *)
Lemma X11_witness :
  let d := run_ops
    [ OpAddItem "Rice" "Grocery" 2 "Kg" 2 "purchase_manager" None None None (noon 1);
      OpAddItem "Rice" "Grocery" 1 "Kg" 2 "purchase_manager" None None None (noon 20);
      OpRemoveItem "Rice" 1 3 "kitchen_manager" None (noon 60) ] empty_db in
  fst (cleanup_old_transactions (noon 40) d) = 1%Z /\
  fst (cleanup_old_transactions (noon 70) d) = 2%Z /\
  let first := cleanup_old_transactions (noon 40) d in
  let second := cleanup_old_transactions (noon 70) (snd first) in
  snd second = snd (cleanup_old_transactions (noon 70) d) /\
  (fst first + fst second)%Z = fst (cleanup_old_transactions (noon 70) d).
Proof.
  split; [reflexivity |]. split; [reflexivity |].
  apply (X11_cleanup_twice (noon 40) (noon 70)). simpl. lia.
Defined.

Lemma sum_case_count {A : Type} (cond : A -> bool) (rows : list A) :
  sum_case cond rows = Z.of_nat (List.length (filter cond rows)).
Proof.
  unfold sum_case. induction rows as [| a t IH]; [reflexivity |].
  cbn [map fold_right filter]. rewrite IH.
  destruct (cond a); cbn [List.length]; lia.
Qed.

Lemma quantity_sign_split (rows : list inventory_row) :
  (Z.of_nat (List.length (filter (fun r => Qltb 0 (inv_quantity r)) rows))
   + Z.of_nat (List.length (filter (fun r => Qeq_bool (inv_quantity r) 0) rows))
   + Z.of_nat (List.length (filter (fun r => Qltb (inv_quantity r) 0) rows))
   = Z.of_nat (List.length rows))%Z.
Proof.
  induction rows as [| r t IH]; [reflexivity |].
  cbn [filter].
  destruct (Q_dec (inv_quantity r) 0) as [[L | G] | E].
  - rewrite (proj2 (Qltb_false 0 (inv_quantity r))) by lra.
    rewrite (proj2 (Qltb_true (inv_quantity r) 0)) by exact L.
    destruct (Qeq_bool (inv_quantity r) 0) eqn:Z0;
      [apply Qeq_bool_iff in Z0; lra |].
    cbn [List.length]. rewrite !Nat2Z.inj_succ. lia.
  - rewrite (proj2 (Qltb_true 0 (inv_quantity r))) by exact G.
    rewrite (proj2 (Qltb_false (inv_quantity r) 0)) by lra.
    destruct (Qeq_bool (inv_quantity r) 0) eqn:Z0;
      [apply Qeq_bool_iff in Z0; lra |].
    cbn [List.length]. rewrite !Nat2Z.inj_succ. lia.
  - rewrite (proj2 (Qltb_false 0 (inv_quantity r))) by lra.
    rewrite (proj2 (Qltb_false (inv_quantity r) 0)) by lra.
    rewrite (proj2 (Qeq_bool_iff (inv_quantity r) 0)) by exact E.
    cbn [List.length]. rewrite !Nat2Z.inj_succ. lia.
Qed.

Lemma count_by_key {A : Type} (key_of : A -> string) (keys : list string)
    (rows : list A) :
  NoDup keys -> (forall r, In r rows -> In (key_of r) keys) ->
  fold_right Z.add 0%Z
    (map (fun k => Z.of_nat
                     (List.length (filter (fun r => String.eqb (key_of r) k) rows)))
       keys)
  = Z.of_nat (List.length rows).
Proof.
  intros ND. induction rows as [| r t IH]; intros Cov.
  - clear. induction keys as [| k ks IHk]; [reflexivity |].
    cbn [map fold_right]. rewrite IHk. reflexivity.
  - assert (Hone : forall ks, NoDup ks ->
              fold_right Z.add 0%Z
                (map (fun k => Z.of_nat
                   (List.length (filter (fun r => String.eqb (key_of r) k) (r :: t)))) ks)
              = (fold_right Z.add 0%Z
                   (map (fun k => Z.of_nat
                      (List.length (filter (fun r => String.eqb (key_of r) k) t))) ks)
                 + (if in_dec string_dec (key_of r) ks then 1 else 0))%Z).
    { clear. induction ks as [| k ks IHk]; intros ND.
      - reflexivity.
      - inversion ND as [| ? ? Nin ND']; subst.
        cbn [map fold_right]. rewrite (IHk ND'). cbn [filter].
        destruct (String.eqb_spec (key_of r) k) as [E | NE].
        + subst k. destruct (in_dec string_dec (key_of r) (key_of r :: ks)) as [_ | n];
            [| exfalso; apply n; left; reflexivity].
          destruct (in_dec string_dec (key_of r) ks) as [i | _]; [contradiction |].
          cbn [List.length]. rewrite Nat2Z.inj_succ. lia.
        + destruct (in_dec string_dec (key_of r) (k :: ks)) as [i | n];
            destruct (in_dec string_dec (key_of r) ks) as [i' | n']; try lia.
          * destruct i as [E | i]; [congruence | contradiction].
          * exfalso. apply n. right. exact i'. }
    rewrite (Hone keys ND), IH by (intros x Hx; apply Cov; right; exact Hx).
    destruct (in_dec string_dec (key_of r) keys) as [_ | n].
    + cbn [List.length]. rewrite Nat2Z.inj_succ. lia.
    + exfalso. apply n, Cov. left. reflexivity.
Qed.

(** X12.  [get_inventory_summary] has one entry for every category some
    item carries and no other, in strictly ascending order of category;
    the item counts are at least 1 and add up to the number of items of the
    table; and in every entry in_stock + out_of_stock falls short of
    item_count by exactly the number of items of the category whose
    quantity is negative. *)
Theorem X12_inventory_summary (d : db) :
  let s := get_inventory_summary d in
  StronglySorted (fun a b => String.compare a b = Lt) (map sm_category s) /\
  (forall c, In c (map sm_category s) <->
             exists r, In r (store_inventory d) /\ inv_category r = c) /\
  fold_right Z.add 0%Z (map sm_item_count s) =
    Z.of_nat (List.length (store_inventory d)) /\
  forall e, In e s ->
    (1 <= sm_item_count e)%Z /\
    (sm_in_stock e + sm_out_of_stock e +
     Z.of_nat (List.length
                 (filter (fun r => String.eqb (inv_category r) (sm_category e)
                                   && Qltb (inv_quantity r) 0)
                    (store_inventory d)))
     = sm_item_count e)%Z.
Proof.
  cbv zeta. unfold get_inventory_summary.
  assert (Names : forall (g : string -> summary_row) ks,
            (forall c, sm_category (g c) = c) -> map sm_category (map g ks) = ks).
  { intros g ks Hg. rewrite map_map. rewrite <- (map_id ks) at 2.
    apply map_ext. exact Hg. }
  rewrite Names by reflexivity.
  split; [apply group_keys_sorted |]. split; [| split].
  - intros c. rewrite group_keys_In, in_map_iff.
    split; intros [r Hr]; exists r; tauto.
  - rewrite map_map. cbn [sm_item_count].
    apply (count_by_key inv_category).
    + apply group_keys_NoDup.
    + intros r Hr. apply group_keys_In, in_map, Hr.
  - intros e He. apply in_map_iff in He. destruct He as [c [Ee Hc]]. subst e.
    cbn [sm_item_count sm_in_stock sm_out_of_stock sm_category].
    apply group_keys_In, in_map_iff in Hc. destruct Hc as [r [Er Hr]].
    split.
    + assert (In r (filter (fun r0 => String.eqb (inv_category r0) c) (store_inventory d))).
      { apply filter_In. split; [exact Hr |]. rewrite Er. apply String.eqb_refl. }
      destruct (filter (fun r0 => String.eqb (inv_category r0) c) (store_inventory d));
        [contradiction | cbn [List.length]; lia].
    + rewrite !sum_case_count.
      rewrite <- (quantity_sign_split
                    (filter (fun r0 => String.eqb (inv_category r0) c) (store_inventory d))).
      f_equal. f_equal. f_equal.
      clear. induction (store_inventory d) as [| a t IH]; [reflexivity |].
      cbn [filter]. destruct (String.eqb (inv_category a) c); cbn [andb filter].
      * destruct (Qltb (inv_quantity a) 0); cbn [List.length]; congruence.
      * exact IH.
Qed.

(** ** The categories *)

Lemma insert_category_none (name icon : string) (t : category_table) :
  insert_category name icon t = None <-> In name (map cat_name (categories t)).
Proof.
  unfold insert_category.
  destruct (existsb (fun c => String.eqb (cat_name c) name) (categories t)) eqn:E.
  - split; [intros _ | reflexivity].
    apply existsb_exists in E. destruct E as [c [Hc Ec]].
    apply String.eqb_eq in Ec. subst name. apply in_map, Hc.
  - split; [discriminate |]. intros H. exfalso.
    apply in_map_iff in H. destruct H as [c [Ec Hc]].
    assert (T : existsb (fun c => String.eqb (cat_name c) name) (categories t) = true).
    { apply existsb_exists. exists c. split; [exact Hc |]. apply String.eqb_eq, Ec. }
    congruence.
Qed.

Lemma insert_category_some (name icon : string) (t t' : category_table) :
  insert_category name icon t = Some t' ->
  ~ In name (map cat_name (categories t)) /\
  categories t' = categories t ++
    [ {| cat_id := (categories_seq t + 1)%Z; cat_name := name; cat_icon := icon |} ] /\
  categories_seq t' = (categories_seq t + 1)%Z.
Proof.
  intros H. split.
  - intros Hin. apply (insert_category_none name icon) in Hin. congruence.
  - unfold insert_category in H.
    destruct (existsb _ _); [discriminate |]. inversion H. split; reflexivity.
Qed.

Lemma insert_category_ok (name icon : string) (t t' : category_table) :
  categories_ok t -> insert_category name icon t = Some t' -> categories_ok t'.
Proof.
  intros [Hn [Hi Hs]] H. apply insert_category_some in H.
  destruct H as [Nin [Ec Es]]. unfold categories_ok. rewrite Ec, Es, !map_app.
  cbn [map cat_name cat_id]. repeat split.
  - apply NoDup_app; [exact Hn | repeat constructor; simpl; tauto |].
    intros x Hx [Ex | []]. subst x. exact (Nin Hx).
  - apply NoDup_app; [exact Hi | repeat constructor; simpl; tauto |].
    intros x Hx [Ex | []]. subst x.
    apply in_map_iff in Hx. destruct Hx as [c [Ec' Hc]].
    pose proof (proj1 (Forall_forall _ _) Hs c Hc) as Hle. cbv beta in Hle. lia.
  - apply Forall_app. split.
    + eapply Forall_impl; [| exact Hs]. intros c Hc. cbv beta in *. lia.
    + constructor; [| constructor]. cbn [cat_id]. lia.
Qed.

Lemma select_category_In (category_id : Z) (t : category_table) (c : category_row) :
  select_category category_id t = Some c -> In c (categories t) /\ cat_id c = category_id.
Proof.
  unfold select_category. intros H. apply find_some in H.
  destruct H as [Hin E]. apply Z.eqb_eq in E. tauto.
Qed.

Lemma select_category_none (category_id : Z) (t : category_table) :
  select_category category_id t = None <->
  ~ In category_id (map cat_id (categories t)).
Proof.
  unfold select_category. split.
  - intros H Hin. apply in_map_iff in Hin. destruct Hin as [c [Ec Hc]].
    pose proof (find_none _ _ H c Hc) as F. cbv beta in F.
    apply Z.eqb_neq in F. contradiction.
  - intros H. destruct (find _ _) as [c |] eqn:F; [| reflexivity].
    exfalso. apply find_some in F. destruct F as [Hin E].
    apply Z.eqb_eq in E. apply H. rewrite <- E. apply in_map, Hin.
Qed.

(** Renaming the row of one id to a name no other row carries keeps the
    names distinct. *)
Lemma rename_category_names (category_id : Z) (new_name new_icon : string)
    (l : list category_row) :
  NoDup (map cat_name l) -> NoDup (map cat_id l) ->
  (forall c, In c l -> cat_id c <> category_id -> cat_name c <> new_name) ->
  NoDup (map cat_name
           (map (fun c => if (cat_id c =? category_id)%Z then
                            {| cat_id := cat_id c; cat_name := new_name;
                               cat_icon := new_icon |}
                          else c) l)).
Proof.
  induction l as [| a t IH]; intros Hn Hi Hfree; [constructor |].
  inversion Hn as [| ? ? Na Hn']; subst. inversion Hi as [| ? ? Ia Hi']; subst.
  cbn [map]. constructor.
  - intros Hin. rewrite map_map in Hin. apply in_map_iff in Hin.
    destruct Hin as [c [Ec Hc]].
    destruct (Z.eqb_spec (cat_id a) category_id) as [Ea | Na'];
      destruct (Z.eqb_spec (cat_id c) category_id) as [Ec' | Nc'];
      cbn [cat_name] in Ec.
    + apply Ia. rewrite Ea, <- Ec'. apply in_map, Hc.
    + apply (Hfree c); [right; exact Hc | exact Nc' | exact Ec].
    + apply (Hfree a); [left; reflexivity | exact Na' | symmetry; exact Ec].
    + apply Na. rewrite <- Ec. apply in_map, Hc.
  - apply IH; [exact Hn' | exact Hi' |].
    intros c Hc. apply Hfree. right. exact Hc.
Qed.

Lemma update_category_ok (category_id : Z) (new_name new_icon : string)
    (t : category_table) (d : db) :
  categories_ok t ->
  categories_ok (fst (snd (update_category category_id new_name new_icon t d))).
Proof.
  intros Ok. pose proof Ok as [Hn [Hi Hs]]. unfold update_category.
  destruct (select_category category_id t) as [old_cat |]; [| exact Ok].
  destruct (existsb _ _) eqn:E; [exact Ok |].
  cbn [snd fst]. unfold categories_ok. cbn [categories categories_seq].
  split; [| split].
  - apply rename_category_names; [exact Hn | exact Hi |].
    intros c Hc Nid En.
    assert (T : existsb (fun c => String.eqb (cat_name c) new_name
                                  && negb (cat_id c =? category_id)%Z)
                  (categories t) = true).
    { apply existsb_exists. exists c. split; [exact Hc |].
      apply andb_true_iff. split; [apply String.eqb_eq, En |].
      apply negb_true_iff, Z.eqb_neq, Nid. }
    congruence.
  - rewrite map_map.
    replace (map _ (categories t)) with (map cat_id (categories t)); [exact Hi |].
    apply map_ext. intros c. destruct (cat_id c =? category_id)%Z; reflexivity.
  - apply Forall_map. eapply Forall_impl; [| exact Hs].
    intros c Hc. cbv beta in *.
    destruct (cat_id c =? category_id)%Z; exact Hc.
Qed.

Lemma delete_category_ok (category_id : Z) (t : category_table) (d : db) :
  categories_ok t -> categories_ok (snd (delete_category category_id t d)).
Proof.
  intros Ok. pose proof Ok as [Hn [Hi Hs]]. unfold delete_category.
  destruct (select_category category_id t) as [cat |]; [| exact Ok].
  destruct (0 <? _)%Z; [exact Ok |].
  cbn [snd]. unfold categories_ok. cbn [categories categories_seq].
  split; [| split].
  - apply NoDup_map_filter, Hn.
  - apply NoDup_map_filter, Hi.
  - apply Forall_forall. intros c Hc. apply filter_In in Hc.
    exact (proj1 (Forall_forall _ _) Hs c (proj1 Hc)).
Qed.

Lemma init_categories_ok (default_categories : list (string * string))
    (t : category_table) :
  categories_ok t -> categories_ok (init_categories default_categories t).
Proof.
  unfold init_categories. revert t.
  induction default_categories as [| ni l IH]; intros t Ok; [exact Ok |].
  cbn [fold_left]. apply IH.
  destruct (insert_category (fst ni) (snd ni) t) as [t' |] eqn:E; [| exact Ok].
  eapply insert_category_ok; eassumption.
Qed.

Lemma empty_categories_ok : categories_ok empty_categories.
Proof. repeat split; constructor. Qed.

Lemma run_category_op_ok (o : category_op) (s : category_table * db) :
  categories_ok (fst s) -> categories_ok (fst (run_category_op o s)).
Proof.
  intros Ok. destruct o as [name icon | cid n i | cid]; cbn [run_category_op fst].
  - unfold add_category.
    destruct (insert_category name icon (fst s)) as [t' |] eqn:E; [| exact Ok].
    cbn [snd]. eapply insert_category_ok; eassumption.
  - apply update_category_ok, Ok.
  - apply delete_category_ok, Ok.
Qed.

Lemma run_category_ops_ok (ops : list category_op) (s : category_table * db) :
  categories_ok (fst s) -> categories_ok (fst (run_category_ops ops s)).
Proof.
  unfold run_category_ops. revert s.
  induction ops as [| o l IH]; intros s Ok; [exact Ok |].
  cbn [fold_left]. apply IH, run_category_op_ok, Ok.
Qed.

(** X13.  The UNIQUE constraint on [categories.name] is never put to the
    test by an UPDATE.  Started from the defaults [init_db] inserts into an
    empty table, after any run of [add_category], [update_category] and
    [delete_category], whatever their arguments and whatever the inventory,
    no two categories share a name and no two share an id: the check
    [update_category] makes by hand before its UPDATE is enough. *)
Theorem X13_category_names_stay_distinct (default_categories : list (string * string))
    (ops : list category_op) (d : db) :
  let t := fst (run_category_ops ops
                  (init_categories default_categories empty_categories, d)) in
  NoDup (map cat_name (categories t)) /\ NoDup (map cat_id (categories t)).
Proof.
  cbv zeta.
  destruct (run_category_ops_ok ops
              (init_categories default_categories empty_categories, d)) as [Hn [Hi _]].
  - cbn [fst]. apply init_categories_ok, empty_categories_ok.
  - split; assumption.
Qed.

Lemma init_categories_names (default_categories : list (string * string))
    (t : category_table) :
  (exists l, categories (init_categories default_categories t) = categories t ++ l) /\
  (forall n, In n (map fst default_categories) ->
             In n (map cat_name (categories (init_categories default_categories t)))).
Proof.
  unfold init_categories. revert t.
  induction default_categories as [| ni l IH]; intros t.
  - split; [exists []; symmetry; apply app_nil_r | intros n []].
  - cbn [fold_left map].
    destruct (insert_category (fst ni) (snd ni) t) as [t' |] eqn:E.
    + destruct (IH t') as [[l' El] Hall].
      apply insert_category_some in E. destruct E as [_ [Ec _]].
      split.
      * eexists. rewrite El, Ec, <- app_assoc. reflexivity.
      * intros n [En | Hn]; [| apply Hall, Hn].
        subst n. rewrite El, Ec, !map_app. apply in_or_app. left.
        apply in_or_app. right. left. reflexivity.
    + destruct (IH t) as [[l' El] Hall].
      split; [exists l'; exact El |].
      intros n [En | Hn]; [| apply Hall, Hn].
      subst n. apply insert_category_none in E.
      rewrite El, map_app. apply in_or_app. left. exact E.
Qed.

Lemma init_categories_noop (default_categories : list (string * string))
    (t : category_table) :
  (forall n, In n (map fst default_categories) -> In n (map cat_name (categories t))) ->
  init_categories default_categories t = t.
Proof.
  unfold init_categories. revert t.
  induction default_categories as [| ni l IH]; intros t H; [reflexivity |].
  cbn [fold_left].
  assert (E : insert_category (fst ni) (snd ni) t = None).
  { apply insert_category_none, H. left. reflexivity. }
  rewrite E. apply IH. intros n Hn. apply H. right. exact Hn.
Qed.

(** X14.  The loop of [init_db] over the default categories can run at
    every start of the application: it keeps the categories it finds, rows
    and order, adds the missing defaults behind them, so that every default
    name is there afterwards, and a second run changes nothing. *)
Theorem X14_init_categories_idempotent (default_categories : list (string * string))
    (t : category_table) :
  let t1 := init_categories default_categories t in
  (exists l, categories t1 = categories t ++ l) /\
  (forall n, In n (map fst default_categories) -> In n (map cat_name (categories t1))) /\
  init_categories default_categories t1 = t1.
Proof.
  cbv zeta. destruct (init_categories_names default_categories t) as [Hpre Hall].
  split; [exact Hpre |]. split; [exact Hall |].
  apply init_categories_noop, Hall.
Qed.

Lemma recategorise_spec (old_name new_name : string) (inv : list inventory_row) :
  Forall2 (fun r r' =>
             inv_id r' = inv_id r /\ inv_item_name r' = inv_item_name r /\
             inv_quantity r' = inv_quantity r /\ inv_unit r' = inv_unit r /\
             inv_total_purchased r' = inv_total_purchased r /\
             inv_last_updated r' = inv_last_updated r /\
             inv_category r' = (if String.eqb (inv_category r) old_name
                                then new_name else inv_category r))
    inv (recategorise old_name new_name inv).
Proof.
  unfold recategorise. induction inv as [| r t IH]; [constructor |].
  cbn [map]. constructor; [| exact IH].
  destruct (String.eqb (inv_category r) old_name); cbn; repeat split; reflexivity.
Qed.

Lemma count_recategorised (old_name new_name : string) (inv : list inventory_row) :
  List.length (filter (fun r => String.eqb (inv_category r) new_name)
                 (recategorise old_name new_name inv)) =
  List.length (filter (fun r => String.eqb (inv_category r) old_name
                                || String.eqb (inv_category r) new_name) inv).
Proof.
  unfold recategorise. induction inv as [| r t IH]; [reflexivity |].
  cbn [map filter].
  destruct (String.eqb (inv_category r) old_name) eqn:Eo; cbn [inv_category orb].
  - rewrite String.eqb_refl. cbn [List.length]. rewrite IH. reflexivity.
  - destruct (String.eqb (inv_category r) new_name); cbn [List.length];
      rewrite IH; reflexivity.
Qed.

(** X15.  A successful [update_category] renames in the inventory as well:
    every item keeps its place and all its columns but the category, which
    becomes the new name where it was the category's old name and stays as
    it was elsewhere; the transaction log is not touched.  The items that
    already carried the new name are thereby merged with the renamed ones:
    [delete_category] on the same id is then refused exactly when some item
    carried the old or the new name, with their number in the message. *)
Theorem X15_update_category_cascade (category_id : Z) (new_name new_icon : string)
    (t : category_table) (d : db) (old_cat : category_row) :
  select_category category_id t = Some old_cat ->
  fst (fst (update_category category_id new_name new_icon t d)) = true ->
  let t' := fst (snd (update_category category_id new_name new_icon t d)) in
  let d' := snd (snd (update_category category_id new_name new_icon t d)) in
  let merged :=
    Z.of_nat (List.length
                (filter (fun r => String.eqb (inv_category r) (cat_name old_cat)
                                  || String.eqb (inv_category r) new_name)
                   (store_inventory d))) in
  transactions d' = transactions d /\
  Forall2 (fun r r' =>
             inv_id r' = inv_id r /\ inv_item_name r' = inv_item_name r /\
             inv_quantity r' = inv_quantity r /\ inv_unit r' = inv_unit r /\
             inv_total_purchased r' = inv_total_purchased r /\
             inv_last_updated r' = inv_last_updated r /\
             inv_category r' = (if String.eqb (inv_category r) (cat_name old_cat)
                                then new_name else inv_category r))
    (store_inventory d) (store_inventory d') /\
  select_category category_id t' =
    Some {| cat_id := category_id; cat_name := new_name; cat_icon := new_icon |} /\
  fst (delete_category category_id t' d') =
    (if (0 <? merged)%Z then (false, MsgCategoryInUse merged)
     else (true, MsgCategoryDeleted)).
Proof.
  intros Sel Hs. cbv zeta. revert Hs. unfold update_category. rewrite Sel.
  destruct (existsb _ _) eqn:E; [discriminate |]. intros _.
  cbn [fst snd set_inventory transactions store_inventory].
  split; [reflexivity |]. split; [apply recategorise_spec |].
  assert (Sel' : select_category category_id
            {| categories :=
                 map (fun c => if (cat_id c =? category_id)%Z then
                                 {| cat_id := cat_id c; cat_name := new_name;
                                    cat_icon := new_icon |}
                               else c) (categories t);
               categories_seq := categories_seq t |} =
          Some {| cat_id := category_id; cat_name := new_name; cat_icon := new_icon |}).
  { unfold select_category in *. cbn [categories].
    clear E. induction (categories t) as [| c l IH]; [discriminate |].
    cbn [find map] in *.
    destruct (cat_id c =? category_id)%Z eqn:Ec.
    - cbn [cat_id]. rewrite Ec. apply Z.eqb_eq in Ec. rewrite Ec. reflexivity.
    - rewrite Ec. apply IH, Sel. }
  split; [exact Sel' |].
  unfold delete_category. rewrite Sel'. cbv zeta.
  cbn [cat_name store_inventory set_inventory categories categories_seq].
  rewrite count_recategorised.
  destruct (0 <? _)%Z; reflexivity.
Qed.

(** X15 at a category renamed from Grocery to Dry Goods while one item
    carries each of the two names: the deletion that follows is refused
    with a count of 2. *)
Lemma X15_witness :
  let t := init_categories [("Grocery", "g"); ("Dairy", "d")]%string empty_categories in
  let d := run_ops
    [ OpAddItem "Rice" "Grocery" 2 "Kg" 2 "purchase_manager" None None None (noon 1);
      OpAddItem "Dal" "Dry Goods" 1 "Kg" 2 "purchase_manager" None None None (noon 2) ]
    empty_db in
  fst (delete_category 1
         (fst (snd (update_category 1 "Dry Goods" "g" t d)))
         (snd (snd (update_category 1 "Dry Goods" "g" t d))))
  = (false, MsgCategoryInUse 2).
Proof.
  cbv zeta.
  refine (proj2 (proj2 (proj2
    (X15_update_category_cascade 1 "Dry Goods" "g"
       (init_categories [("Grocery", "g"); ("Dairy", "d")]%string empty_categories)
       (run_ops
          [ OpAddItem "Rice" "Grocery" 2 "Kg" 2 "purchase_manager" None None None (noon 1);
            OpAddItem "Dal" "Dry Goods" 1 "Kg" 2 "purchase_manager" None None None (noon 2) ]
          empty_db)
       {| cat_id := 1; cat_name := "Grocery"; cat_icon := "g" |} _ _)))).
  - reflexivity.
  - reflexivity.
Defined.

Lemma cover_In (t : category_table) (d : db) (r : inventory_row) :
  categories_cover t d -> In r (store_inventory d) ->
  exists c, In c (categories t) /\ cat_name c = inv_category r.
Proof.
  intros Cov Hr. apply Cov in Hr. apply in_map_iff in Hr.
  destruct Hr as [c [Ec Hc]]. exists c. split; assumption.
Qed.

(** X16.  The category functions keep the inventory's categories in the
    table: when names and ids of [categories] are distinct and every item's
    category is a row of it, the same holds after [add_category],
    [update_category] (which renames the items along) and [delete_category]
    (which refuses while an item carries the name), successful or not. *)
Theorem X16_categories_keep_covering (o : category_op) (t : category_table) (d : db) :
  categories_ok t -> categories_cover t d ->
  categories_ok (fst (run_category_op o (t, d))) /\
  categories_cover (fst (run_category_op o (t, d))) (snd (run_category_op o (t, d))).
Proof.
  intros Ok Cov. split; [apply (run_category_op_ok o (t, d)), Ok |].
  pose proof Ok as [Hn [Hi _]].
  destruct o as [name icon | cid new_name new_icon | cid];
    cbn [run_category_op fst snd].
  - unfold add_category.
    destruct (insert_category name icon t) as [t' |] eqn:E; [| exact Cov].
    cbn [snd]. apply insert_category_some in E. destruct E as [_ [Ec _]].
    intros r Hr. rewrite Ec, map_app. apply in_or_app. left. apply Cov, Hr.
  - unfold update_category.
    destruct (select_category cid t) as [old_cat |] eqn:Sel; [| exact Cov].
    destruct (existsb _ _); [exact Cov |].
    cbn [snd fst]. intros r' Hr'. cbn [set_inventory store_inventory] in Hr'.
    cbn [categories]. unfold recategorise in Hr'.
    apply in_map_iff in Hr'. destruct Hr' as [r [Er Hr]].
    apply select_category_In in Sel. destruct Sel as [Hold Eid].
    rewrite map_map.
    destruct (String.eqb_spec (inv_category r) (cat_name old_cat)) as [Eo | No].
    + subst r'. cbn [inv_category]. apply in_map_iff. exists old_cat.
      split; [| exact Hold]. rewrite Eid, Z.eqb_refl. reflexivity.
    + subst r'. destruct (cover_In t d r Cov Hr) as [c [Hc Ec]].
      apply in_map_iff. exists c. split; [| exact Hc].
      destruct (Z.eqb_spec (cat_id c) cid) as [E | _]; [| exact Ec].
      exfalso. apply No. rewrite <- Ec. f_equal.
      apply (NoDup_map_inj cat_id (categories t)); try assumption. congruence.
  - unfold delete_category.
    destruct (select_category cid t) as [cat |] eqn:Sel; [| exact Cov].
    destruct (0 <? _)%Z eqn:Cnt; [exact Cov |].
    cbn [snd]. intros r Hr. cbn [categories].
    destruct (cover_In t d r Cov Hr) as [c [Hc Ec]].
    apply in_map_iff. exists c. split; [exact Ec |].
    apply filter_In. split; [exact Hc |].
    apply negb_true_iff, Z.eqb_neq. intros E.
    apply select_category_In in Sel. destruct Sel as [Hcat Eid].
    assert (c = cat).
    { apply (NoDup_map_inj cat_id (categories t)); try assumption. congruence. }
    subst c. apply Z.ltb_ge in Cnt.
    assert (In r (filter (fun r0 => String.eqb (inv_category r0) (cat_name cat))
                    (store_inventory d))).
    { apply filter_In. split; [exact Hr |]. rewrite Ec. apply String.eqb_refl. }
    destruct (filter (fun r0 => String.eqb (inv_category r0) (cat_name cat))
                (store_inventory d)); [contradiction |].
    cbn [List.length] in Cnt. lia.
Qed.

(** X16 at the deletion of the one category in use: it is refused and the
    item's category stays in the table. *)
Lemma X16_witness :
  let t := init_categories [("Grocery", "g"); ("Dairy", "d")]%string empty_categories in
  let d := run_ops
    [ OpAddItem "Rice" "Grocery" 2 "Kg" 2 "purchase_manager" None None None (noon 1) ]
    empty_db in
  map cat_name (categories (fst (run_category_op (OpDeleteCategory 1) (t, d))))
  = ["Grocery"; "Dairy"]%string /\
  categories_cover (fst (run_category_op (OpDeleteCategory 1) (t, d)))
    (snd (run_category_op (OpDeleteCategory 1) (t, d))).
Proof.
  cbv zeta. split; [reflexivity |].
  refine (proj2 (X16_categories_keep_covering (OpDeleteCategory 1)
    (init_categories [("Grocery", "g"); ("Dairy", "d")]%string empty_categories)
    (run_ops
       [ OpAddItem "Rice" "Grocery" 2 "Kg" 2 "purchase_manager" None None None (noon 1) ]
       empty_db) _ _)).
  - apply init_categories_ok, empty_categories_ok.
  - intros r [E | []]. subst r. left. reflexivity.
Defined.

(** ** The routes in front of the ledger *)

Lemma api_purchase_log (ses : session) (data : purchase_request) (now : datetime)
    (d : db) :
  snd (api_purchase ses data now d) = d \/
  exists t, transactions (snd (api_purchase ses data now d)) = transactions d ++ [t] /\
    txn_transaction_type t = "purchase"%string /\
    txn_user_id t = session_user_id ses /\
    txn_username t = session_username ses /\
    txn_created_at t = now.
Proof.
  unfold api_purchase. destruct (negb _); [left; reflexivity |].
  right. unfold add_item.
  destruct (select_item _ _); cbn [snd log_transaction transactions];
    (eexists; split; [reflexivity | repeat split]).
Qed.

Lemma api_kitchen_log (ses : session) (data : kitchen_request) (now : datetime)
    (d : db) :
  snd (api_kitchen ses data now d) = d \/
  exists t, transactions (snd (api_kitchen ses data now d)) = transactions d ++ [t] /\
    txn_transaction_type t = "kitchen"%string /\
    txn_user_id t = session_user_id ses /\
    txn_username t = session_username ses /\
    txn_created_at t = now.
Proof.
  unfold api_kitchen. destruct (negb _ || _); [left; reflexivity |].
  unfold remove_item.
  destruct (select_item _ _) as [e |]; [| left; reflexivity].
  destruct (Qltb _ _); [left; reflexivity |].
  right. cbn [snd log_transaction transactions set_inventory].
  eexists. split; [reflexivity |]. repeat split.
Qed.

(** X17.  The two desks are kept apart and every change is signed.  A
    request to [/api/purchase] changes the database only under a session of
    role "purchase", a request to [/api/kitchen] only under a session of
    role "kitchen"; without a session the answer is the redirect to the
    login page, under any other role "Access denied".  A request that does
    change the database appends exactly one transaction, of the type of the
    desk, carrying the user id and the username of the session and the time
    of the request.  The handlers never run without the session keys they
    read. *)
Theorem X17_routes_roles_and_signature (pdata : purchase_request)
    (kdata : kitchen_request) (now : datetime) (ws : web_session) (d : db) :
  let rp := route_api_purchase pdata now ws d in
  let rk := route_api_kitchen kdata now ws d in
  (ws = None -> rp = (RedirectLogin, d) /\ rk = (RedirectLogin, d)) /\
  (forall ses role, ws = Some (ses, role) ->
     (role <> "purchase"%string -> rp = (AccessDenied, d)) /\
     (role <> "kitchen"%string -> rk = (AccessDenied, d))) /\
  fst rp <> ServerError /\ fst rk <> ServerError /\
  (snd rp = d \/
   exists ses t, ws = Some (ses, "purchase"%string) /\
     transactions (snd rp) = transactions d ++ [t] /\
     txn_transaction_type t = "purchase"%string /\
     txn_user_id t = session_user_id ses /\
     txn_username t = session_username ses /\
     txn_created_at t = now) /\
  (snd rk = d \/
   exists ses t, ws = Some (ses, "kitchen"%string) /\
     transactions (snd rk) = transactions d ++ [t] /\
     txn_transaction_type t = "kitchen"%string /\
     txn_user_id t = session_user_id ses /\
     txn_username t = session_username ses /\
     txn_created_at t = now).
Proof.
  cbv zeta. unfold route_api_purchase, route_api_kitchen, login_required, role_required.
  destruct ws as [[ses role] |].
  2: { split; [intros _; split; reflexivity |].
       split; [intros ses role H; discriminate |].
       split; [discriminate |]. split; [discriminate |].
       split; left; reflexivity. }
  cbn [existsb]. rewrite !orb_false_r.
  split; [discriminate |]. split.
  { intros ses' role' E. inversion E; subst ses' role'. split; intros N.
    - apply String.eqb_neq in N. rewrite N. reflexivity.
    - apply String.eqb_neq in N. rewrite N. reflexivity. }
  split; [| split; [| split]].
  - destruct (String.eqb role "purchase"); [| discriminate].
    unfold view. destruct (api_purchase ses pdata now d). discriminate.
  - destruct (String.eqb role "kitchen"); [| discriminate].
    unfold view. destruct (api_kitchen ses kdata now d). discriminate.
  - destruct (String.eqb_spec role "purchase") as [E | _]; [| left; reflexivity].
    subst role. unfold view.
    destruct (api_purchase_log ses pdata now d) as [H | [t H]].
    + left. destruct (api_purchase ses pdata now d). exact H.
    + right. exists ses, t. split; [reflexivity |].
      destruct (api_purchase ses pdata now d). exact H.
  - destruct (String.eqb_spec role "kitchen") as [E | _]; [| left; reflexivity].
    subst role. unfold view.
    destruct (api_kitchen_log ses kdata now d) as [H | [t H]].
    + left. destruct (api_kitchen ses kdata now d). exact H.
    + right. exists ses, t. split; [reflexivity |].
      destruct (api_kitchen ses kdata now d). exact H.
Qed.

(** ** The low-stock query at any threshold *)


Lemma leb_trans (a b c : string) :
  String.leb a b = true -> String.leb b c = true -> String.leb a c = true.
Proof.
  unfold String.leb.
  destruct (String.compare a b) eqn:Eab; try discriminate;
    destruct (String.compare b c) eqn:Ebc; try discriminate; intros _ _.
  - apply String.compare_eq_iff in Eab. subst b. rewrite Ebc. reflexivity.
  - apply String.compare_eq_iff in Eab. subst b. rewrite Ebc. reflexivity.
  - apply String.compare_eq_iff in Ebc. subst c. rewrite Eab. reflexivity.
  - rewrite (compare_lt_trans a b c Eab Ebc). reflexivity.
Qed.





(** ** A purchase and its issue *)

(** X19.  Issuing what was just purchased gives the stock back: for an
    item in stock with a quantity of at most 3 decimals that is not
    negative, a purchase of q >= 0 followed by an issue of q succeeds and
    leaves the quantity the item had, while total_purchased has grown by q
    rounded to 3 decimals; both movements are in the log. *)
Theorem X19_purchase_then_issue (name cat : string) (q : Q) (u : string)
    (uid : Z) (un : string) (rate amount : option Q) (vendor : option string)
    (uid' : Z) (un' : string) (notes : option string) (now now' : datetime)
    (d : db) (existing : inventory_row) :
  select_item name (store_inventory d) = Some existing ->
  on_grid 3 (inv_quantity existing) ->
  on_grid 3 (inv_total_purchased existing) ->
  0 <= inv_quantity existing ->
  0 <= q ->
  let d1 := snd (add_item name cat q u uid un rate amount vendor now d) in
  let r := remove_item name q uid' un' notes now' d1 in
  fst r = (true, MsgItemsRemoved) /\
  (exists row, select_item name (store_inventory (snd r)) = Some row /\
     inv_quantity row == inv_quantity existing /\
     inv_total_purchased row == inv_total_purchased existing + py_round q 3) /\
  List.length (transactions (snd r)) = (List.length (transactions d) + 2)%nat.
Proof.
  intros Sel Gq Gt Hq0 Hq. cbv zeta.
  pose proof (py_round_nonneg q 3 Hq) as Hq3.
  pose proof (py_round_fix _ 3 (on_grid_plus 3 _ _ Gq (py_round_on_grid q 3))) as Fq.
  pose proof (py_round_fix _ 3 (on_grid_plus 3 _ _ Gt (py_round_on_grid q 3))) as Ft.
  pose proof (py_round_fix _ 3
    (py_round_on_grid (inv_quantity existing + py_round q 3) 3)) as Fqq.
  assert (Eback : py_round (py_round (py_round (inv_quantity existing + py_round q 3) 3) 3
                            - py_round q 3) 3 = py_round (inv_quantity existing) 3).
  { apply py_round_comp. lra. }
  pose proof (py_round_fix _ 3 Gq) as Fq0.
  unfold add_item. rewrite Sel. cbn [snd].
  unfold remove_item.
  cbn [log_transaction set_inventory store_inventory transactions].
  rewrite select_item_update_where by reflexivity. rewrite Sel.
  cbn [option_map inv_quantity inv_unit inv_category].
  rewrite (proj2 (Qltb_false _ _)) by lra.
  cbn [fst snd log_transaction set_inventory store_inventory transactions].
  split; [reflexivity |]. split.
  - rewrite select_item_update_where by reflexivity.
    rewrite select_item_update_where by reflexivity. rewrite Sel.
    cbn [option_map]. eexists. split; [reflexivity |].
    cbn [inv_quantity inv_total_purchased]. rewrite Eback.
    rewrite (proj2 (Qltb_false _ _)) by lra. split; lra.
  - rewrite !length_app. cbn [List.length]. lia.
Qed.

(** X19 at 2 Kg in stock, 1.5 Kg purchased and issued. *)
Lemma X19_witness :
  let d := run_ops
    [ OpAddItem "Rice" "Grocery" 2 "Kg" 2 "purchase_manager" None None None (noon 1) ]
    empty_db in
  let d1 := snd (add_item "Rice" "Grocery" 1.5 "Kg" 2 "purchase_manager"
                   None None None (noon 2) d) in
  fst (remove_item "Rice" 1.5 3 "kitchen_manager" None (noon 3) d1)
  = (true, MsgItemsRemoved).
Proof.
  cbv zeta.
  refine (proj1 (X19_purchase_then_issue "Rice" "Grocery" 1.5 "Kg" 2 "purchase_manager"
    None None None 3 "kitchen_manager" None (noon 2) (noon 3)
    (run_ops
       [ OpAddItem "Rice" "Grocery" 2 "Kg" 2 "purchase_manager" None None None (noon 1) ]
       empty_db)
    {| inv_id := 1; inv_item_name := "Rice"; inv_category := "Grocery";
       inv_quantity := 2; inv_unit := "Kg"; inv_total_purchased := 2;
       inv_last_updated := noon 1 |} _ _ _ _ _)).
  - reflexivity.
  - exists 2000%Z. reflexivity.
  - exists 2000%Z. reflexivity.
  - discriminate.
  - discriminate.
Defined.

(** ** The leakage report as a whole, and its dashboard variant *)

Lemma Qsum_perm (l l' : list Q) : Permutation l l' -> Qsum l == Qsum l'.
Proof.
  induction 1 as [| x l l' _ IH | x y l | l l' l'' _ IH1 _ IH2]; simpl.
  - reflexivity.
  - rewrite IH. reflexivity.
  - ring.
  - rewrite IH1. exact IH2.
Qed.

Lemma Qsum_map_minus {A : Type} (f g : A -> Q) (l : list A) :
  Qsum (map (fun a => f a - g a) l) == Qsum (map f l) - Qsum (map g l).
Proof.
  induction l as [| a t IH]; simpl; [ring |]. rewrite IH. ring.
Qed.

Lemma Qsum_zero {A : Type} (l : list A) : Qsum (map (fun _ => 0) l) == 0.
Proof. induction l as [| a t IH]; simpl; [reflexivity |]. rewrite IH. ring. Qed.

(** Grouping loses nothing: the groups of distinct keys that cover the
    rows add up to the whole. *)
Lemma Qsum_by_key {A : Type} (key_of : A -> string) (val_of : A -> Q)
    (keys : list string) (rows : list A) :
  NoDup keys -> (forall r, In r rows -> In (key_of r) keys) ->
  Qsum (map (fun k => Qsum (map val_of (group_rows key_of k rows))) keys)
  == Qsum (map val_of rows).
Proof.
  intros ND. unfold group_rows. induction rows as [| r t IH]; intros Cov.
  - cbn [filter map]. apply Qsum_zero.
  - assert (Hone : forall ks, NoDup ks ->
              Qsum (map (fun k => Qsum (map val_of
                       (filter (fun r0 => String.eqb (key_of r0) k) (r :: t)))) ks)
              == Qsum (map (fun k => Qsum (map val_of
                       (filter (fun r0 => String.eqb (key_of r0) k) t))) ks)
                 + (if in_dec string_dec (key_of r) ks then val_of r else 0)).
    { clear. induction ks as [| k ks IHk]; intros ND.
      - simpl. ring.
      - inversion ND as [| ? ? Nin ND']; subst.
        cbn [map]. change (Qsum (?a :: ?l)) with (a + Qsum l).
        rewrite (IHk ND'). cbn [filter].
        destruct (String.eqb_spec (key_of r) k) as [E | NE].
        + subst k. destruct (in_dec string_dec (key_of r) (key_of r :: ks)) as [_ | n];
            [| exfalso; apply n; left; reflexivity].
          destruct (in_dec string_dec (key_of r) ks) as [i | _]; [contradiction |].
          cbn [map]. change (Qsum (?a :: ?l)) with (a + Qsum l). ring.
        + destruct (in_dec string_dec (key_of r) (k :: ks)) as [i | n];
            destruct (in_dec string_dec (key_of r) ks) as [i' | n']; try ring.
          * destruct i as [E | i]; [congruence | contradiction].
          * exfalso. apply n. right. exact i'. }
    rewrite (Hone keys ND), IH by (intros x Hx; apply Cov; right; exact Hx).
    destruct (in_dec string_dec (key_of r) keys) as [_ | n].
    + cbn [map]. change (Qsum (?a :: ?l)) with (a + Qsum l). ring.
    + exfalso. apply n, Cov. left. reflexivity.
Qed.

Lemma leakage_row_of_cells (purchase_df : list purchase_record)
    (stk_df : list issue_record) (k : string) :
  let purchased := Qsum (map pur_quantity (group_rows pur_item_name k purchase_df)) in
  let amount := Qsum (map pur_amount (group_rows pur_item_name k purchase_df)) in
  let issued := Qsum (map iss_quantity_issued (group_rows iss_item_name k stk_df)) in
  let r := leakage_row_of purchase_df stk_df k in
  lk_item_name r = k /\
  lk_total_purchased r = Fin purchased /\
  lk_amount r = Fin amount /\
  lk_total_issued r = Fin issued /\
  lk_difference r = Fin (purchased - issued) /\
  lk_leakage_pct r =
    fround 2 (fmul (fdiv (Fin (purchased - issued)) (Fin purchased)) (Fin 100)) /\
  lk_value_lost r =
    fround 2 (fmul (fdiv (Fin (purchased - issued)) (Fin purchased)) (Fin amount)).
Proof.
  cbv zeta. unfold leakage_row_of.
  cbn [lk_item_name lk_total_purchased lk_amount lk_total_issued lk_difference
       lk_leakage_pct lk_value_lost].
  unfold purchased_quantity, purchased_amount, issued_quantity.
  rewrite !joined_sum_cell. repeat split; reflexivity.
Qed.

Lemma leakage_index_NoDup (purchase_df : list purchase_record)
    (stk_df : list issue_record) :
  NoDup (outer_index (purchased_quantity purchase_df) (issued_quantity stk_df)).
Proof. apply group_keys_NoDup. Qed.

Lemma leakage_index_cover (purchase_df : list purchase_record)
    (stk_df : list issue_record) :
  (forall r, In r purchase_df ->
     In (pur_item_name r)
        (outer_index (purchased_quantity purchase_df) (issued_quantity stk_df))) /\
  (forall r, In r stk_df ->
     In (iss_item_name r)
        (outer_index (purchased_quantity purchase_df) (issued_quantity stk_df))).
Proof.
  unfold purchased_quantity, issued_quantity.
  split; intros r Hr; apply outer_index_In; rewrite !groupby_sum_keys, !group_keys_In;
    [left | right]; apply in_map, Hr.
Qed.

(** X20.  The leakage report accounts for every record.  Its purchased,
    amount, issued and difference columns hold numbers only, and over the
    rows of the report they add up to the total quantity purchased, the
    total amount, the total quantity issued and the difference of the two
    quantities: the outer join and the grouping neither drop a record nor
    count one twice. *)
Theorem X20_leakage_totals {S : Sorter} (purchase_df : list purchase_record)
    (stk_df : list issue_record) :
  let analysis := leakage_waste_analysis purchase_df stk_df in
  exists purchased amount issued difference,
    map lk_total_purchased analysis = map Fin purchased /\
    map lk_amount analysis = map Fin amount /\
    map lk_total_issued analysis = map Fin issued /\
    map lk_difference analysis = map Fin difference /\
    Qsum purchased == Qsum (map pur_quantity purchase_df) /\
    Qsum amount == Qsum (map pur_amount purchase_df) /\
    Qsum issued == Qsum (map iss_quantity_issued stk_df) /\
    Qsum difference ==
      Qsum (map pur_quantity purchase_df) - Qsum (map iss_quantity_issued stk_df).
Proof.
  intros analysis.
  assert (P : Permutation (leakage_frame purchase_df stk_df) analysis)
    by (apply sort_by_perm).
  set (g1 := fun r => Qsum (map pur_quantity
                 (group_rows pur_item_name (lk_item_name r) purchase_df))).
  set (g2 := fun r => Qsum (map pur_amount
                 (group_rows pur_item_name (lk_item_name r) purchase_df))).
  set (g3 := fun r => Qsum (map iss_quantity_issued
                 (group_rows iss_item_name (lk_item_name r) stk_df))).
  assert (Cells : forall r, In r analysis ->
            lk_total_purchased r = Fin (g1 r) /\ lk_amount r = Fin (g2 r) /\
            lk_total_issued r = Fin (g3 r) /\ lk_difference r = Fin (g1 r - g3 r)).
  { intros r Hr. apply (Permutation_in _ (Permutation_sym P)) in Hr.
    unfold leakage_frame in Hr. apply in_map_iff in Hr. destruct Hr as [k [Er _]].
    destruct (leakage_row_of_cells purchase_df stk_df k) as [En [E1 [E2 [E3 [E4 _]]]]].
    subst r. unfold g1, g2, g3. rewrite En. tauto. }
  assert (Sum : forall (g : leakage_row -> Q) (h : string -> Q),
            (forall k, g (leakage_row_of purchase_df stk_df k) = h k) ->
            Qsum (map g analysis) ==
            Qsum (map h (outer_index (purchased_quantity purchase_df)
                           (issued_quantity stk_df)))).
  { intros g h Hg. rewrite <- (Qsum_perm _ _ (Permutation_map g P)).
    unfold leakage_frame. rewrite map_map.
    rewrite (map_ext _ h Hg). reflexivity. }
  destruct (leakage_index_cover purchase_df stk_df) as [CovP CovS].
  pose proof (leakage_index_NoDup purchase_df stk_df) as ND.
  assert (S1 : Qsum (map g1 analysis) == Qsum (map pur_quantity purchase_df)).
  { rewrite (Sum g1 (fun k => Qsum (map pur_quantity
                                (group_rows pur_item_name k purchase_df))))
      by reflexivity.
    apply Qsum_by_key; assumption. }
  assert (S2 : Qsum (map g2 analysis) == Qsum (map pur_amount purchase_df)).
  { rewrite (Sum g2 (fun k => Qsum (map pur_amount
                                (group_rows pur_item_name k purchase_df))))
      by reflexivity.
    apply Qsum_by_key; assumption. }
  assert (S3 : Qsum (map g3 analysis) == Qsum (map iss_quantity_issued stk_df)).
  { rewrite (Sum g3 (fun k => Qsum (map iss_quantity_issued
                                (group_rows iss_item_name k stk_df))))
      by reflexivity.
    apply Qsum_by_key; assumption. }
  exists (map g1 analysis), (map g2 analysis), (map g3 analysis),
         (map (fun r => g1 r - g3 r) analysis).
  rewrite !map_map.
  split; [apply map_ext_in; intros r Hr; apply (Cells r Hr) |].
  split; [apply map_ext_in; intros r Hr; apply (Cells r Hr) |].
  split; [apply map_ext_in; intros r Hr; apply (Cells r Hr) |].
  split; [apply map_ext_in; intros r Hr; apply (Cells r Hr) |].
  split; [exact S1 |]. split; [exact S2 |]. split; [exact S3 |].
  rewrite Qsum_map_minus, S1, S3. reflexivity.
Qed.






(** ** The price trends as a whole *)













(** ** Menu engineering: the two implementations, the items without revenue *)

Lemma menu_margin_cases (sales_df : list sale_record) (k : string) :
  let revenue := Qsum (map sal_revenue (group_rows sal_item_name k sales_df)) in
  let profit := Qsum (map sal_profit (group_rows sal_item_name k sales_df)) in
  (revenue == 0 ->
   mn_profit_margin_pct (menu_row_of sales_df k) = inf_of (Qcompare profit 0)) /\
  (~ revenue == 0 ->
   mn_profit_margin_pct (menu_row_of sales_df k) =
   Fin (py_round (profit / revenue * 100) 2)).
Proof.
  cbv zeta. unfold menu_row_of. cbn [mn_profit_margin_pct fdiv]. split.
  - intros Z0. rewrite (proj2 (Qeq_bool_iff _ 0) Z0).
    destruct (Qcompare _ 0); reflexivity.
  - intros Nz. destruct (Qeq_bool _ 0) eqn:Ez;
      [apply Qeq_bool_iff in Ez; contradiction | reflexivity].
Qed.

Lemma fsum_no_pinf (l : list float64) :
  (forall a, In a l -> a <> NaN /\ a <> PInf) ->
  (fsum l = NInf \/ exists q, fsum l = Fin q) /\
  (In NInf l -> fsum l = NInf).
Proof.
  induction l as [| a t IH]; intros H.
  - split; [right; exists 0; reflexivity | intros []].
  - destruct IH as [IH1 IH2]; [intros b Hb; apply H; right; exact Hb |].
    destruct (H a (or_introl eq_refl)) as [Hn Hp].
    change (fsum (a :: t)) with (fadd a (fsum t)).
    destruct a as [p | | |]; try congruence.
    + split.
      * destruct IH1 as [E | [q E]]; rewrite E; [left | right; eexists]; reflexivity.
      * intros [E | Hin]; [discriminate |]. rewrite (IH2 Hin). reflexivity.
    + assert (E : fadd NInf (fsum t) = NInf)
        by (destruct IH1 as [E | [q E]]; rewrite E; reflexivity).
      split; [left; exact E | intros _; exact E].
Qed.

(** X23.  The dashboard's [menu_engineering] and the report's
    [menu_engineering_analysis] agree on every sales frame: the same rows
    in the same order with the same label, although the dashboard's
    [classify] is written as an if / elif chain without the negations of
    [classify_item]; the two averages the dashboard returns are the means
    the labels are decided by, rounded to 0 and to 2 decimals. *)
Theorem X23_dashboard_menu_engineering_agrees (sales_df : list sale_record) :
  me_data (menu_engineering sales_df) = menu_engineering_analysis sales_df /\
  me_avg_popularity (menu_engineering sales_df) =
    fround 0 (avg_popularity (menu_frame sales_df)) /\
  me_avg_profit_margin (menu_engineering sales_df) =
    fround 2 (avg_profitability (menu_frame sales_df)) /\
  forall avg_pop avg_profit row,
    dashboard_classify avg_pop avg_profit row = classify_item avg_pop avg_profit row.
Proof.
  assert (Same : forall avg_pop avg_profit row,
            dashboard_classify avg_pop avg_profit row =
            classify_item avg_pop avg_profit row).
  { intros avg_pop avg_profit row. unfold dashboard_classify, classify_item.
    destruct (fge (Fin (mn_quantity_sold row)) avg_pop);
      destruct (fge (mn_profit_margin_pct row) avg_profit); reflexivity. }
  split; [| split; [reflexivity | split; [reflexivity | exact Same]]].
  unfold menu_engineering, menu_engineering_analysis. cbn [me_data].
  apply map_ext. intros row. rewrite Same. reflexivity.
Qed.

(** X24.  An item without revenue decides the labels of all.  When some
    item sold has revenue 0 and a negative profit (a dish given away), and
    no item has revenue 0 with a positive profit, the division by the
    revenue makes that item's margin -inf, the mean margin is -inf, and
    every item whose margin is not NaN, the item given away included, is
    labelled as high in profit: STAR or PUZZLE, never PLOW HORSE or DOG. *)
Theorem X24_menu_zero_revenue (sales_df : list sale_record) (k : string) :
  In k (map sal_item_name sales_df) ->
  Qsum (map sal_revenue (group_rows sal_item_name k sales_df)) == 0 ->
  Qsum (map sal_profit (group_rows sal_item_name k sales_df)) < 0 ->
  (forall k', Qsum (map sal_revenue (group_rows sal_item_name k' sales_df)) == 0 ->
              Qsum (map sal_profit (group_rows sal_item_name k' sales_df)) <= 0) ->
  mn_profit_margin_pct (menu_row_of sales_df k) = NInf /\
  avg_profitability (menu_frame sales_df) = NInf /\
  (forall row c, In (row, c) (menu_engineering_analysis sales_df) ->
     mn_profit_margin_pct row <> NaN -> c = STAR \/ c = PUZZLE) /\
  exists c, In (menu_row_of sales_df k, c) (menu_engineering_analysis sales_df) /\
            (c = STAR \/ c = PUZZLE).
Proof.
  intros Hk Hrev Hprofit Hnone.
  assert (Mk : mn_profit_margin_pct (menu_row_of sales_df k) = NInf).
  { rewrite (proj1 (menu_margin_cases sales_df k) Hrev).
    assert (C : Qcompare (Qsum (map sal_profit
                            (group_rows sal_item_name k sales_df))) 0 = Lt)
      by exact (proj1 (Qlt_alt _ _) Hprofit).
    rewrite C. reflexivity. }
  assert (NoP : forall k', mn_profit_margin_pct (menu_row_of sales_df k') <> PInf).
  { intros k'.
    destruct (Qeq_dec (Qsum (map sal_revenue (group_rows sal_item_name k' sales_df))) 0)
      as [Z0 | Nz].
    - rewrite (proj1 (menu_margin_cases sales_df k') Z0).
      pose proof (Hnone k' Z0) as Le.
      destruct (Qcompare _ 0) eqn:C; cbn [inf_of]; try discriminate.
      exfalso. apply (proj2 (Qgt_alt _ _)) in C. lra.
    - rewrite (proj2 (menu_margin_cases sales_df k') Nz). discriminate. }
  assert (Avg : avg_profitability (menu_frame sales_df) = NInf).
  { unfold avg_profitability, mean.
    set (present := filter (fun a => negb (is_nan a))
                      (map mn_profit_margin_pct (menu_frame sales_df))).
    assert (Hin : In NInf present).
    { apply filter_In. split; [| reflexivity].
      rewrite <- Mk. apply in_map. unfold menu_frame. apply in_map.
      apply group_keys_In, Hk. }
    assert (Hall : forall a, In a present -> a <> NaN /\ a <> PInf).
    { intros a Ha. apply filter_In in Ha. destruct Ha as [Ha Hn]. split.
      - intros E. subst a. discriminate.
      - apply in_map_iff in Ha. destruct Ha as [r [Er Hr]].
        unfold menu_frame in Hr. apply in_map_iff in Hr. destruct Hr as [k' [Ek _]].
        subst r a. apply NoP. }
    rewrite (proj2 (fsum_no_pinf present Hall) Hin).
    destruct present as [| a t]; [contradiction |].
    cbn [fdiv]. reflexivity. }
  assert (High : forall row c, In (row, c) (menu_engineering_analysis sales_df) ->
            mn_profit_margin_pct row <> NaN -> c = STAR \/ c = PUZZLE).
  { intros row c Hin Hn. unfold menu_engineering_analysis in Hin.
    apply in_map_iff in Hin. destruct Hin as [row' [E _]]. inversion E. subst row'.
    rewrite Avg. unfold classify_item.
    assert (Hp : fge (mn_profit_margin_pct row) NInf = true)
      by (destruct (mn_profit_margin_pct row); [reflexivity .. | congruence]).
    rewrite Hp. destruct (fge (Fin (mn_quantity_sold row)) _); [left | right]; reflexivity. }
  split; [exact Mk |]. split; [exact Avg |]. split; [exact High |].
  assert (Hin : In (menu_row_of sales_df k,
                    classify_item (avg_popularity (menu_frame sales_df))
                      (avg_profitability (menu_frame sales_df))
                      (menu_row_of sales_df k))
                  (menu_engineering_analysis sales_df)).
  { unfold menu_engineering_analysis. apply in_map_iff.
    exists (menu_row_of sales_df k). split; [reflexivity |].
    unfold menu_frame. apply in_map, group_keys_In, Hk. }
  eexists. split; [exact Hin |].
  apply (High _ _ Hin). rewrite Mk. discriminate.
Qed.

(** X24 at a soup given away (10 sold, revenue 0, profit -50) beside a
    dal sold at a profit. *)
Lemma X24_witness :
  let sales_df := [sale_of 1 "Soup" 10 0 (-50); sale_of 1 "Dal" 5 100 20] in
  map snd (menu_engineering_analysis sales_df) = [PUZZLE; STAR] /\
  avg_profitability (menu_frame sales_df) = NInf.
Proof.
  cbv zeta. split; [reflexivity |].
  refine (proj1 (proj2 (X24_menu_zero_revenue
    [sale_of 1 "Soup" 10 0 (-50); sale_of 1 "Dal" 5 100 20] "Soup" _ _ _ _))).
  - left. reflexivity.
  - reflexivity.
  - reflexivity.
  - intros k'. cbn [group_rows filter map sale_of sal_item_name sal_revenue sal_profit].
    destruct (String.eqb "Soup" k'); destruct (String.eqb "Dal" k');
      cbn [map Qsum fold_right sal_revenue sal_profit]; intros H;
      try discriminate; try (exfalso; revert H; vm_compute; discriminate).
Defined.

(** ** Listings and the history route *)

Lemma filter_comm {A : Type} (p q : A -> bool) (l : list A) :
  filter p (filter q l) = filter q (filter p l).
Proof.
  induction l as [| a t IH]; [reflexivity |].
  cbn [filter]. destruct (p a) eqn:P; destruct (q a) eqn:Q; cbn [filter];
    rewrite ?P, ?Q, IH; reflexivity.
Qed.

Lemma Permutation_filter_length {A : Type} (p : A -> bool) (l l' : list A) :
  Permutation l l' -> List.length (filter p l) = List.length (filter p l').
Proof.
  induction 1 as [| x l l' _ IH | x y l | l l' l'' _ IH1 _ IH2].
  - reflexivity.
  - cbn [filter]. destruct (p x); cbn [List.length]; rewrite IH; reflexivity.
  - cbn [filter]. destruct (p x); destruct (p y); reflexivity.
  - rewrite IH1. exact IH2.
Qed.

Lemma StronglySorted_filter {A : Type} (R : A -> A -> Prop) (p : A -> bool)
    (l : list A) :
  StronglySorted R l -> StronglySorted R (filter p l).
Proof.
  induction 1 as [| a t _ IH Ha]; cbn [filter]; [constructor |].
  destruct (p a); [| exact IH]. constructor; [exact IH |].
  apply Forall_forall. intros b Hb. apply filter_In in Hb.
  exact (proj1 (Forall_forall _ _) Ha b (proj1 Hb)).
Qed.

Lemma StronglySorted_map {A B : Type} (R : B -> B -> Prop) (f : A -> B) (l : list A) :
  StronglySorted (fun a b => R (f a) (f b)) l -> StronglySorted R (map f l).
Proof.
  induction 1 as [| a t _ IH Ha]; cbn [map]; constructor; [exact IH |].
  apply Forall_map. exact Ha.
Qed.

Lemma category_name_total : total_on category_name_leb.
Proof.
  intros a b. unfold category_name_leb.
  destruct (String.compare (inv_category a) (inv_category b)) eqn:C.
  - apply String.compare_eq_iff in C. rewrite C, compare_refl. apply String.leb_total.
  - left. reflexivity.
  - right. rewrite (compare_gt_lt _ _ C). reflexivity.
Qed.

Lemma category_name_trans : transitive_on category_name_leb.
Proof.
  intros a b c. unfold category_name_leb.
  destruct (String.compare (inv_category a) (inv_category b)) eqn:Cab;
    try discriminate;
    destruct (String.compare (inv_category b) (inv_category c)) eqn:Cbc;
    try discriminate; intros H1 H2.
  - apply String.compare_eq_iff in Cab, Cbc. rewrite Cab, Cbc, compare_refl.
    eapply leb_trans; eassumption.
  - apply String.compare_eq_iff in Cab. rewrite Cab, Cbc. reflexivity.
  - apply String.compare_eq_iff in Cbc. rewrite <- Cbc, Cab. reflexivity.
  - rewrite (compare_lt_trans _ _ _ Cab Cbc). reflexivity.
Qed.

(** X25.  [api_items] offers the kitchen desk exactly the items with a
    quantity above 0, each once per row, ordered by category and then by
    item name; their number is the sum of the in_stock counts of
    [get_inventory_summary]. *)
Theorem X25_api_items_in_stock {S : Sorter} (d : db) :
  (forall h, In h (api_items d) <->
     exists r, In r (store_inventory d) /\ 0 < inv_quantity r /\
       h = {| ih_name := inv_item_name r; ih_category := inv_category r;
              ih_unit := inv_unit r |}) /\
  StronglySorted
    (fun x y => match String.compare (ih_category x) (ih_category y) with
                | Lt => True
                | Eq => String.leb (ih_name x) (ih_name y) = true
                | Gt => False
                end)
    (api_items d) /\
  Z.of_nat (List.length (api_items d)) =
    fold_right Z.add 0%Z (map sm_in_stock (get_inventory_summary d)).
Proof.
  split; [| split].
  - intros h. unfold api_items, get_inventory. rewrite in_map_iff. split.
    + intros [r [E Hr]]. apply filter_In in Hr. destruct Hr as [Hr Hq].
      apply sort_by_In in Hr. apply Qltb_true in Hq.
      exists r. split; [exact Hr |]. split; [exact Hq | symmetry; exact E].
    + intros [r [Hr [Hq E]]]. exists r. split; [symmetry; exact E |].
      apply filter_In. split; [apply sort_by_In, Hr | apply Qltb_true, Hq].
  - unfold api_items, get_inventory. apply StronglySorted_map.
    apply StronglySorted_filter.
    eapply StronglySorted_weaken;
      [| apply (sort_by_sorted _ category_name_leb (store_inventory d)
                  category_name_total category_name_trans)].
    intros a b H. cbn [ih_category ih_name]. unfold category_name_leb in H.
    destruct (String.compare (inv_category a) (inv_category b));
      [exact H | exact I | discriminate].
  - unfold api_items, get_inventory, get_inventory_summary.
    rewrite length_map, map_map. cbn [sm_in_stock].
    rewrite <- (Permutation_filter_length _ _ _
                  (sort_by_perm _ category_name_leb (store_inventory d))).
    rewrite <- (count_by_key inv_category
                  (group_keys (map inv_category (store_inventory d)))
                  (filter (fun item => Qltb 0 (inv_quantity item)) (store_inventory d))).
    + f_equal. apply map_ext. intros c. rewrite sum_case_count, filter_comm.
      reflexivity.
    + apply group_keys_NoDup.
    + intros r Hr. apply filter_In in Hr. apply group_keys_In, in_map, Hr.
Qed.

(** X26.  [api_transactions] answers as [get_transactions] would have on
    the log it found, with the quantities rounded to 3 decimals: the
    cleanup it runs first takes nothing from the answer.  Afterwards the
    log holds no entry older than 30 days and the inventory is as it was.
    Without a [limit] parameter at most 100 entries come back, twice the
    default of [get_transactions] itself. *)
Theorem X26_api_transactions {S : Sorter} (ty : option string) (df fd td : option Z)
    (limit : option Z) (now : datetime) (d : db) :
  let r := api_transactions ty df fd td limit now d in
  fst r = map round_transaction
            (get_transactions (match limit with
                               | Some l => l
                               | None => 100%Z
                               end) ty df fd td now d) /\
  store_inventory (snd r) = store_inventory d /\
  Forall (fun t => (dt_day now - dt_day (txn_created_at t) <= 30)%Z)
    (transactions (snd r)) /\
  (forall t, In t (fst r) ->
     on_grid 3 (txn_quantity t) /\
     (dt_day now - dt_day (txn_created_at t) <= 30)%Z) /\
  (limit = None -> (List.length (fst r) <= 100)%nat).
Proof.
  cbv zeta. unfold api_transactions. cbn [fst snd].
  rewrite get_transactions_after_cleanup.
  split; [reflexivity |]. split; [reflexivity |]. split; [| split].
  - unfold cleanup_old_transactions. cbn [snd transactions].
    apply Forall_forall. intros t Ht. apply filter_In in Ht. destruct Ht as [_ Ht].
    apply negb_true_iff, Z.ltb_ge in Ht. unfold thirty_days_ago in Ht. lia.
  - intros t Ht. apply in_map_iff in Ht. destruct Ht as [t0 [E Ht0]]. subst t.
    cbn [round_transaction txn_quantity txn_created_at].
    split; [apply py_round_on_grid |].
    unfold get_transactions in Ht0. apply sql_limit_In, sort_by_In, filter_In in Ht0.
    eapply transactions_where_recent, Ht0.
  - intros E. subst limit. rewrite length_map. unfold get_transactions, sql_limit.
    cbn [Z.ltb Z.compare]. change (Z.to_nat 100) with 100%nat.
    apply firstn_le_length.
Qed.

(** ** The upload of a purchase list *)

Lemma add_item_log (name cat : string) (q : Q) (u : string) (uid : Z) (un : string)
    (rate amount : option Q) (vendor : option string) (now : datetime) (d : db) :
  exists t,
    transactions (snd (add_item name cat q u uid un rate amount vendor now d))
    = transactions d ++ [t] /\
    txn_transaction_type t = "purchase"%string /\
    txn_item_name t = name /\ txn_quantity t = py_round q 3 /\
    txn_user_id t = uid /\ txn_username t = un.
Proof.
  unfold add_item.
  destruct (select_item name (store_inventory d));
    cbn [snd log_transaction transactions set_inventory insert_inventory];
    (eexists; split; [reflexivity | repeat split]).
Qed.

Lemma upload_items_spec (ses : session) (now : Z -> datetime)
    (items : list upload_item) (idx added : Z) (errors : list Z) (d : db) :
  exists added' errors' new,
    fst (upload_items ses now idx items added errors d) = (added', errors') /\
    (added' = added + Z.of_nat (List.length new))%Z /\
    (exists more, errors' = errors ++ more /\
       (List.length new + List.length more = List.length items)%nat /\
       Forall (fun n => (idx < n <= idx + Z.of_nat (List.length items))%Z) more) /\
    transactions (snd (upload_items ses now idx items added errors d))
    = transactions d ++ new /\
    Forall (fun t => txn_transaction_type t = "purchase"%string /\
                     txn_user_id t = session_user_id ses /\
                     txn_username t = session_username ses) new.
Proof.
  revert idx added errors d.
  induction items as [| item rest IH]; intros idx added errors d.
  - exists added, errors, []. cbn [upload_items fst snd List.length].
    split; [reflexivity |]. split; [lia |]. split.
    + exists []. rewrite app_nil_r. repeat split. constructor.
    + split; [symmetry; apply app_nil_r | constructor].
  - cbn [upload_items].
    destruct (ui_item_name item) as [n |];
      [destruct (ui_category item) as [c |];
       [destruct (ui_quantity item) as [q |];
        [destruct (ui_unit item) as [u |] | ] | ] | ].
    1: { destruct (add_item_log n c q u (session_user_id ses) (session_username ses)
                     (ui_rate item) (ui_amount item) (ui_vendor item) (now idx) d)
           as [t [Et [Ty [_ [_ [Eu En]]]]]].
         destruct (IH (idx + 1)%Z (added + 1)%Z errors
                     (snd (add_item n c q u (session_user_id ses) (session_username ses)
                             (ui_rate item) (ui_amount item) (ui_vendor item)
                             (now idx) d)))
           as [a' [e' [new [E1 [E2 [[more [E3 [E4 E5]]] [E6 E7]]]]]]].
         exists a', e', (t :: new). split; [exact E1 |].
         split; [cbn [List.length]; lia |]. split.
         - exists more. split; [exact E3 |]. split; [cbn [List.length]; lia |].
           eapply Forall_impl; [| exact E5]. intros z Hz. cbv beta in *.
           cbn [List.length]. lia.
         - split.
           + rewrite E6, Et, <- app_assoc. reflexivity.
           + constructor; [repeat split; assumption | exact E7]. }
    all: destruct (IH (idx + 1)%Z added (errors ++ [(idx + 1)%Z]) d)
           as [a' [e' [new [E1 [E2 [[more [E3 [E4 E5]]] [E6 E7]]]]]]];
      exists a', e', new; (split; [exact E1 |]); (split; [exact E2 |]); split;
      [ exists ((idx + 1)%Z :: more); split;
        [ rewrite E3, <- app_assoc; reflexivity
        | split;
          [ cbn [List.length]; lia
          | constructor;
            [ cbn [List.length]; lia
            | eapply Forall_impl; [| exact E5]; intros z Hz; cbv beta in *;
              cbn [List.length]; lia ] ] ]
      | split; [exact E6 | exact E7] ].
Qed.

(** X27.  [api_purchase_upload] answers 400 only to a body without an item
    list.  Of a list it books every entry that has its four keys and
    counts it, and reports the number of every other entry: the count and
    the reports add up to the length of the list, the log grows by exactly
    one "purchase" transaction per entry counted, signed with the session,
    and nothing else is logged.  It checks no value: an entry with
    quantity 0 or an empty item name, which [api_purchase] refuses with a
    400, is booked. *)
Theorem X27_purchase_upload (ses : session) (now : Z -> datetime) (d : db) :
  api_purchase_upload ses None now d = (None, d) /\
  (forall items, exists added errors new,
     fst (api_purchase_upload ses (Some items) now d) = Some (added, errors) /\
     (added + Z.of_nat (List.length errors))%Z = Z.of_nat (List.length items) /\
     Forall (fun n => (1 <= n <= Z.of_nat (List.length items))%Z) errors /\
     transactions (snd (api_purchase_upload ses (Some items) now d))
     = transactions d ++ new /\
     Z.of_nat (List.length new) = added /\
     Forall (fun t => txn_transaction_type t = "purchase"%string /\
                      txn_user_id t = session_user_id ses /\
                      txn_username t = session_username ses) new) /\
  (forall item n c q u,
     ui_item_name item = Some n -> ui_category item = Some c ->
     ui_quantity item = Some q -> ui_unit item = Some u ->
     fst (api_purchase_upload ses (Some [item]) now d) = Some (1%Z, []) /\
     (q == 0 \/ n = EmptyString ->
      api_purchase ses (purchase_request_of item) (now 0%Z) d = (Failure 400, d))).
Proof.
  split; [reflexivity |]. split.
  - intros items. unfold api_purchase_upload.
    destruct (upload_items_spec ses now items 0 0 [] d)
      as [a' [e' [new [E1 [E2 [[more [E3 [E4 E5]]] [E6 E7]]]]]]].
    destruct (upload_items ses now 0 items 0 [] d) as [r d'] eqn:Eu.
    cbn [fst snd] in *. subst r. exists a', e', new.
    split; [reflexivity |]. cbn [app] in E3. subst e'.
    split; [lia |]. split.
    + eapply Forall_impl; [| exact E5]. intros z Hz. cbv beta in *. lia.
    + split; [exact E6 |]. split; [lia | exact E7].
  - intros item n c q u En Ec Eq' Eu. split.
    + unfold api_purchase_upload. cbn [upload_items]. rewrite En, Ec, Eq', Eu.
      reflexivity.
    + intros H. unfold api_purchase, purchase_request_of.
      cbn [pr_item_name pr_category pr_quantity pr_unit]. rewrite En, Eq'.
      destruct H as [Hq | Hn].
      * rewrite (proj2 (Qeq_bool_iff q 0) Hq). cbn [negb].
        rewrite !andb_false_r, andb_false_l. reflexivity.
      * subst n. cbn [truthy String.eqb negb andb]. reflexivity.
Qed.

(** ** The detection of category and unit *)

Lemma prefix_contains (k s : string) : String.prefix k s = true -> contains k s = true.
Proof. intros H. destruct s; cbn [contains]; rewrite H; reflexivity. Qed.

Lemma contains_cons (k : string) (a : Ascii.ascii) (s : string) :
  contains k s = true -> contains k (String a s) = true.
Proof. intros H. cbn [contains]. rewrite H. apply orb_true_r. Qed.

(** A keyword without its first character is found wherever the keyword
    is. *)
Lemma contains_tail (c : Ascii.ascii) (k s : string) :
  contains (String c k) s = true -> contains k s = true.
Proof.
  induction s as [| a s' IH]; cbn [contains]; intros H.
  - cbn [String.prefix] in H. discriminate.
  - apply orb_true_iff in H. destruct H as [H | H].
    + cbn [String.prefix] in H.
      destruct (Ascii.ascii_dec c a); [| discriminate].
      apply contains_cons, prefix_contains, H.
    + apply contains_cons, IH, H.
Qed.

Lemma prefix_app_l (k k' s : string) :
  String.prefix (k ++ k') s = true -> String.prefix k s = true.
Proof.
  revert s. induction k as [| c k IH]; intros s H.
  - destruct s; reflexivity.
  - destruct s as [| a s']; cbn [String.append String.prefix] in *; [discriminate |].
    destruct (Ascii.ascii_dec c a); [apply IH, H | discriminate].
Qed.

(** A keyword without its ending is found wherever the keyword is. *)
Lemma contains_app_l (k k' s : string) :
  contains (k ++ k') s = true -> contains k s = true.
Proof.
  induction s as [| a s' IH]; cbn [contains]; intros H.
  - rewrite orb_false_r in *. eapply prefix_app_l, H.
  - apply orb_true_iff in H. destruct H as [H | H].
    + rewrite (prefix_app_l _ _ _ H). reflexivity.
    + rewrite (IH H). apply orb_true_r.
Qed.

Lemma detect_In (table : list (string * list string)) (default name_lower : string) :
  In (detect table default name_lower) (default :: map fst table).
Proof.
  induction table as [| [c kws] rest IH]; cbn [detect map fst].
  - left. reflexivity.
  - destruct (existsb _ kws).
    + right. left. reflexivity.
    + destruct IH as [E | H]; [left; exact E | right; right; exact H].
Qed.

Lemma keyword_found (keyword name_lower : string) (keywords : list string) :
  In keyword keywords -> contains keyword name_lower = true ->
  existsb (fun k => contains k name_lower) keywords = true.
Proof. intros Hin H. apply existsb_exists. exists keyword. split; assumption. Qed.

Lemma ice_captures (name_lower : string) :
  contains "ice" name_lower = true ->
  In (detect category_keywords "Grocery" name_lower)
     ["Beverages"; "Bread"; "Dairy"; "Desserts"; "Frozen Foods"]%string.
Proof.
  intros H. unfold category_keywords. cbn [detect].
  destruct (existsb _ _); [left; reflexivity |].
  destruct (existsb _ _); [right; left; reflexivity |].
  destruct (existsb _ _); [right; right; left; reflexivity |].
  destruct (existsb _ _); [right; right; right; left; reflexivity |].
  rewrite (keyword_found "ice" name_lower) by (cbn [In]; tauto).
  right. right. right. right. left. reflexivity.
Qed.

(** X28.  The category and the unit [api_purchase_preview] detects from an
    item name are always among the valid ones.  Detection takes the first
    table entry that has a keyword in the name, so keywords are lost to
    shorter ones listed earlier: "ice" of Frozen Foods is part of "rice",
    "spice" and "vermicelli", so that no name with one of these Grocery
    keywords is ever detected as Grocery; "cream" of Dairy takes every
    name with "ice cream" from Desserts; "water" of Beverages takes every
    name with "watermelon", and no such name gets the unit NOS that lists
    it. *)
Theorem X28_detect_category_and_unit (lower : string -> string) (item_name : string) :
  In (detect_category lower item_name) valid_categories /\
  In (detect_unit lower item_name) valid_units /\
  (contains "rice" (lower item_name) = true \/
   contains "spice" (lower item_name) = true \/
   contains "vermicelli" (lower item_name) = true ->
   In (detect_category lower item_name)
      ["Beverages"; "Bread"; "Dairy"; "Desserts"; "Frozen Foods"]%string /\
   detect_category lower item_name <> "Grocery"%string) /\
  (contains "ice cream" (lower item_name) = true ->
   In (detect_category lower item_name) ["Beverages"; "Bread"; "Dairy"]%string /\
   detect_category lower item_name <> "Desserts"%string) /\
  (contains "watermelon" (lower item_name) = true ->
   detect_category lower item_name = "Beverages"%string /\
   In (detect_unit lower item_name) ["BTL"; "KG"; "LTR"]%string /\
   detect_unit lower item_name <> "NOS"%string) /\
  detect_category (fun s => s) "basmati rice" = "Frozen Foods"%string /\
  detect_category (fun s => s) "watermelon" = "Beverages"%string /\
  detect_unit (fun s => s) "watermelon" = "LTR"%string.
Proof.
  unfold detect_category, detect_unit.
  split; [| split; [| split; [| split; [| split]]]].
  - pose proof (detect_In category_keywords "Grocery" (lower item_name)) as H.
    cbn [category_keywords map fst In] in H. cbn [valid_categories In]. tauto.
  - pose proof (detect_In unit_keywords "KG" (lower item_name)) as H.
    cbn [unit_keywords map fst In] in H. cbn [valid_units In]. tauto.
  - intros H.
    assert (Ice : contains "ice" (lower item_name) = true).
    { destruct H as [H | [H | H]].
      - exact (contains_tail _ _ _ H).
      - exact (contains_tail _ _ _ (contains_tail _ _ _ H)).
      - apply (contains_app_l "ice" "lli").
        exact (contains_tail _ _ _ (contains_tail _ _ _
                 (contains_tail _ _ _ (contains_tail _ _ _ H)))). }
    pose proof (ice_captures _ Ice) as Hin. split; [exact Hin |].
    intros E. rewrite E in Hin. cbn [In] in Hin.
    repeat (destruct Hin as [Hin | Hin]; [discriminate |]). exact Hin.
  - intros H.
    assert (Cream : contains "cream" (lower item_name) = true).
    { exact (contains_tail _ _ _ (contains_tail _ _ _
               (contains_tail _ _ _ (contains_tail _ _ _ H)))). }
    assert (Hin : In (detect category_keywords "Grocery" (lower item_name))
                     ["Beverages"; "Bread"; "Dairy"]%string).
    { unfold category_keywords. cbn [detect].
      destruct (existsb _ _); [left; reflexivity |].
      destruct (existsb _ _); [right; left; reflexivity |].
      rewrite (keyword_found "cream" (lower item_name)) by (cbn [In]; tauto).
      right. right. left. reflexivity. }
    split; [exact Hin |]. intros E. rewrite E in Hin. cbn [In] in Hin.
    repeat (destruct Hin as [Hin | Hin]; [discriminate |]). exact Hin.
  - intros H.
    assert (Water : contains "water" (lower item_name) = true)
      by (apply (contains_app_l "water" "melon"), H).
    split; [| split].
    + unfold category_keywords. cbn [detect].
      rewrite (keyword_found "water" (lower item_name)) by (cbn [In]; tauto).
      reflexivity.
    + unfold unit_keywords. cbn [detect].
      destruct (existsb _ _); [left; reflexivity |].
      destruct (existsb _ _); [right; left; reflexivity |].
      rewrite (keyword_found "water" (lower item_name)) by (cbn [In]; tauto).
      right. right. left. reflexivity.
    + unfold unit_keywords. cbn [detect].
      destruct (existsb _ _); [discriminate |].
      destruct (existsb _ _); [discriminate |].
      rewrite (keyword_found "water" (lower item_name)) by (cbn [In]; tauto).
      discriminate.
  - split; [vm_compute; reflexivity |]. split; vm_compute; reflexivity.
Qed.

(** ** The dashboard's price trends against the report's *)




(** ** The dashboard's daily trend against its summary *)

Lemma insert_date_In (k : Z) (l : list Z) (x : Z) :
  In x (insert_date k l) <-> x = k \/ In x l.
Proof.
  induction l as [| h t IH]; cbn [insert_date].
  - cbn [In]. intuition.
  - destruct (Z.compare_spec k h) as [E | L | G]; cbn [In].
    + subst h. intuition.
    + intuition.
    + rewrite IH. intuition.
Qed.

Lemma date_keys_In (dates : list Z) (x : Z) : In x (date_keys dates) <-> In x dates.
Proof.
  induction dates as [| d t IH]; cbn [date_keys fold_right]; [reflexivity |].
  rewrite insert_date_In. fold (date_keys t). rewrite IH. cbn [In]. intuition.
Qed.

Lemma insert_date_sorted (k : Z) (l : list Z) :
  StronglySorted Z.lt l -> StronglySorted Z.lt (insert_date k l).
Proof.
  induction 1 as [| h t Ht IH Hh]; cbn [insert_date].
  - repeat constructor.
  - destruct (Z.compare_spec k h) as [E | L | G].
    + constructor; assumption.
    + constructor; [constructor; assumption |].
      constructor; [exact L |].
      eapply Forall_impl; [| exact Hh]. intros z Hz. cbv beta in *. lia.
    + constructor; [exact IH |].
      apply Forall_forall. intros z Hz. apply insert_date_In in Hz.
      destruct Hz as [E | Hz]; [subst z; exact G |].
      exact (proj1 (Forall_forall _ _) Hh z Hz).
Qed.

Lemma date_keys_sorted (dates : list Z) : StronglySorted Z.lt (date_keys dates).
Proof.
  induction dates as [| d t IH]; cbn [date_keys fold_right]; [constructor |].
  apply insert_date_sorted, IH.
Qed.

Lemma sorted_lt_NoDup (l : list Z) : StronglySorted Z.lt l -> NoDup l.
Proof.
  induction 1 as [| h t _ IH Hh]; constructor; [| exact IH].
  intros Hin. pose proof (proj1 (Forall_forall _ _) Hh h Hin). lia.
Qed.

Lemma Qsum_by_date {A : Type} (date_of : A -> Z) (val_of : A -> Q)
    (keys : list Z) (rows : list A) :
  NoDup keys -> (forall r, In r rows -> In (date_of r) keys) ->
  Qsum (map (fun k => Qsum (map val_of
                              (filter (fun r => (date_of r =? k)%Z) rows))) keys)
  == Qsum (map val_of rows).
Proof.
  intros ND. induction rows as [| r t IH]; intros Cov.
  - cbn [filter map]. apply Qsum_zero.
  - assert (Hone : forall ks, NoDup ks ->
              Qsum (map (fun k => Qsum (map val_of
                       (filter (fun r0 => (date_of r0 =? k)%Z) (r :: t)))) ks)
              == Qsum (map (fun k => Qsum (map val_of
                       (filter (fun r0 => (date_of r0 =? k)%Z) t))) ks)
                 + (if in_dec Z.eq_dec (date_of r) ks then val_of r else 0)).
    { clear. induction ks as [| k ks IHk]; intros ND.
      - simpl. ring.
      - inversion ND as [| ? ? Nin ND']; subst.
        cbn [map]. change (Qsum (?a :: ?l)) with (a + Qsum l).
        rewrite (IHk ND'). cbn [filter].
        destruct (Z.eqb_spec (date_of r) k) as [E | NE].
        + subst k. destruct (in_dec Z.eq_dec (date_of r) (date_of r :: ks)) as [_ | n];
            [| exfalso; apply n; left; reflexivity].
          destruct (in_dec Z.eq_dec (date_of r) ks) as [i | _]; [contradiction |].
          cbn [map]. change (Qsum (?a :: ?l)) with (a + Qsum l). ring.
        + destruct (in_dec Z.eq_dec (date_of r) (k :: ks)) as [i | n];
            destruct (in_dec Z.eq_dec (date_of r) ks) as [i' | n']; try ring.
          * destruct i as [E | i]; [congruence | contradiction].
          * exfalso. apply n. right. exact i'. }
    rewrite (Hone keys ND), IH by (intros x Hx; apply Cov; right; exact Hx).
    destruct (in_dec Z.eq_dec (date_of r) keys) as [_ | n].
    + cbn [map]. change (Qsum (?a :: ?l)) with (a + Qsum l). ring.
    + exfalso. apply n, Cov. left. reflexivity.
Qed.

Lemma fold_min_spec (a : Z) (t : list Z) :
  In (fold_right Z.min a t) (a :: t) /\
  forall x, In x (a :: t) -> (fold_right Z.min a t <= x)%Z.
Proof.
  induction t as [| b t IH]; cbn [fold_right].
  - split; [left; reflexivity |]. intros x [E | []]. lia.
  - destruct IH as [Hin Hle]. split.
    + destruct (Z.min_spec b (fold_right Z.min a t)) as [[_ E] | [_ E]]; rewrite E.
      * right. left. reflexivity.
      * destruct Hin as [E' | Hin]; [left; exact E' | right; right; exact Hin].
    + intros x [E | [E | Hx]].
      * subst x. pose proof (Hle a (or_introl eq_refl)). lia.
      * subst x. lia.
      * pose proof (Hle x (or_intror Hx)). lia.
Qed.

Lemma fold_max_spec (a : Z) (t : list Z) :
  In (fold_right Z.max a t) (a :: t) /\
  forall x, In x (a :: t) -> (x <= fold_right Z.max a t)%Z.
Proof.
  induction t as [| b t IH]; cbn [fold_right].
  - split; [left; reflexivity |]. intros x [E | []]. lia.
  - destruct IH as [Hin Hle]. split.
    + destruct (Z.max_spec b (fold_right Z.max a t)) as [[_ E] | [_ E]]; rewrite E.
      * destruct Hin as [E' | Hin]; [left; exact E' | right; right; exact Hin].
      * right. left. reflexivity.
    + intros x [E | [E | Hx]].
      * subst x. pose proof (Hle a (or_introl eq_refl)). lia.
      * subst x. lia.
      * pose proof (Hle x (or_intror Hx)). lia.
Qed.

Lemma sorted_lt_last (l : list Z) (d0 x : Z) :
  StronglySorted Z.lt l -> In x l -> (x <= last l d0)%Z.
Proof.
  intros Sd. revert x. induction Sd as [| a t Ht IH Ha]; intros x Hx; [contradiction |].
  destruct t as [| b t'].
  - destruct Hx as [E | []]. subst x. cbn [last]. lia.
  - change (last (a :: b :: t') d0) with (last (b :: t') d0).
    destruct Hx as [E | Hx]; [| exact (IH x Hx)].
    subst x. inversion Ha as [| ? ? Hab _]; subst.
    pose proof (IH b (or_introl eq_refl)). lia.
Qed.

(** X30.  The dashboard's daily trend and its summary tell one story.
    [daily_sales_trend] has one row for every date with a sale, in
    strictly ascending order of date, and its revenue, profit and quantity
    columns add up to the totals over all sales; [get_summary] fails
    exactly on a sales frame without rows, and otherwise its total revenue
    and total profit are the sums of the daily figures and its date range
    runs from the first to the last day of the trend. *)
Theorem X30_daily_trend_and_summary (purchase_df : list purchase_record)
    (sales_df : list sale_record) :
  let daily := daily_sales_trend sales_df in
  StronglySorted Z.lt (map dy_date daily) /\
  (forall day, In day (map dy_date daily) <-> In day (map sal_date sales_df)) /\
  Qsum (map dy_quantity_sold daily) == Qsum (map sal_quantity_sold sales_df) /\
  (get_summary purchase_df sales_df = None <-> sales_df = []) /\
  forall s, get_summary purchase_df sales_df = Some s ->
    Qsum (map dy_revenue daily) == su_total_revenue s /\
    Qsum (map dy_profit daily) == su_total_profit s /\
    su_total_purchase s = Qsum (map pur_amount purchase_df) /\
    hd_error (map dy_date daily) = Some (su_date_start s) /\
    last (map dy_date daily) 0%Z = su_date_end s.
Proof.
  intros daily.
  assert (Dates : map dy_date daily = date_keys (map sal_date sales_df)).
  { unfold daily, daily_sales_trend. rewrite map_map. cbn [dy_date]. apply map_id. }
  pose proof (date_keys_sorted (map sal_date sales_df)) as Sd.
  assert (Sum : forall val_of : sale_record -> Q,
            Qsum (map (fun day => Qsum (map val_of
                         (filter (fun r => (sal_date r =? day)%Z) sales_df)))
                    (date_keys (map sal_date sales_df)))
            == Qsum (map val_of sales_df)).
  { intros val_of. apply Qsum_by_date.
    - apply sorted_lt_NoDup, Sd.
    - intros r Hr. apply date_keys_In, in_map, Hr. }
  assert (SRev : Qsum (map dy_revenue daily) == Qsum (map sal_revenue sales_df))
    by (unfold daily, daily_sales_trend; rewrite map_map; apply Sum).
  assert (SProf : Qsum (map dy_profit daily) == Qsum (map sal_profit sales_df))
    by (unfold daily, daily_sales_trend; rewrite map_map; apply Sum).
  assert (SQty : Qsum (map dy_quantity_sold daily)
                 == Qsum (map sal_quantity_sold sales_df))
    by (unfold daily, daily_sales_trend; rewrite map_map; apply Sum).
  clear Sum. rewrite Dates. clearbody daily.
  split; [exact Sd |]. split; [intros day; apply date_keys_In |].
  split; [exact SQty |].
  split.
  - unfold get_summary. destruct sales_df as [| r t]; cbn [map date_min date_max].
    + split; reflexivity.
    + split; intros H; discriminate.
  - intros s Hs. unfold get_summary in Hs.
    destruct (map sal_date sales_df) as [| a t] eqn:Ed; [discriminate |].
    cbn [date_min date_max] in Hs. inversion Hs. subst s. clear Hs.
    cbn [su_total_revenue su_total_profit su_total_purchase su_date_start su_date_end].
    split; [exact SRev |]. split; [exact SProf |].
    split; [reflexivity |].
    destruct (fold_min_spec a t) as [MinIn MinLe].
    destruct (fold_max_spec a t) as [MaxIn MaxLe].
    assert (Mem : forall x, In x (date_keys (a :: t)) <-> In x (a :: t))
      by (intros x; apply date_keys_In).
    destruct (date_keys (a :: t)) as [| h l] eqn:Ek.
    { exfalso. apply (proj2 (Mem a) (or_introl eq_refl)). }
    split.
    + cbn [hd_error]. f_equal.
      pose proof (MinLe h (proj1 (Mem h) (or_introl eq_refl))) as L1.
      apply Mem in MinIn. destruct MinIn as [E | Hin]; [exact E |].
      inversion Sd as [| ? ? _ Hh]; subst.
      pose proof (proj1 (Forall_forall _ _) Hh _ Hin). lia.
    + pose proof (sorted_lt_last (h :: l) 0%Z _ Sd (proj2 (Mem _) MaxIn)) as L1.
      assert (Hl : In (last (h :: l) 0%Z) (h :: l)).
      { clear. revert h. induction l as [| b t IH]; intros h; [left; reflexivity |].
        right. change (last (h :: b :: t) 0%Z) with (last (b :: t) 0%Z). apply IH. }
      pose proof (MaxLe _ (proj1 (Mem _) Hl)). lia.
Qed.
